(** * The quick JNI stub compiler (compiler/jni/quick/jni_compiler.cc)

    A shallow embedding of [ArtJniCompileMethodInternal] and its helpers.
    The macro assembler, the calling conventions and the runtime layout
    are collaborators of the compiler whose sources are not part of this
    file: the conventions and the layout constants are taken as fields of
    records, the assembler as the recorded sequence of the calls made on it.

    Integers: [size_t] is the 64-bit unsigned type of an LP64 host, [int]
    the 32-bit signed type; both are [Z] with the wrap-around written out
    ([size_t_wrap], [to_int]). *)

From Stdlib Require Import ZArith List String Ascii Bool Lia.
Import ListNotations.
Local Open Scope Z_scope.

(** ** Machine integers *)

Definition size_t_wrap (z : Z) : Z := z mod 2 ^ 64.

(** [static_cast<int>(x)] (two's complement). *)
Definition to_int (z : Z) : Z := (z + 2 ^ 31) mod 2 ^ 32 - 2 ^ 31.

(** ** Registers, offsets, labels *)

(** utils/managed_register.h: a register is an id, [kNoRegister] is -1. *)
Definition ManagedRegister := Z.
Definition NoRegister : ManagedRegister := -1.
Definition IsNoRegister (r : ManagedRegister) : bool := r =? NoRegister.
Definition IsRegister (r : ManagedRegister) : bool := negb (IsNoRegister r).
Definition Equals (a b : ManagedRegister) : bool := a =? b.

Inductive PointerSize := k32 | k64.

Definition kRawPointerSize (p : PointerSize) : Z :=
  match p with k32 => 4 | k64 => 8 end.

(** [static_assert(kObjectReferenceSize == 4u)]. *)
Definition kObjectReferenceSize : Z := 4.

Definition FrameOffset := Z.
Definition Label := nat.

Inductive QuickEntrypoint :=
| pJniMethodStart
| pJniMethodStartSynchronized
| pJniMethodEnd
| pJniMethodEndSynchronized
| pJniMethodEndWithReference
| pJniMethodEndWithReferenceSynchronized
| pJniDecodeReferenceResult
| pReadBarrierJni
| pTestSuspend.

(** Offsets from the thread pointer, kept symbolic. *)
Inductive ThreadOffset :=
| QUICK_ENTRYPOINT_OFFSET (p : PointerSize) (e : QuickEntrypoint)
| TopOfManagedStackOffset (p : PointerSize)
| JniEnvOffset (p : PointerSize)
| ThreadOffsetValue (v : Z).

(** Offsets inside an object, kept symbolic. *)
Inductive MemberOffset :=
| EntryPointFromJniOffset (p : PointerSize)
| LocalRefCookieOffset (pointer_size : Z)
| SegmentStateOffset (pointer_size : Z)
| MemberOffsetValue (v : Z).

(** The [Offset] base class, as taken by [Call] and [Jump]. *)
Inductive Offset :=
| OfThread (t : ThreadOffset)
| OfMember (m : MemberOffset).

Inductive JNIMacroUnaryCondition := kZero | kNotZero.

Inductive PrimitiveType :=
| kPrimNot | kPrimBoolean | kPrimByte | kPrimChar | kPrimShort
| kPrimInt | kPrimLong | kPrimFloat | kPrimDouble | kPrimVoid.

Definition PrimitiveType_eqb (a b : PrimitiveType) : bool :=
  match a, b with
  | kPrimNot, kPrimNot | kPrimBoolean, kPrimBoolean | kPrimByte, kPrimByte
  | kPrimChar, kPrimChar | kPrimShort, kPrimShort | kPrimInt, kPrimInt
  | kPrimLong, kPrimLong | kPrimFloat, kPrimFloat | kPrimDouble, kPrimDouble
  | kPrimVoid, kPrimVoid => true
  | _, _ => false
  end.

Inductive InstructionSet :=
| kNone | kArm | kArm64 | kThumb2 | kX86 | kX86_64.

(** [ArgumentLocation]: a register or a stack slot, with a size in bytes. *)
Inductive ArgumentLocation :=
| ArgInRegister (reg : ManagedRegister) (size : Z)
| ArgOnStack (offset : FrameOffset) (size : Z).

Definition ArgSize (a : ArgumentLocation) : Z :=
  match a with ArgInRegister _ s | ArgOnStack _ s => s end.

(** ** The macro assembler, as the calls the compiler makes on it *)

Inductive AsmOp :=
| CfiSetEnabled (b : bool)
| SetEmitRunTimeChecksInDebugMode (b : bool)
| BuildFrame (frame_size : Z) (method_reg : ManagedRegister)
             (callee_save_regs : list ManagedRegister)
| RemoveFrame (frame_size : Z) (callee_save_regs : list ManagedRegister)
              (may_suspend : bool)
| IncreaseFrameSize (adjust : Z)
| DecreaseFrameSize (adjust : Z)
| CfiAdjustCFAOffset (delta : Z)
| TestGcMarking (l : option Label) (cond : JNIMacroUnaryCondition)
| TestMarkBit (r : ManagedRegister) (l : option Label)
              (cond : JNIMacroUnaryCondition)
| Bind (l : option Label)
| JumpLabel (l : option Label)
| StoreStackPointerToThread (t : ThreadOffset)
| MoveArguments (dests srcs : list ArgumentLocation) (refs : list FrameOffset)
| CreateJObjectStack (out_off spilled_reference_offset : FrameOffset)
                     (null_allowed : bool)
| CreateJObjectReg (out_reg : ManagedRegister)
                   (spilled_reference_offset : FrameOffset)
                   (in_reg : ManagedRegister) (null_allowed : bool)
| GetCurrentThreadReg (r : ManagedRegister)
| GetCurrentThreadStack (off : FrameOffset)
| Call (base : ManagedRegister) (off : Offset)
| CallFromThread (t : ThreadOffset)
| Jump (base : ManagedRegister) (off : Offset)
| ExceptionPoll (l : option Label)
| SuspendCheck (l : option Label)
| LoadRawPtrFromThread (dst : ManagedRegister) (t : ThreadOffset)
| Load (dst : ManagedRegister) (src : FrameOffset) (size : Z)
| LoadMember (dst base : ManagedRegister) (off : MemberOffset) (size : Z)
| Store (dst : FrameOffset) (src : ManagedRegister) (size : Z)
| StoreMember (base : ManagedRegister) (off : MemberOffset)
              (src : ManagedRegister) (size : Z)
| StoreRawPtr (dst : FrameOffset) (src : ManagedRegister)
| Move (dst src : ManagedRegister) (size : Z)
| Copy (dst src : FrameOffset) (size : Z)
| SignExtend (r : ManagedRegister) (size : Z)
| ZeroExtend (r : ManagedRegister) (size : Z)
| DeliverPendingException
| FinalizeCode
| FinalizeInstructions.

(** What the compiler does, in order: a call on the assembler, or an access
    to its local variable [method_register] (the value assigned, or the
    value handed out as an operand). *)
Inductive Event :=
| Asm (op : AsmOp)
| MethodRegisterWrite (r : ManagedRegister)
| MethodRegisterRead (r : ManagedRegister).

(** Modelled from the spec: the CFI bookkeeping of the macro assembler,
    whose source is not in this file.  [BuildFrame] leaves the CFA offset at
    the frame size (asserted at line 234), [IncreaseFrameSize] and
    [DecreaseFrameSize] move it by their argument,
    [cfi().AdjustCFAOffset] by its (int) argument, and [RemoveFrame]
    re-defines it as the frame size for the code that follows the return
    (asserted at line 709).  No other call touches it. *)
Definition cfa_step (op : AsmOp) (cfa : Z) : Z :=
  match op with
  | BuildFrame frame_size _ _ => to_int frame_size
  | RemoveFrame frame_size _ _ => to_int frame_size
  | IncreaseFrameSize adjust => to_int (cfa + to_int adjust)
  | DecreaseFrameSize adjust => to_int (cfa - to_int adjust)
  | CfiAdjustCFAOffset delta => to_int (cfa + delta)
  | _ => cfa
  end.

Definition event_cfa (e : Event) (cfa : Z) : Z :=
  match e with Asm op => cfa_step op cfa | _ => cfa end.

(** The CFA offset after a sequence of events, from offset 0. *)
Definition cfa_of (es : list Event) : Z :=
  fold_left (fun cfa e => event_cfa e cfa) es 0.

(** ** Calling conventions (calling_convention.h)

    An iterator position is the number of [Next()] calls since the last
    [ResetIterator(displacement)]; every query of the current parameter is
    a function of that position (and of the displacement for a stack
    offset).  [HasNext()] holds below the number of parameters. *)

Record ManagedRuntimeCallingConvention := {
  mr_NumArgs : nat;
  mr_IsParamInRegister : nat -> bool;
  mr_ParamRegister : nat -> ManagedRegister;
  mr_ParamStackOffset : Z -> nat -> FrameOffset;
  mr_IsParamAReference : nat -> bool;
  mr_IsParamALongOrDouble : nat -> bool;
  mr_MethodRegister : ManagedRegister;
  mr_MethodStackOffset : FrameOffset;
  mr_ReturnRegister : ManagedRegister;
  mr_SizeOfReturnValue : Z
}.

Record JniCallingConvention := {
  jni_NumArgs : nat;
  jni_IsParamInRegister : nat -> bool;
  jni_IsParamOnStack : nat -> bool;
  jni_ParamRegister : nat -> ManagedRegister;
  jni_ParamStackOffset : Z -> nat -> FrameOffset;
  jni_ParamSize : nat -> Z;
  jni_FrameSize : Z;
  jni_OutFrameSize : Z;
  jni_CalleeSaveRegisters : list ManagedRegister;
  jni_CalleeSaveScratchRegisters : list ManagedRegister;
  jni_CoreSpillMask : Z;
  jni_FpSpillMask : Z;
  jni_IsReturnAReference : bool;
  jni_ReturnRegister : ManagedRegister;
  jni_SizeOfReturnValue : Z;
  jni_SpillsReturnValue : bool;
  jni_ReturnValueSaveLocation : FrameOffset;
  jni_RequiresSmallResultTypeExtension : bool;
  jni_HasSmallReturnType : bool;
  jni_GetReturnType : PrimitiveType;
  jni_UseTailCall : bool;
  jni_HiddenArgumentRegister : ManagedRegister
}.

(** ** Build configuration and the runtime's constants and factories *)

Record Environment := {
  kIsDebugBuild : bool;
  kUseReadBarrier : bool;
  kUseBakerReadBarrier : bool;
  kAccNative : Z;
  kAccStatic : Z;
  kAccSynchronized : Z;
  kAccFastNative : Z;
  kAccCriticalNative : Z;
  kInvalidReferenceOffset : FrameOffset;
  kIRTCookieSize : Z;
  ArtMethod_DeclaringClassOffset : Z;
  Primitive_GetType : ascii -> PrimitiveType;
  Primitive_ComponentSize : PrimitiveType -> Z;
  JniCallingConvention_Create :
    bool -> bool -> bool -> bool -> string -> InstructionSet ->
    JniCallingConvention;
  ManagedRuntimeCallingConvention_Create :
    bool -> bool -> string -> InstructionSet ->
    ManagedRuntimeCallingConvention;
  CoreRegisterWithSize : ManagedRegister -> Z -> ManagedRegister;
  Is64BitInstructionSet : InstructionSet -> bool;
  InstructionSetPointerSize : InstructionSet -> PointerSize;
  (* the bytes the assembler produces for a sequence of calls *)
  AssembledCode : list AsmOp -> list Z;
  CfiData : list AsmOp -> list Z
}.

Record CompilerOptions := {
  GetInstructionSet : InstructionSet;
  GenerateAnyDebugInfo : bool;
  EmitRunTimeChecksInDebugMode : bool
}.

(** [dex_file.GetMethodShorty(dex_file.GetMethodId(method_idx))]. *)
Record DexFile := {
  GetMethodShorty : Z -> string
}.

Record JniCompiledMethod := {
  cm_instruction_set : InstructionSet;
  cm_code : list Z;
  cm_frame_size : Z;
  cm_core_spill_mask : Z;
  cm_fp_spill_mask : Z;
  cm_cfi : list Z
}.

(** ** The emitter's state and its monad *)

Record State := mkState {
  trace_rev : list Event;          (* most recent first *)
  next_label : nat;
  mr_itr : nat;
  mr_displacement : Z;
  main_itr : nat;
  main_displacement : Z;
  end_itr : nat;
  end_displacement : Z;
  method_register : ManagedRegister;
  current_frame_size : Z;
  current_out_arg_size : Z;
  return_save_location : FrameOffset;
  src_args : list ArgumentLocation;
  dest_args : list ArgumentLocation;
  refs : list FrameOffset
}.

Definition initial_state : State :=
  mkState [] 0 0 0 0 0 0 0 NoRegister 0 0 0 [] [] [].

Definition trace (s : State) : list Event := rev (trace_rev s).

Definition asm_of (e : Event) : list AsmOp :=
  match e with Asm op => [op] | _ => [] end.

Definition asm_trace (s : State) : list AsmOp := flat_map asm_of (trace s).

(** A fatal check ([CHECK], [DCHECK] in a debug build, [LOG(FATAL)]), with
    the source line of the check. *)
Inductive Failure :=
| CheckFailed (line : nat)
| DCheckFailed (line : nat)
| LogFatal (line : nat).

Inductive Result (A : Type) :=
| Ok (a : A)
| Fatal (f : Failure).
Arguments Ok {A} a.
Arguments Fatal {A} f.

Definition M (A : Type) : Type := State -> State * Result A.

Definition ret {A} (a : A) : M A := fun s => (s, Ok a).

Definition bind {A B} (m : M A) (k : A -> M B) : M B :=
  fun s => match m s with
           | (s', Ok a) => k a s'
           | (s', Fatal f) => (s', Fatal f)
           end.

Declare Scope emit_scope.
Delimit Scope emit_scope with emit.
Notation "x <- m ;; k" := (bind m (fun x => k))
  (at level 61, m at next level, right associativity) : emit_scope.
Notation "m ;; k" := (bind m (fun _ => k))
  (at level 61, right associativity) : emit_scope.
Local Open Scope emit_scope.

Definition fail {A} (f : Failure) : M A := fun s => (s, Fatal f).

Definition gets {A} (f : State -> A) : M A := fun s => (s, Ok (f s)).

(** An update of the emitter's own variables. *)
Definition update (f : State -> State) : M unit := fun s => (f s, Ok tt).

Definition when (b : bool) (m : M unit) : M unit := if b then m else ret tt.

Definition CHECK (line : nat) (cond : bool) : M unit :=
  if cond then ret tt else fail (CheckFailed line).

(** ** State updates *)

Definition record_event (e : Event) (s : State) : State :=
  mkState (e :: trace_rev s) (next_label s)
          (mr_itr s) (mr_displacement s) (main_itr s) (main_displacement s)
          (end_itr s) (end_displacement s) (method_register s)
          (current_frame_size s) (current_out_arg_size s)
          (return_save_location s) (src_args s) (dest_args s) (refs s).

Definition set_next_label (n : nat) (s : State) : State :=
  mkState (trace_rev s) n
          (mr_itr s) (mr_displacement s) (main_itr s) (main_displacement s)
          (end_itr s) (end_displacement s) (method_register s)
          (current_frame_size s) (current_out_arg_size s)
          (return_save_location s) (src_args s) (dest_args s) (refs s).

Definition set_mr_iterator (i : nat) (d : Z) (s : State) : State :=
  mkState (trace_rev s) (next_label s)
          i d (main_itr s) (main_displacement s)
          (end_itr s) (end_displacement s) (method_register s)
          (current_frame_size s) (current_out_arg_size s)
          (return_save_location s) (src_args s) (dest_args s) (refs s).

Definition set_main_iterator (i : nat) (d : Z) (s : State) : State :=
  mkState (trace_rev s) (next_label s)
          (mr_itr s) (mr_displacement s) i d
          (end_itr s) (end_displacement s) (method_register s)
          (current_frame_size s) (current_out_arg_size s)
          (return_save_location s) (src_args s) (dest_args s) (refs s).

Definition set_end_iterator (i : nat) (d : Z) (s : State) : State :=
  mkState (trace_rev s) (next_label s)
          (mr_itr s) (mr_displacement s) (main_itr s) (main_displacement s)
          i d (method_register s)
          (current_frame_size s) (current_out_arg_size s)
          (return_save_location s) (src_args s) (dest_args s) (refs s).

Definition set_method_register (r : ManagedRegister) (s : State) : State :=
  mkState (trace_rev s) (next_label s)
          (mr_itr s) (mr_displacement s) (main_itr s) (main_displacement s)
          (end_itr s) (end_displacement s) r
          (current_frame_size s) (current_out_arg_size s)
          (return_save_location s) (src_args s) (dest_args s) (refs s).

Definition set_current_frame_size (v : Z) (s : State) : State :=
  mkState (trace_rev s) (next_label s)
          (mr_itr s) (mr_displacement s) (main_itr s) (main_displacement s)
          (end_itr s) (end_displacement s) (method_register s)
          v (current_out_arg_size s)
          (return_save_location s) (src_args s) (dest_args s) (refs s).

Definition set_current_out_arg_size (v : Z) (s : State) : State :=
  mkState (trace_rev s) (next_label s)
          (mr_itr s) (mr_displacement s) (main_itr s) (main_displacement s)
          (end_itr s) (end_displacement s) (method_register s)
          (current_frame_size s) v
          (return_save_location s) (src_args s) (dest_args s) (refs s).

Definition set_return_save_location (v : FrameOffset) (s : State) : State :=
  mkState (trace_rev s) (next_label s)
          (mr_itr s) (mr_displacement s) (main_itr s) (main_displacement s)
          (end_itr s) (end_displacement s) (method_register s)
          (current_frame_size s) (current_out_arg_size s)
          v (src_args s) (dest_args s) (refs s).

Definition set_arg_vectors (srcs dests : list ArgumentLocation)
           (rs : list FrameOffset) (s : State) : State :=
  mkState (trace_rev s) (next_label s)
          (mr_itr s) (mr_displacement s) (main_itr s) (main_displacement s)
          (end_itr s) (end_displacement s) (method_register s)
          (current_frame_size s) (current_out_arg_size s)
          (return_save_location s) srcs dests rs.

(** ** Primitive actions *)

(** [__ op]: a call on the assembler. *)
Definition emit (op : AsmOp) : M unit :=
  fun s => (record_event (Asm op) s, Ok tt).

(** [__ CreateLabel()]. *)
Definition CreateLabel : M (option Label) :=
  fun s => (set_next_label (S (next_label s)) s, Ok (Some (next_label s))).

(** [method_register = r]. *)
Definition assign_method_register (r : ManagedRegister) : M unit :=
  fun s => (set_method_register r (record_event (MethodRegisterWrite r) s),
            Ok tt).

(** [method_register] used as an operand. *)
Definition use_method_register : M ManagedRegister :=
  fun s => (record_event (MethodRegisterRead (method_register s)) s,
            Ok (method_register s)).

(** [jni_asm->cfi().GetCurrentCFAOffset()]: the offset the calls made so
    far leave behind. *)
Definition GetCurrentCFAOffset : M Z := gets (fun s => cfa_of (trace s)).

(** [vec.push_back(x)] on the three argument vectors at once. *)
Definition push_arg (src dest : ArgumentLocation) (ref : FrameOffset) : M unit :=
  update (fun s => set_arg_vectors (src_args s ++ [src]) (dest_args s ++ [dest])
                                   (refs s ++ [ref]) s).

Definition clear_args : M unit := update (set_arg_vectors [] [] []).

(** [__ MoveArguments(dest_args, src_args, refs)]. *)
Definition emit_MoveArguments : M unit :=
  d <- gets dest_args ;; a <- gets src_args ;; r <- gets refs ;;
  emit (MoveArguments d a r).

Inductive JniEntrypoint := kStart | kEnd.

(** [GetJniEntrypointThreadOffset<kPointerSize>(which, reference_return,
    is_synchronized)]. *)
Definition GetJniEntrypointThreadOffset (kPointerSize : PointerSize)
           (which : JniEntrypoint) (reference_return is_synchronized : bool)
  : ThreadOffset :=
  match which with
  | kStart =>
      if is_synchronized
      then QUICK_ENTRYPOINT_OFFSET kPointerSize pJniMethodStartSynchronized
      else QUICK_ENTRYPOINT_OFFSET kPointerSize pJniMethodStart
  | kEnd =>
      if reference_return
      then (if is_synchronized
            then QUICK_ENTRYPOINT_OFFSET kPointerSize
                                         pJniMethodEndWithReferenceSynchronized
            else QUICK_ENTRYPOINT_OFFSET kPointerSize pJniMethodEndWithReference)
      else (if is_synchronized
            then QUICK_ENTRYPOINT_OFFSET kPointerSize pJniMethodEndSynchronized
            else QUICK_ENTRYPOINT_OFFSET kPointerSize pJniMethodEnd)
  end.

(** The shorty of the [end_jni_conv] (lines 199-206). *)
Definition jni_end_shorty (reference_return is_synchronized : bool) : string :=
  if reference_return && is_synchronized then "IL"%string
  else if reference_return then "I"%string
  else "V"%string.

(** Which of the two JNI conventions an iterator call is made on. *)
Inductive JniConvRef := MainConv | EndConv.

Section Emitter.

Variable env : Environment.
Variable kPointerSize : PointerSize.
Variable instruction_set : InstructionSet.
Variables is_static is_synchronized is_fast_native is_critical_native : bool.
Variables main_jni_conv end_jni_conv : JniCallingConvention.
Variable mr_conv : ManagedRuntimeCallingConvention.

Let reference_return : bool := jni_IsReturnAReference main_jni_conv.
Let kRaw : Z := kRawPointerSize kPointerSize.
Let kInvalid : FrameOffset := kInvalidReferenceOffset env.

Definition DCHECK (line : nat) (cond : bool) : M unit :=
  if kIsDebugBuild env
  then (if cond then ret tt else fail (DCheckFailed line))
  else ret tt.

(** *** Iterators *)

Definition mr_ResetIterator (displacement : Z) : M unit :=
  update (set_mr_iterator 0 displacement).
Definition mr_Next : M unit :=
  update (fun s => set_mr_iterator (S (mr_itr s)) (mr_displacement s) s).
Definition mr_HasNext : M bool :=
  gets (fun s => (mr_itr s <? mr_NumArgs mr_conv)%nat).
Definition mr_Remaining : M nat :=
  gets (fun s => (mr_NumArgs mr_conv - mr_itr s)%nat).
Definition mr_IsCurrentParamInRegister : M bool :=
  gets (fun s => mr_IsParamInRegister mr_conv (mr_itr s)).
Definition mr_CurrentParamRegister : M ManagedRegister :=
  gets (fun s => mr_ParamRegister mr_conv (mr_itr s)).
Definition mr_CurrentParamStackOffset : M FrameOffset :=
  gets (fun s => mr_ParamStackOffset mr_conv (mr_displacement s) (mr_itr s)).
Definition mr_IsCurrentParamAReference : M bool :=
  gets (fun s => mr_IsParamAReference mr_conv (mr_itr s)).
Definition mr_IsCurrentParamALongOrDouble : M bool :=
  gets (fun s => mr_IsParamALongOrDouble mr_conv (mr_itr s)).

Definition conv_of (c : JniConvRef) : JniCallingConvention :=
  match c with MainConv => main_jni_conv | EndConv => end_jni_conv end.
Definition itr_of (c : JniConvRef) (s : State) : nat :=
  match c with MainConv => main_itr s | EndConv => end_itr s end.
Definition displacement_of (c : JniConvRef) (s : State) : Z :=
  match c with
  | MainConv => main_displacement s
  | EndConv => end_displacement s
  end.
Definition set_iterator_of (c : JniConvRef) (i : nat) (d : Z) (s : State) : State :=
  match c with
  | MainConv => set_main_iterator i d s
  | EndConv => set_end_iterator i d s
  end.

Definition ResetIterator (c : JniConvRef) (displacement : Z) : M unit :=
  update (set_iterator_of c 0 displacement).
Definition Next (c : JniConvRef) : M unit :=
  update (fun s => set_iterator_of c (S (itr_of c s)) (displacement_of c s) s).
Definition HasNext (c : JniConvRef) : M bool :=
  gets (fun s => (itr_of c s <? jni_NumArgs (conv_of c))%nat).
Definition IsCurrentParamInRegister (c : JniConvRef) : M bool :=
  gets (fun s => jni_IsParamInRegister (conv_of c) (itr_of c s)).
Definition IsCurrentParamOnStack (c : JniConvRef) : M bool :=
  gets (fun s => jni_IsParamOnStack (conv_of c) (itr_of c s)).
Definition CurrentParamRegister (c : JniConvRef) : M ManagedRegister :=
  gets (fun s => jni_ParamRegister (conv_of c) (itr_of c s)).
Definition CurrentParamStackOffset (c : JniConvRef) : M FrameOffset :=
  gets (fun s => jni_ParamStackOffset (conv_of c) (displacement_of c s)
                                      (itr_of c s)).
Definition CurrentParamSize (c : JniConvRef) : M Z :=
  gets (fun s => jni_ParamSize (conv_of c) (itr_of c s)).

(** [for (; mr_conv->HasNext(); mr_conv->Next(), main_jni_conv->Next())
    body], unrolled over the parameters that remain ([HasNext()] is
    [itr < NumArgs] and only [Next()] moves [itr]). *)
Fixpoint for_each_remaining (n : nat) (body : M unit) : M unit :=
  match n with
  | O => ret tt
  | S n' => body ;; mr_Next ;; Next MainConv ;; for_each_remaining n' body
  end.

(** *** Helpers (lines 808-854) *)

Definition PushLocalReferenceFrame
           (jni_env_reg saved_cookie_reg temp_reg : ManagedRegister) : M unit :=
  let jni_env_cookie_offset := LocalRefCookieOffset kRaw in
  let jni_env_segment_state_offset := SegmentStateOffset kRaw in
  emit (LoadMember saved_cookie_reg jni_env_reg jni_env_cookie_offset
                   (kIRTCookieSize env)) ;;
  emit (LoadMember temp_reg jni_env_reg jni_env_segment_state_offset
                   (kIRTCookieSize env)) ;;
  emit (StoreMember jni_env_reg jni_env_cookie_offset temp_reg
                    (kIRTCookieSize env)).

Definition PopLocalReferenceFrame
           (jni_env_reg saved_cookie_reg temp_reg : ManagedRegister) : M unit :=
  let jni_env_cookie_offset := LocalRefCookieOffset kRaw in
  let jni_env_segment_state_offset := SegmentStateOffset kRaw in
  emit (LoadMember temp_reg jni_env_reg jni_env_cookie_offset
                   (kIRTCookieSize env)) ;;
  emit (StoreMember jni_env_reg jni_env_segment_state_offset temp_reg
                    (kIRTCookieSize env)) ;;
  emit (StoreMember jni_env_reg jni_env_cookie_offset saved_cookie_reg
                    (kIRTCookieSize env)).

Definition SetNativeParameter (jni_conv : JniConvRef)
           (in_reg : ManagedRegister) : M unit :=
  on_stack <- IsCurrentParamOnStack jni_conv ;;
  if on_stack then
    dest <- CurrentParamStackOffset jni_conv ;;
    emit (StoreRawPtr dest in_reg)
  else
    r <- CurrentParamRegister jni_conv ;;
    if negb (Equals r in_reg) then
      size <- CurrentParamSize jni_conv ;;
      emit (Move r in_reg size)
    else ret tt.

(** *** 1. Build and register the native method frame *)

Definition managed_frame_size : Z := jni_FrameSize main_jni_conv.
Definition main_out_arg_size : Z := jni_OutFrameSize main_jni_conv.
Definition callee_save_regs : list ManagedRegister :=
  jni_CalleeSaveRegisters main_jni_conv.

(** 1.1 (lines 227-234). *)
Definition Step_1_1 : M unit :=
  update (set_current_frame_size
            (if is_critical_native then main_out_arg_size
             else managed_frame_size)) ;;
  assign_method_register
    (if is_critical_native then NoRegister else mr_MethodRegister mr_conv) ;;
  frame_size <- gets current_frame_size ;;
  method_reg <- use_method_register ;;
  emit (BuildFrame frame_size method_reg callee_save_regs) ;;
  offset <- GetCurrentCFAOffset ;;
  frame_size <- gets current_frame_size ;;
  DCHECK 234 (offset =? to_int frame_size).

(** 1.2 (lines 239-250): the labels of the read barrier slow path. *)
Definition Step_1_2 : M (option Label * option Label) :=
  if kUseReadBarrier env && is_static && negb is_critical_native then
    jclass_read_barrier_slow_path <- CreateLabel ;;
    jclass_read_barrier_return <- CreateLabel ;;
    emit (TestGcMarking jclass_read_barrier_slow_path kNotZero) ;;
    emit (Bind jclass_read_barrier_return) ;;
    ret (jclass_read_barrier_slow_path, jclass_read_barrier_return)
  else ret (None, None).

(** 1.3 (lines 256-258). *)
Definition Step_1_3 : M unit :=
  when (negb is_critical_native)
       (emit (StoreStackPointerToThread (TopOfManagedStackOffset kPointerSize))).

(** *** 2. Transition out of Runnable for normal native *)

(** 2.1 (lines 264-270). *)
Definition Step_2_1 : M unit :=
  update (set_current_out_arg_size main_out_arg_size) ;;
  if is_critical_native then
    frame_size <- gets current_frame_size ;;
    DCHECK 266 (main_out_arg_size =? frame_size)
  else
    emit (IncreaseFrameSize main_out_arg_size) ;;
    update (fun s => set_current_frame_size
                       (size_t_wrap (current_frame_size s + main_out_arg_size)) s).

(** The body of the loop of 2.2 (lines 311-323). *)
Definition Step_2_2_body : M unit :=
  has_next <- HasNext MainConv ;;
  DCHECK 311 has_next ;;
  is_reference <- mr_IsCurrentParamAReference ;;
  main_in_register <- IsCurrentParamInRegister MainConv ;;
  let spill_jobject := is_reference && negb main_in_register in
  long_or_double <- mr_IsCurrentParamALongOrDouble ;;
  let src_size := if negb is_reference && long_or_double then 8 else 4 in
  let dest_size := if spill_jobject then kRaw else src_size in
  mr_in_register <- mr_IsCurrentParamInRegister ;;
  src <- (if mr_in_register
          then r <- mr_CurrentParamRegister ;; ret (ArgInRegister r src_size)
          else o <- mr_CurrentParamStackOffset ;; ret (ArgOnStack o src_size)) ;;
  dest <- (if main_in_register
           then o <- mr_CurrentParamStackOffset ;; ret (ArgOnStack o dest_size)
           else o <- CurrentParamStackOffset MainConv ;;
                ret (ArgOnStack o dest_size)) ;;
  ref <- (if spill_jobject then mr_CurrentParamStackOffset else ret kInvalid) ;;
  push_arg src dest ref.

(** 2.2 (lines 276-328). *)
Definition Step_2_2 : M unit :=
  clear_args ;;     (* the three vectors are declared here, empty *)
  when (negb is_critical_native && negb is_fast_native)
    (frame_size <- gets current_frame_size ;;
     mr_ResetIterator frame_size ;;
     ResetIterator MainConv main_out_arg_size ;;
     Next MainConv ;;
     (if is_static then
        Next MainConv ;;
        src_reg <- use_method_register ;;
        dest_reg <- use_method_register ;;
        push_arg (ArgInRegister src_reg kRaw) (ArgInRegister dest_reg kRaw)
                 kInvalid
      else
        mr_has_next <- mr_HasNext ;;
        DCHECK 299 mr_has_next ;;
        main_has_next <- HasNext MainConv ;;
        DCHECK 300 main_has_next ;;
        is_reference <- mr_IsCurrentParamAReference ;;
        DCHECK 301 is_reference ;;
        mr_in_register <- mr_IsCurrentParamInRegister ;;
        src <- (if mr_in_register
                then r <- mr_CurrentParamRegister ;;
                     ret (ArgInRegister r kObjectReferenceSize)
                else o <- mr_CurrentParamStackOffset ;;
                     ret (ArgOnStack o kObjectReferenceSize)) ;;
        o <- mr_CurrentParamStackOffset ;;
        push_arg src (ArgOnStack o kObjectReferenceSize) kInvalid ;;
        mr_Next ;;
        Next MainConv) ;;
     n <- mr_Remaining ;;
     for_each_remaining n Step_2_2_body ;;
     emit_MoveArguments).

(** 2.3 (lines 333-376); returns [monitor_enter_exception_slow_path]. *)
Definition Step_2_3 : M (option Label) :=
  monitor_enter_exception_slow_path <-
    (if is_synchronized then CreateLabel else ret None) ;;
  when (negb is_critical_native && negb is_fast_native)
    (let jni_start :=
       GetJniEntrypointThreadOffset kPointerSize kStart reference_return
                                    is_synchronized in
     ResetIterator MainConv main_out_arg_size ;;
     when is_synchronized
       ((if is_static then
           DCHECK 346 (ArtMethod_DeclaringClassOffset env =? 0) ;;
           r <- use_method_register ;;
           SetNativeParameter MainConv r
         else
           frame_size <- gets current_frame_size ;;
           mr_ResetIterator frame_size ;;
           this_offset <- mr_CurrentParamStackOffset ;;
           on_stack <- IsCurrentParamOnStack MainConv ;;
           if on_stack then
             out_off <- CurrentParamStackOffset MainConv ;;
             emit (CreateJObjectStack out_off this_offset false)
           else
             out_reg <- CurrentParamRegister MainConv ;;
             emit (CreateJObjectReg out_reg this_offset NoRegister false)) ;;
        Next MainConv) ;;
     in_register <- IsCurrentParamInRegister MainConv ;;
     (if in_register then
        r <- CurrentParamRegister MainConv ;;
        emit (GetCurrentThreadReg r) ;;
        r' <- CurrentParamRegister MainConv ;;
        emit (Call r' (OfThread jni_start))
      else
        o <- CurrentParamStackOffset MainConv ;;
        emit (GetCurrentThreadStack o) ;;
        emit (CallFromThread jni_start)) ;;
     assign_method_register NoRegister ;;
     when is_synchronized
          (emit (ExceptionPoll monitor_enter_exception_slow_path))) ;;
  ret monitor_enter_exception_slow_path.

(** *** 3. Push local reference frame (lines 380-400); returns
    [(jni_env_reg, saved_cookie_reg, callee_save_temp)]. *)
Definition Step_3 : M (ManagedRegister * ManagedRegister * ManagedRegister) :=
  if negb is_critical_native then
    let callee_save_scratch_regs :=
      jni_CalleeSaveScratchRegisters main_jni_conv in
    CHECK 389 (3 <=? List.length callee_save_scratch_regs)%nat ;;
    let jni_env_reg := nth 0 callee_save_scratch_regs NoRegister in
    let saved_cookie_reg :=
      CoreRegisterWithSize env (nth 1 callee_save_scratch_regs NoRegister)
                           (kIRTCookieSize env) in
    let callee_save_temp :=
      CoreRegisterWithSize env (nth 2 callee_save_scratch_regs NoRegister)
                           (kIRTCookieSize env) in
    emit (LoadRawPtrFromThread jni_env_reg (JniEnvOffset kPointerSize)) ;;
    PushLocalReferenceFrame jni_env_reg saved_cookie_reg callee_save_temp ;;
    ret (jni_env_reg, saved_cookie_reg, callee_save_temp)
  else ret (NoRegister, NoRegister, NoRegister).

(** *** 4. Make the main native call *)

(** The body of the loop of 4.1 (lines 473-490). *)
Definition Step_4_1_body : M unit :=
  has_next <- HasNext MainConv ;;
  DCHECK 473 has_next ;;
  dest_in_reg <- IsCurrentParamInRegister MainConv ;;
  if (negb is_critical_native && negb is_fast_native) && negb dest_in_reg then
    (* Stack arguments for normal native have already been filled. *)
    ret tt
  else
    is_reference <- mr_IsCurrentParamAReference ;;
    long_or_double <- mr_IsCurrentParamALongOrDouble ;;
    let src_size := if negb is_reference && long_or_double then 8 else 4 in
    let dest_size := if is_reference then kRaw else src_size in
    mr_in_register <- mr_IsCurrentParamInRegister ;;
    src <- (if (is_critical_native || is_fast_native) && mr_in_register
            then r <- mr_CurrentParamRegister ;; ret (ArgInRegister r src_size)
            else o <- mr_CurrentParamStackOffset ;; ret (ArgOnStack o src_size)) ;;
    dest <- (if dest_in_reg
             then r <- CurrentParamRegister MainConv ;;
                  ret (ArgInRegister r dest_size)
             else o <- CurrentParamStackOffset MainConv ;;
                  ret (ArgOnStack o dest_size)) ;;
    ref <- (if is_reference then mr_CurrentParamStackOffset else ret kInvalid) ;;
    push_arg src dest ref.

(** 4.1 (lines 405-495). *)
Definition Step_4_1 (callee_save_temp : ManagedRegister) : M unit :=
  clear_args ;;
  frame_size <- gets current_frame_size ;;
  mr_ResetIterator frame_size ;;
  ResetIterator MainConv main_out_arg_size ;;
  (if is_critical_native then
     push_arg (ArgInRegister (mr_MethodRegister mr_conv) kRaw)
              (ArgInRegister (jni_HiddenArgumentRegister main_jni_conv) kRaw)
              kInvalid
   else
     Next MainConv ;;
     out_arg_size <- gets current_out_arg_size ;;
     let method_offset :=
       size_t_wrap (out_arg_size + mr_MethodStackOffset mr_conv) in
     on_stack <- IsCurrentParamOnStack MainConv ;;
     when (negb is_static || on_stack)
       (let new_method_reg := CoreRegisterWithSize env callee_save_temp kRaw in
        (if is_fast_native then
           m <- gets method_register ;;
           DCHECK 427 (negb (IsNoRegister m)) ;;
           r <- use_method_register ;;
           emit (Move new_method_reg r kRaw)
         else
           m <- gets method_register ;;
           DCHECK 430 (IsNoRegister m) ;;
           emit (Load new_method_reg method_offset kRaw)) ;;
        assign_method_register new_method_reg) ;;
     if is_static then
       DCHECK 437 (ArtMethod_DeclaringClassOffset env =? 0) ;;
       m <- gets method_register ;;
       src <- (if IsNoRegister m then
                 in_register <- IsCurrentParamInRegister MainConv ;;
                 DCHECK 439 in_register ;;
                 ret (ArgOnStack method_offset kRaw)
               else
                 r <- use_method_register ;;
                 ret (ArgInRegister r kRaw)) ;;
       in_register <- IsCurrentParamInRegister MainConv ;;
       dest <- (if in_register then
                  (* The jclass argument becomes the new method register. *)
                  r <- CurrentParamRegister MainConv ;;
                  assign_method_register r ;;
                  r' <- use_method_register ;;
                  ret (ArgInRegister r' kRaw)
                else
                  o <- CurrentParamStackOffset MainConv ;;
                  ret (ArgOnStack o kRaw)) ;;
       push_arg src dest kInvalid ;;
       Next MainConv
     else
       mr_has_next <- mr_HasNext ;;
       DCHECK 457 mr_has_next ;;
       main_has_next <- HasNext MainConv ;;
       DCHECK 458 main_has_next ;;
       is_reference <- mr_IsCurrentParamAReference ;;
       DCHECK 459 is_reference ;;
       mr_in_register <- mr_IsCurrentParamInRegister ;;
       src <- (if is_fast_native && mr_in_register
               then r <- mr_CurrentParamRegister ;;
                    ret (ArgInRegister r kObjectReferenceSize)
               else o <- mr_CurrentParamStackOffset ;;
                    ret (ArgOnStack o kObjectReferenceSize)) ;;
       in_register <- IsCurrentParamInRegister MainConv ;;
       dest <- (if in_register
                then r <- CurrentParamRegister MainConv ;;
                     ret (ArgInRegister r kRaw)
                else o <- CurrentParamStackOffset MainConv ;;
                     ret (ArgOnStack o kRaw)) ;;
       ref <- mr_CurrentParamStackOffset ;;
       push_arg src dest ref ;;
       mr_Next ;;
       Next MainConv) ;;
  n <- mr_Remaining ;;
  for_each_remaining n Step_4_1_body ;;
  main_has_next <- HasNext MainConv ;;
  DCHECK 492 (negb main_has_next) ;;
  emit_MoveArguments.

(** 4.2 (lines 498-507). *)
Definition Step_4_2 (jni_env_reg : ManagedRegister) : M unit :=
  when (negb is_critical_native)
    (ResetIterator MainConv main_out_arg_size ;;
     in_register <- IsCurrentParamInRegister MainConv ;;
     if in_register then
       jni_env_arg <- CurrentParamRegister MainConv ;;
       emit (Move jni_env_arg jni_env_reg kRaw)
     else
       jni_env_arg_offset <- CurrentParamStackOffset MainConv ;;
       emit (Store jni_env_arg_offset jni_env_reg kRaw)).

Definition jni_entrypoint_offset : MemberOffset :=
  EntryPointFromJniOffset (InstructionSetPointerSize env instruction_set).

(** 4.3 (lines 510-524). *)
Definition Step_4_3 : M unit :=
  if is_critical_native then
    if jni_UseTailCall main_jni_conv then
      emit (Jump (jni_HiddenArgumentRegister main_jni_conv)
                 (OfMember jni_entrypoint_offset))
    else
      emit (Call (jni_HiddenArgumentRegister main_jni_conv)
                 (OfMember jni_entrypoint_offset))
  else
    m <- gets method_register ;;
    DCHECK 519 (IsRegister m) ;;
    r <- use_method_register ;;
    emit (Call r (OfMember jni_entrypoint_offset)) ;;
    assign_method_register NoRegister.

(** 4.4 (lines 527-540). *)
Definition Step_4_4 : M unit :=
  when (jni_RequiresSmallResultTypeExtension main_jni_conv)
    (DCHECK 528 (jni_HasSmallReturnType main_jni_conv) ;;
     CHECK 529 (negb is_critical_native || negb (jni_UseTailCall main_jni_conv)) ;;
     let return_type := jni_GetReturnType main_jni_conv in
     if PrimitiveType_eqb return_type kPrimByte
        || PrimitiveType_eqb return_type kPrimShort then
       emit (SignExtend (jni_ReturnRegister main_jni_conv)
                        (Primitive_ComponentSize env return_type))
     else
       CHECK 535 (PrimitiveType_eqb return_type kPrimBoolean
                  || PrimitiveType_eqb return_type kPrimChar) ;;
       emit (ZeroExtend (jni_ReturnRegister main_jni_conv)
                        (Primitive_ComponentSize env return_type))).

(** *** 5. Transition back to Runnable *)

Definition spill_return_value : bool := jni_SpillsReturnValue main_jni_conv.

(** 5.1 (lines 546-578). *)
Definition Step_5_1 : M unit :=
  update (set_return_save_location
            (if spill_return_value
             then jni_ReturnValueSaveLocation main_jni_conv else 0)) ;;
  if spill_return_value then
    DCHECK 550 (negb is_critical_native) ;;
    location <- gets return_save_location ;;
    frame_size <- gets current_frame_size ;;
    CHECK 553 (location mod 2 ^ 32 <? frame_size) ;;
    emit (Store location (jni_ReturnRegister main_jni_conv)
                (jni_SizeOfReturnValue main_jni_conv))
  else if (is_fast_native || is_critical_native)
          && negb (jni_SizeOfReturnValue main_jni_conv =? 0) then
    let jni_return_reg := jni_ReturnRegister main_jni_conv in
    let mr_return_reg := mr_ReturnRegister mr_conv in
    if negb (Equals jni_return_reg mr_return_reg) then
      CHECK 568 (negb is_critical_native
                 || negb (jni_UseTailCall main_jni_conv)) ;;
      emit (Move mr_return_reg jni_return_reg
                 (jni_SizeOfReturnValue main_jni_conv))
    else if IsNoRegister jni_return_reg && IsNoRegister mr_return_reg then
      CHECK 576 (jni_SizeOfReturnValue main_jni_conv
                 =? mr_SizeOfReturnValue mr_conv)
    else ret tt
  else ret tt.

(** 5.2 (lines 582-586); returns [exception_slow_path]. *)
Definition Step_5_2 : M (option Label) :=
  exception_slow_path <-
    (if negb is_critical_native then CreateLabel else ret None) ;;
  when (is_fast_native && reference_return)
       (emit (ExceptionPoll exception_slow_path)) ;;
  ret exception_slow_path.

(** 5.3 (lines 590-597); returns [(suspend_check_slow_path,
    suspend_check_resume)]. *)
Definition Step_5_3 : M (option Label * option Label) :=
  suspend_check_slow_path <-
    (if is_fast_native then CreateLabel else ret None) ;;
  suspend_check_resume <-
    (if is_fast_native then CreateLabel else ret None) ;;
  when (is_fast_native && reference_return)
       (emit (SuspendCheck suspend_check_slow_path) ;;
        emit (Bind suspend_check_resume)) ;;
  ret (suspend_check_slow_path, suspend_check_resume).

(** The entrypoint of 5.5 (lines 615-619). *)
Definition jni_end : ThreadOffset :=
  if is_fast_native
  then QUICK_ENTRYPOINT_OFFSET kPointerSize pJniDecodeReferenceResult
  else GetJniEntrypointThreadOffset kPointerSize kEnd reference_return
                                    is_synchronized.

(** 5.4 (lines 601-610). *)
Definition Step_5_4 : M unit :=
  let end_out_arg_size := jni_OutFrameSize end_jni_conv in
  out_arg_size <- gets current_out_arg_size ;;
  when (out_arg_size <? end_out_arg_size)
    (DCHECK 603 (negb is_fast_native) ;;
     let out_arg_size_diff := size_t_wrap (end_out_arg_size - out_arg_size) in
     update (set_current_out_arg_size end_out_arg_size) ;;
     emit (IncreaseFrameSize out_arg_size_diff) ;;
     update (fun s => set_current_frame_size
                        (size_t_wrap (current_frame_size s + out_arg_size_diff)) s) ;;
     update (fun s => set_return_save_location
                        (size_t_wrap (return_save_location s + out_arg_size_diff)) s)) ;;
  ResetIterator EndConv end_out_arg_size.

(** 5.5 (lines 614-663). *)
Definition Step_5_5 : M unit :=
  when (negb is_fast_native || reference_return)
    (when reference_return
       (SetNativeParameter EndConv (jni_ReturnRegister end_jni_conv) ;;
        Next EndConv) ;;
     when is_synchronized
       ((if is_static then
           out_arg_size <- gets current_out_arg_size ;;
           let method_offset :=
             size_t_wrap (out_arg_size + mr_MethodStackOffset mr_conv) in
           DCHECK 632 (ArtMethod_DeclaringClassOffset env =? 0) ;;
           on_stack <- IsCurrentParamOnStack EndConv ;;
           if on_stack then
             out_off <- CurrentParamStackOffset EndConv ;;
             emit (Copy out_off method_offset kRaw)
           else
             out_reg <- CurrentParamRegister EndConv ;;
             emit (Load out_reg method_offset kRaw)
         else
           frame_size <- gets current_frame_size ;;
           mr_ResetIterator frame_size ;;
           this_offset <- mr_CurrentParamStackOffset ;;
           on_stack <- IsCurrentParamOnStack EndConv ;;
           if on_stack then
             out_off <- CurrentParamStackOffset EndConv ;;
             emit (CreateJObjectStack out_off this_offset false)
           else
             out_reg <- CurrentParamRegister EndConv ;;
             emit (CreateJObjectReg out_reg this_offset NoRegister false)) ;;
        Next EndConv) ;;
     in_register <- IsCurrentParamInRegister EndConv ;;
     if in_register then
       r <- CurrentParamRegister EndConv ;;
       emit (GetCurrentThreadReg r) ;;
       r' <- CurrentParamRegister EndConv ;;
       emit (Call r' (OfThread jni_end))
     else
       o <- CurrentParamStackOffset EndConv ;;
       emit (GetCurrentThreadStack o) ;;
       emit (CallFromThread jni_end)).

(** 5.6 (lines 666-668). *)
Definition Step_5_6 : M unit :=
  when spill_return_value
    (location <- gets return_save_location ;;
     emit (Load (mr_ReturnRegister mr_conv) location
                (mr_SizeOfReturnValue mr_conv))).

(** 5.4-5.6 (lines 599-669). *)
Definition Step_5_4_to_5_6 : M unit :=
  when (negb is_critical_native) (Step_5_4 ;; Step_5_5 ;; Step_5_6).

(** *** 6. Pop local reference frame (lines 672-675) *)
Definition Step_6 (jni_env_reg saved_cookie_reg callee_save_temp : ManagedRegister)
  : M unit :=
  when (negb is_critical_native)
       (PopLocalReferenceFrame jni_env_reg saved_cookie_reg callee_save_temp).

(** *** 7. Return from the JNI stub *)

(** 7.1 (lines 681-684). *)
Definition Step_7_1 : M unit :=
  when (negb is_critical_native)
    (out_arg_size <- gets current_out_arg_size ;;
     emit (DecreaseFrameSize out_arg_size) ;;
     update (fun s => set_current_frame_size
                        (size_t_wrap (current_frame_size s - out_arg_size)) s)).

(** 7.2 (line 689-691). *)
Definition Step_7_2 (exception_slow_path : option Label) : M unit :=
  when (negb is_critical_native && (negb is_fast_native || negb reference_return))
       (emit (ExceptionPoll exception_slow_path)).

(** 7.3 (lines 696-699). *)
Definition Step_7_3 (suspend_check_slow_path suspend_check_resume : option Label)
  : M unit :=
  when (is_fast_native && negb reference_return)
       (emit (SuspendCheck suspend_check_slow_path) ;;
        emit (Bind suspend_check_resume)).

(** 7.4 (lines 703-710). *)
Definition Step_7_4 : M unit :=
  offset <- GetCurrentCFAOffset ;;
  frame_size <- gets current_frame_size ;;
  DCHECK 703 (offset =? to_int frame_size) ;;
  when (negb is_critical_native || negb (jni_UseTailCall main_jni_conv))
    (let may_suspend := negb is_critical_native in
     emit (RemoveFrame frame_size callee_save_regs may_suspend) ;;
     offset <- GetCurrentCFAOffset ;;
     frame_size <- gets current_frame_size ;;
     DCHECK 709 (offset =? to_int frame_size)).

(** *** 8. Emit slow paths *)

(** 8.1 (lines 716-747). *)
Definition Step_8_1 (jclass_read_barrier_slow_path
                     jclass_read_barrier_return : option Label) : M unit :=
  when (kUseReadBarrier env && is_static && negb is_critical_native)
    (emit (Bind jclass_read_barrier_slow_path) ;;
     when (kUseBakerReadBarrier env)
       (assign_method_register (mr_MethodRegister mr_conv) ;;
        let temp :=
          CoreRegisterWithSize
            env (nth 0 (jni_CalleeSaveScratchRegisters main_jni_conv) NoRegister)
            kObjectReferenceSize in
        DCHECK 735 (ArtMethod_DeclaringClassOffset env =? 0) ;;
        r <- use_method_register ;;
        emit (LoadMember temp r (MemberOffsetValue 0) kObjectReferenceSize) ;;
        emit (TestMarkBit temp jclass_read_barrier_return kNotZero)) ;;
     emit (CallFromThread (QUICK_ENTRYPOINT_OFFSET kPointerSize pReadBarrierJni)) ;;
     emit (JumpLabel jclass_read_barrier_return)).

(** [jni_asm->cfi().AdjustCFAOffset(main_out_arg_size); __
    DecreaseFrameSize(main_out_arg_size);] *)
Definition rewind_out_args : M unit :=
  emit (CfiAdjustCFAOffset (to_int main_out_arg_size)) ;;
  emit (DecreaseFrameSize main_out_arg_size).

(** 8.2 (lines 750-767). *)
Definition Step_8_2 (suspend_check_slow_path suspend_check_resume : option Label)
  : M unit :=
  when is_fast_native
    (emit (Bind suspend_check_slow_path) ;;
     when (reference_return && negb (main_out_arg_size =? 0)) rewind_out_args ;;
     emit (CallFromThread (QUICK_ENTRYPOINT_OFFSET kPointerSize pTestSuspend)) ;;
     when reference_return
          (emit (StoreStackPointerToThread
                   (TopOfManagedStackOffset kPointerSize))) ;;
     when (reference_return && negb (main_out_arg_size =? 0))
          (emit (IncreaseFrameSize main_out_arg_size) ;;
           emit (CfiAdjustCFAOffset
                   (to_int (size_t_wrap (- main_out_arg_size))))) ;;
     emit (JumpLabel suspend_check_resume)).

(** 8.3 (lines 770-791). *)
Definition Step_8_3 (monitor_enter_exception_slow_path exception_slow_path
                     : option Label)
           (jni_env_reg saved_cookie_reg callee_save_temp : ManagedRegister)
  : M unit :=
  when (negb is_critical_native)
    (when is_synchronized
       (DCHECK 772 (negb is_fast_native) ;;
        emit (Bind monitor_enter_exception_slow_path) ;;
        when (negb (main_out_arg_size =? 0)) rewind_out_args) ;;
     emit (Bind exception_slow_path) ;;
     when (is_fast_native && reference_return)
       (when (negb (main_out_arg_size =? 0)) rewind_out_args ;;
        PopLocalReferenceFrame jni_env_reg saved_cookie_reg callee_save_temp) ;;
     offset <- GetCurrentCFAOffset ;;
     frame_size <- gets current_frame_size ;;
     DCHECK 789 (offset =? to_int frame_size) ;;
     emit DeliverPendingException).

(** *** 9. Finalize code generation (lines 794-805)

    The constructor of [JniCompiledMethod] (declared in jni_compiler.h)
    takes the frame size as a [uint32_t]: the [size_t]
    [managed_frame_size] is converted when it is passed at line 802. *)
Definition Step_9 : M JniCompiledMethod :=
  emit FinalizeCode ;;
  emit FinalizeInstructions ;;
  ops <- gets asm_trace ;;
  ret {| cm_instruction_set := instruction_set;
         cm_code := AssembledCode env ops;
         cm_frame_size := managed_frame_size mod 2 ^ 32;
         cm_core_spill_mask := jni_CoreSpillMask main_jni_conv;
         cm_fp_spill_mask := jni_FpSpillMask main_jni_conv;
         cm_cfi := CfiData env ops |}.

(** Lines 217-806: everything after the conventions are built. *)
Definition EmitStub (compiler_options : CompilerOptions) : M JniCompiledMethod :=
  emit (CfiSetEnabled (GenerateAnyDebugInfo compiler_options)) ;;
  emit (SetEmitRunTimeChecksInDebugMode
          (EmitRunTimeChecksInDebugMode compiler_options)) ;;
  Step_1_1 ;;
  jclass_labels <- Step_1_2 ;;
  Step_1_3 ;;
  Step_2_1 ;;
  Step_2_2 ;;
  monitor_enter_exception_slow_path <- Step_2_3 ;;
  regs <- Step_3 ;;
  let jni_env_reg := fst (fst regs) in
  let saved_cookie_reg := snd (fst regs) in
  let callee_save_temp := snd regs in
  Step_4_1 callee_save_temp ;;
  Step_4_2 jni_env_reg ;;
  Step_4_3 ;;
  Step_4_4 ;;
  Step_5_1 ;;
  exception_slow_path <- Step_5_2 ;;
  suspend_labels <- Step_5_3 ;;
  Step_5_4_to_5_6 ;;
  Step_6 jni_env_reg saved_cookie_reg callee_save_temp ;;
  Step_7_1 ;;
  Step_7_2 exception_slow_path ;;
  Step_7_3 (fst suspend_labels) (snd suspend_labels) ;;
  Step_7_4 ;;
  Step_8_1 (fst jclass_labels) (snd jclass_labels) ;;
  Step_8_2 (fst suspend_labels) (snd suspend_labels) ;;
  Step_8_3 monitor_enter_exception_slow_path exception_slow_path
           jni_env_reg saved_cookie_reg callee_save_temp ;;
  Step_9.

End Emitter.

(** ** The compile function *)

(** Lines 171-175: no character of the shorty is a reference. *)
Fixpoint check_shorty (env : Environment) (shorty : string) : M unit :=
  match shorty with
  | EmptyString => ret tt
  | String c rest =>
      CHECK 172 (negb (PrimitiveType_eqb kPrimNot (Primitive_GetType env c))) ;;
      check_shorty env rest
  end.

(** The attributes read from the access flags (lines 122-135). *)
Definition has_flag (access_flags flag : Z) : bool :=
  negb (Z.land access_flags flag =? 0).

(** The debug-only validation of lines 151-177. *)
Definition validate_attributes (env : Environment)
           (is_static is_synchronized is_fast_native is_critical_native : bool)
           (shorty : string) : M unit :=
  when (kIsDebugBuild env)
    ((if is_fast_native && is_critical_native
      then fail (LogFatal 154) else ret tt) ;;
     when is_critical_native
       (CHECK 163 is_static ;;
        CHECK 167 (negb is_synchronized) ;;
        check_shorty env shorty)).

(** Lines 179-215: the three calling conventions, [(main_jni_conv, mr_conv,
    end_jni_conv)]. *)
Definition BuildConventions (env : Environment)
           (is_static is_synchronized is_fast_native is_critical_native : bool)
           (shorty : string) (instruction_set : InstructionSet)
  : JniCallingConvention * ManagedRuntimeCallingConvention * JniCallingConvention :=
  let main_jni_conv :=
    JniCallingConvention_Create env is_static is_synchronized is_fast_native
                                is_critical_native shorty instruction_set in
  let reference_return := jni_IsReturnAReference main_jni_conv in
  let mr_conv :=
    ManagedRuntimeCallingConvention_Create env is_static is_synchronized shorty
                                           instruction_set in
  let end_jni_conv :=
    JniCallingConvention_Create env is_static is_synchronized is_fast_native
                                is_critical_native
                                (jni_end_shorty reference_return is_synchronized)
                                instruction_set in
  (main_jni_conv, mr_conv, end_jni_conv).

Definition ArtJniCompileMethodInternal (env : Environment)
           (kPointerSize : PointerSize) (compiler_options : CompilerOptions)
           (access_flags method_idx : Z) (dex_file : DexFile)
  : M JniCompiledMethod :=
  let is_native := has_flag access_flags (kAccNative env) in
  CHECK 123 is_native ;;
  let is_static := has_flag access_flags (kAccStatic env) in
  let is_synchronized := has_flag access_flags (kAccSynchronized env) in
  let shorty := GetMethodShorty dex_file method_idx in
  let instruction_set := GetInstructionSet compiler_options in
  let is_fast_native := has_flag access_flags (kAccFastNative env) in
  let is_critical_native := has_flag access_flags (kAccCriticalNative env) in
  validate_attributes env is_static is_synchronized is_fast_native
                      is_critical_native shorty ;;
  let conventions :=
    BuildConventions env is_static is_synchronized is_fast_native
                     is_critical_native shorty instruction_set in
  EmitStub env kPointerSize instruction_set is_static is_synchronized
           is_fast_native is_critical_native
           (fst (fst conventions)) (snd conventions) (snd (fst conventions))
           compiler_options.

(** Lines 856-867. *)
Definition ArtQuickJniCompileMethod (env : Environment)
           (compiler_options : CompilerOptions)
           (access_flags method_idx : Z) (dex_file : DexFile)
  : M JniCompiledMethod :=
  if Is64BitInstructionSet env (GetInstructionSet compiler_options)
  then ArtJniCompileMethodInternal env k64 compiler_options access_flags
                                   method_idx dex_file
  else ArtJniCompileMethodInternal env k32 compiler_options access_flags
                                   method_idx dex_file.

(** The attributes and conventions of one compile, as the compile function
    computes them from its arguments. *)
Section OneCompile.

Variable env : Environment.
Variable compiler_options : CompilerOptions.
Variables access_flags method_idx : Z.
Variable dex_file : DexFile.

Definition static_of : bool := has_flag access_flags (kAccStatic env).
Definition synchronized_of : bool := has_flag access_flags (kAccSynchronized env).
Definition fast_native_of : bool := has_flag access_flags (kAccFastNative env).
Definition critical_native_of : bool :=
  has_flag access_flags (kAccCriticalNative env).

Definition conventions_of
  : JniCallingConvention * ManagedRuntimeCallingConvention * JniCallingConvention :=
  BuildConventions env static_of synchronized_of fast_native_of
                   critical_native_of (GetMethodShorty dex_file method_idx)
                   (GetInstructionSet compiler_options).

Definition main_conv_of : JniCallingConvention := fst (fst conventions_of).
Definition mr_conv_of : ManagedRuntimeCallingConvention := snd (fst conventions_of).
Definition end_conv_of : JniCallingConvention := snd conventions_of.
Definition reference_return_of : bool := jni_IsReturnAReference main_conv_of.

End OneCompile.


(** ** A sample environment

    A small concrete instance of the collaborators, used to run the compiler:
    the first four native parameters and the first three managed arguments
    travel in registers, the others on the stack. *)
Module Sample.

Definition is_reference_char (c : ascii) : bool := (c =? "L")%char.
Definition is_wide_char (c : ascii) : bool := ((c =? "J") || (c =? "D"))%char.

Definition params (shorty : string) : list ascii :=
  match shorty with
  | EmptyString => []
  | String _ rest => list_ascii_of_string rest
  end.

Definition return_char (shorty : string) : ascii :=
  match shorty with
  | EmptyString => "V"%char
  | String c _ => c
  end.

Definition GetType (c : ascii) : PrimitiveType :=
  if (c =? "B")%char then kPrimByte
  else if (c =? "C")%char then kPrimChar
  else if (c =? "D")%char then kPrimDouble
  else if (c =? "F")%char then kPrimFloat
  else if (c =? "I")%char then kPrimInt
  else if (c =? "J")%char then kPrimLong
  else if (c =? "S")%char then kPrimShort
  else if (c =? "Z")%char then kPrimBoolean
  else if (c =? "V")%char then kPrimVoid
  else kPrimNot.

Definition ComponentSize (t : PrimitiveType) : Z :=
  match t with
  | kPrimVoid => 0
  | kPrimBoolean | kPrimByte => 1
  | kPrimChar | kPrimShort => 2
  | kPrimInt | kPrimFloat | kPrimNot => 4
  | kPrimLong | kPrimDouble => 8
  end.

Definition size_of_return (c : ascii) : Z :=
  if (c =? "V")%char then 0 else if is_wide_char c then 8 else 4.

(** Managed convention: [this] first for instance methods. *)
Definition managed (is_static is_synchronized : bool) (shorty : string)
           (isa : InstructionSet) : ManagedRuntimeCallingConvention :=
  let args := (if is_static then [] else ["L"%char]) ++ params shorty in
  {| mr_NumArgs := List.length args;
     mr_IsParamInRegister := fun i => (i <? 3)%nat;
     mr_ParamRegister := fun i => 1 + Z.of_nat i;
     mr_ParamStackOffset := fun d i => d + 8 + 4 * Z.of_nat i;
     mr_IsParamAReference := fun i => is_reference_char (nth i args "V"%char);
     mr_IsParamALongOrDouble := fun i => is_wide_char (nth i args "V"%char);
     mr_MethodRegister := 0;
     mr_MethodStackOffset := 0;
     mr_ReturnRegister :=
       if (return_char shorty =? "V")%char then NoRegister else 0;
     mr_SizeOfReturnValue := size_of_return (return_char shorty) |}.

(** Native convention: [JNIEnv*] and [jclass]/[this] first unless the
    method is critical native. *)
Definition native (tail_call : bool)
           (is_static is_synchronized is_fast_native is_critical_native : bool)
           (shorty : string) (isa : InstructionSet) : JniCallingConvention :=
  let args := (if is_critical_native then [] else ["L"; "L"]%char)
                ++ params shorty in
  let n := List.length args in
  let out := 8 * Z.of_nat (n - 4) in
  let rc := return_char shorty in
  {| jni_NumArgs := n;
     jni_IsParamInRegister := fun i => (i <? 4)%nat;
     jni_IsParamOnStack := fun i => negb (i <? 4)%nat;
     jni_ParamRegister := fun i => 10 + Z.of_nat i;
     jni_ParamStackOffset := fun d i => d - out + 8 * (Z.of_nat i - 4);
     jni_ParamSize := fun i => if is_wide_char (nth i args "V"%char) then 8 else 4;
     jni_FrameSize := 96;
     jni_OutFrameSize := out;
     jni_CalleeSaveRegisters := [30; 31];
     jni_CalleeSaveScratchRegisters := [20; 21; 22];
     jni_CoreSpillMask := 3;
     jni_FpSpillMask := 0;
     jni_IsReturnAReference := is_reference_char rc;
     jni_ReturnRegister :=
       if (rc =? "V")%char then NoRegister
       else if is_critical_native then 0 else 10;
     jni_SizeOfReturnValue := size_of_return rc;
     jni_SpillsReturnValue :=
       negb (rc =? "V")%char && negb is_fast_native && negb is_critical_native
       && negb (is_reference_char rc);
     jni_ReturnValueSaveLocation := out;
     jni_RequiresSmallResultTypeExtension := false;
     jni_HasSmallReturnType :=
       match GetType rc with
       | kPrimBoolean | kPrimByte | kPrimChar | kPrimShort => true
       | _ => false
       end;
     jni_GetReturnType := GetType rc;
     jni_UseTailCall := tail_call && is_critical_native;
     jni_HiddenArgumentRegister := 15 |}.

Definition environment (debug tail_call : bool) : Environment :=
  {| kIsDebugBuild := debug;
     kUseReadBarrier := true;
     kUseBakerReadBarrier := true;
     kAccNative := 256;
     kAccStatic := 8;
     kAccSynchronized := 32;
     kAccFastNative := 524288;
     kAccCriticalNative := 2097152;
     kInvalidReferenceOffset := 0;
     kIRTCookieSize := 4;
     ArtMethod_DeclaringClassOffset := 0;
     Primitive_GetType := GetType;
     Primitive_ComponentSize := ComponentSize;
     JniCallingConvention_Create := native tail_call;
     ManagedRuntimeCallingConvention_Create := managed;
     CoreRegisterWithSize := fun r _ => r;
     Is64BitInstructionSet :=
       fun isa => match isa with kArm64 | kX86_64 => true | _ => false end;
     InstructionSetPointerSize :=
       fun isa => match isa with kArm64 | kX86_64 => k64 | _ => k32 end;
     AssembledCode := fun ops => map (fun _ => 0) ops;
     CfiData := fun _ => [] |}.

Definition options : CompilerOptions :=
  {| GetInstructionSet := kArm64;
     GenerateAnyDebugInfo := false;
     EmitRunTimeChecksInDebugMode := false |}.

Definition dex (shorty : string) : DexFile :=
  {| GetMethodShorty := fun _ => shorty |}.

(** One run of the compiler from the initial state. *)
Definition compile (debug tail_call : bool) (access_flags : Z)
           (shorty : string) : State * Result JniCompiledMethod :=
  ArtQuickJniCompileMethod (environment debug tail_call) options access_flags 0
                           (dex shorty) initial_state.

End Sample.

(** ** Judgements on emitter programs *)

(** [emits_only g P m]: whatever [m] does (also when it aborts), it adds
    only events satisfying [P] to the trace and leaves [g] of the state as
    it was. *)
Definition emits_only {A T} (g : State -> T) (P : Event -> Prop) (m : M A) : Prop :=
  forall s s' r,
    m s = (s', r) ->
    g s' = g s /\ exists E, trace s' = trace s ++ E /\ Forall P E.

(** A property of assembler calls, as a property of events. *)
Definition on_asm (Q : AsmOp -> Prop) (e : Event) : Prop :=
  match e with Asm op => Q op | _ => True end.

Definition no_state (s : State) : unit := tt.

(** ** What a critical native stub must not contain *)

Definition is_jni_transition_entrypoint (e : QuickEntrypoint) : bool :=
  match e with
  | pJniMethodStart | pJniMethodStartSynchronized
  | pJniMethodEnd | pJniMethodEndSynchronized
  | pJniMethodEndWithReference | pJniMethodEndWithReferenceSynchronized
  | pJniDecodeReferenceResult => true
  | pReadBarrierJni | pTestSuspend => false
  end.

Definition is_local_reference_frame_offset (off : MemberOffset) : bool :=
  match off with
  | LocalRefCookieOffset _ | SegmentStateOffset _ => true
  | _ => false
  end.


(** ** Selecting calls from the trace *)

Definition is_BuildFrame (op : AsmOp) : bool :=
  match op with BuildFrame _ _ _ => true | _ => false end.

(** The events that are not calls selected by [f]. *)
Definition not_selected (f : AsmOp -> bool) : Event -> Prop :=
  on_asm (fun op => f op = false).

(** The events that contribute nothing to the projection [pi] of the
    assembler calls. *)
Definition selects_none {X} (pi : AsmOp -> list X) : Event -> Prop :=
  on_asm (fun op => pi op = []).

(** ** The end-of-method runtime call *)

Definition is_jni_end_entrypoint (e : QuickEntrypoint) : bool :=
  match e with
  | pJniMethodEnd | pJniMethodEndSynchronized
  | pJniMethodEndWithReference | pJniMethodEndWithReferenceSynchronized
  | pJniDecodeReferenceResult => true
  | _ => false
  end.

(** The entrypoint of a runtime call made through the thread register. *)
Definition runtime_call_entrypoint (op : AsmOp) : option QuickEntrypoint :=
  match op with
  | Call _ (OfThread (QUICK_ENTRYPOINT_OFFSET _ e))
  | CallFromThread (QUICK_ENTRYPOINT_OFFSET _ e) => Some e
  | _ => None
  end.

Definition end_call_of (op : AsmOp) : list QuickEntrypoint :=
  match runtime_call_entrypoint op with
  | Some e => if is_jni_end_entrypoint e then [e] else []
  | None => []
  end.

(** The entrypoints of the end-of-method runtime calls of a trace, in order. *)
Definition end_calls (s : State) : list QuickEntrypoint :=
  flat_map end_call_of (asm_trace s).

(** The calls selected by [f], as a projection. *)
Definition keep (f : AsmOp -> bool) (op : AsmOp) : list AsmOp :=
  if f op then [op] else [].

(** ** The native call and the epilogue *)

(** A transfer to the native code of the method, or the removal of the
    frame. *)
Definition is_native_entry_or_RemoveFrame (op : AsmOp) : bool :=
  match op with
  | RemoveFrame _ _ _ => true
  | Jump _ (OfMember (EntryPointFromJniOffset _))
  | Call _ (OfMember (EntryPointFromJniOffset _)) => true
  | _ => false
  end.

(** ** The local reference frame *)

(** The calls [PushLocalReferenceFrame] makes on the assembler. *)
Definition PushLocalReferenceFrame_calls (env : Environment) (p : PointerSize)
           (jni_env_reg saved_cookie_reg temp_reg : ManagedRegister) : list AsmOp :=
  asm_trace (fst (PushLocalReferenceFrame env p jni_env_reg saved_cookie_reg
                                          temp_reg initial_state)).

(** The calls [PopLocalReferenceFrame] makes on the assembler. *)
Definition PopLocalReferenceFrame_calls (env : Environment) (p : PointerSize)
           (jni_env_reg saved_cookie_reg temp_reg : ManagedRegister) : list AsmOp :=
  asm_trace (fst (PopLocalReferenceFrame env p jni_env_reg saved_cookie_reg
                                         temp_reg initial_state)).

(** [sub] occurs in [l] as a run of consecutive calls. *)
Definition occurs_in (sub l : list AsmOp) : Prop :=
  exists before after, l = before ++ sub ++ after.

Definition push_emitted (env : Environment) (p : PointerSize) (s : State) : Prop :=
  exists jni_env_reg saved_cookie_reg temp_reg,
    occurs_in (PushLocalReferenceFrame_calls env p jni_env_reg saved_cookie_reg
                                             temp_reg)
              (asm_trace s).

Definition pop_emitted (env : Environment) (p : PointerSize) (s : State) : Prop :=
  exists jni_env_reg saved_cookie_reg temp_reg,
    occurs_in (PopLocalReferenceFrame_calls env p jni_env_reg saved_cookie_reg
                                            temp_reg)
              (asm_trace s).

Definition is_member_access (op : AsmOp) : bool :=
  match op with
  | LoadMember _ _ _ _ | StoreMember _ _ _ _ => true
  | _ => false
  end.

Definition any_event (e : Event) : Prop := True.

(** ** The spill plan of 2.2 *)

Definition is_MoveArguments (op : AsmOp) : bool :=
  match op with MoveArguments _ _ _ => true | _ => false end.

(** What one round of the loop of 2.2 appends to [src_args], [dest_args]
    and [refs], for the managed argument at position [i] and the native
    parameter at position [j]. *)
Definition Step_2_2_entry (env : Environment) (p : PointerSize)
           (main_jni_conv : JniCallingConvention)
           (mr_conv : ManagedRuntimeCallingConvention)
           (mr_displacement main_displacement : Z) (i j : nat)
  : ArgumentLocation * ArgumentLocation * FrameOffset :=
  let is_reference := mr_IsParamAReference mr_conv i in
  let main_in_register := jni_IsParamInRegister main_jni_conv j in
  let spill_jobject := is_reference && negb main_in_register in
  let src_size :=
    if negb is_reference && mr_IsParamALongOrDouble mr_conv i then 8 else 4 in
  let dest_size := if spill_jobject then kRawPointerSize p else src_size in
  (if mr_IsParamInRegister mr_conv i
   then ArgInRegister (mr_ParamRegister mr_conv i) src_size
   else ArgOnStack (mr_ParamStackOffset mr_conv mr_displacement i) src_size,
   if main_in_register
   then ArgOnStack (mr_ParamStackOffset mr_conv mr_displacement i) dest_size
   else ArgOnStack (jni_ParamStackOffset main_jni_conv main_displacement j)
                   dest_size,
   if spill_jobject then mr_ParamStackOffset mr_conv mr_displacement i
   else kInvalidReferenceOffset env).

(** ** The CFA offset along the stub *)

(** The calls that move the CFA offset, and the one that delivers a
    pending exception. *)
Definition is_frame_call (op : AsmOp) : bool :=
  match op with
  | BuildFrame _ _ _ | RemoveFrame _ _ _ | IncreaseFrameSize _
  | DecreaseFrameSize _ | CfiAdjustCFAOffset _ | DeliverPendingException => true
  | _ => false
  end.

(** The CFA offset after the calls [ops], from the offset [cfa]. *)
Definition cfa_after (cfa : Z) (ops : list AsmOp) : Z :=
  fold_left (fun c op => cfa_step op c) ops cfa.

(** What the three checks of the CFA offset compare (lines 234, 703 and
    789): the offset after [BuildFrame] and before [RemoveFrame] with the
    frame size they are given, the offset before [DeliverPendingException]
    with the frame size [final] the compiler ends with. *)
Definition cfa_check (final cfa : Z) (op : AsmOp) : Prop :=
  match op with
  | BuildFrame frame_size _ _ => cfa_step op cfa = to_int frame_size
  | RemoveFrame frame_size _ _ => cfa = to_int frame_size
  | DeliverPendingException => cfa = to_int final
  | _ => True
  end.

(** The checks hold all along [ops], started at the offset [cfa]. *)
Fixpoint cfa_checks (final cfa : Z) (ops : list AsmOp) : Prop :=
  match ops with
  | [] => True
  | op :: rest => cfa_check final cfa op /\ cfa_checks final (cfa_step op cfa) rest
  end.

Definition frame_state (s : State) : Z * Z :=
  (current_frame_size s, current_out_arg_size s).

(** [rewind_out_args], when there are out args. *)
Definition rewind_calls (main_out_arg_size : Z) : list AsmOp :=
  if negb (main_out_arg_size =? 0)
  then [CfiAdjustCFAOffset (to_int main_out_arg_size);
        DecreaseFrameSize main_out_arg_size]
  else [].

(** The frame sizes the compiler goes through, as functions of the
    conventions: after 2.1, after 5.4 and after 7.1 (the last value of
    [current_frame_size]), and the out-args size after 5.4. *)
Section FrameSizes.

Variable is_critical_native : bool.
Variables main_jni_conv end_jni_conv : JniCallingConvention.

Definition frame_size_1 : Z :=
  if is_critical_native then jni_OutFrameSize main_jni_conv
  else jni_FrameSize main_jni_conv.

Definition frame_size_2 : Z :=
  if is_critical_native then frame_size_1
  else size_t_wrap (frame_size_1 + jni_OutFrameSize main_jni_conv).

Definition end_needs_more : bool :=
  negb is_critical_native
  && (jni_OutFrameSize main_jni_conv <? jni_OutFrameSize end_jni_conv).

Definition out_arg_size_diff : Z :=
  size_t_wrap (jni_OutFrameSize end_jni_conv - jni_OutFrameSize main_jni_conv).

Definition frame_size_5 : Z :=
  if end_needs_more then size_t_wrap (frame_size_2 + out_arg_size_diff)
  else frame_size_2.

Definition out_arg_size_5 : Z :=
  if end_needs_more then jni_OutFrameSize end_jni_conv
  else jni_OutFrameSize main_jni_conv.

Definition final_frame_size : Z :=
  if is_critical_native then frame_size_5
  else size_t_wrap (frame_size_5 - out_arg_size_5).

(** The frame calls of a stub, in order. *)
Definition frame_calls (is_synchronized is_fast_native : bool)
           (method_reg : ManagedRegister) : list AsmOp :=
  let out := jni_OutFrameSize main_jni_conv in
  let callee_saves := jni_CalleeSaveRegisters main_jni_conv in
  let reference_return := jni_IsReturnAReference main_jni_conv in
  [BuildFrame frame_size_1 method_reg callee_saves]
    ++ (if is_critical_native then [] else [IncreaseFrameSize out])
    ++ (if end_needs_more then [IncreaseFrameSize out_arg_size_diff] else [])
    ++ (if is_critical_native then [] else [DecreaseFrameSize out_arg_size_5])
    ++ (if negb is_critical_native || negb (jni_UseTailCall main_jni_conv)
        then [RemoveFrame final_frame_size callee_saves (negb is_critical_native)]
        else [])
    ++ (if is_fast_native && reference_return && negb (out =? 0)
        then [CfiAdjustCFAOffset (to_int out); DecreaseFrameSize out;
              IncreaseFrameSize out;
              CfiAdjustCFAOffset (to_int (size_t_wrap (- out)))]
        else [])
    ++ (if is_critical_native then []
        else (if is_synchronized then rewind_calls out else [])
               ++ (if is_fast_native && reference_return
                   then rewind_calls out else [])
               ++ [DeliverPendingException]).

End FrameSizes.

(** ** The liveness of [method_register] *)

Definition is_method_register_event (e : Event) : bool :=
  match e with
  | MethodRegisterWrite _ | MethodRegisterRead _ => true
  | Asm _ => false
  end.

(** The value [method_register] holds after the events [es]: the last one
    assigned, [NoRegister] before the first assignment. *)
Definition last_write (es : list Event) : ManagedRegister :=
  fold_left (fun cur e => match e with MethodRegisterWrite r => r | _ => cur end)
            es NoRegister.

(** The call of [JniMethodStart] or [JniMethodStartSynchronized]. *)
Definition is_JniMethodStart_call (op : AsmOp) : bool :=
  match runtime_call_entrypoint op with
  | Some pJniMethodStart | Some pJniMethodStartSynchronized => true
  | _ => false
  end.

(** The call of the native code through the method. *)
Definition is_main_native_call (op : AsmOp) : bool :=
  match op with
  | Call _ (OfMember (EntryPointFromJniOffset _)) => true
  | _ => false
  end.

Definition clobbers_method_register (op : AsmOp) : bool :=
  is_JniMethodStart_call op || is_main_native_call op.

(** Walking the events with the value of [method_register] and whether the
    last event was a call that clobbers it. *)
Definition walk_event (w : ManagedRegister * bool) (e : Event)
  : ManagedRegister * bool :=
  match e with
  | MethodRegisterWrite r => (r, false)
  | MethodRegisterRead _ => (fst w, false)
  | Asm op => (fst w, clobbers_method_register op)
  end.

Definition walk (w : ManagedRegister * bool) (es : list Event)
  : ManagedRegister * bool :=
  fold_left walk_event es w.

(** The discipline at one event: a read hands out the live value of the
    variable; right after a clobbering call, and only there, the live
    variable is emptied. *)
Definition event_ok (w : ManagedRegister * bool) (e : Event) : Prop :=
  match e with
  | MethodRegisterRead r =>
      snd w = false /\ r = fst w /\ IsRegister r = true
  | MethodRegisterWrite r =>
      if snd w then IsRegister (fst w) = true /\ r = NoRegister
      else IsRegister (fst w) = true -> IsRegister r = true
  | Asm _ => snd w = false
  end.

Fixpoint walk_ok (w : ManagedRegister * bool) (es : list Event) : Prop :=
  match es with
  | [] => True
  | e :: rest => event_ok w e /\ walk_ok (walk_event w e) rest
  end.

(** The events [E] keep the discipline from the value [cur] to the value
    [cur'], and do not end in a clobbering call. *)
Definition mr_segment (cur : ManagedRegister) (E : list Event)
           (cur' : ManagedRegister) : Prop :=
  walk_ok (cur, false) E /\ walk (cur, false) E = (cur', false).

(** From [s] to [s'] the trace grew by events that keep the discipline. *)
Definition mr_run (s s' : State) : Prop :=
  exists E, trace s' = trace s ++ E
            /\ mr_segment (method_register s) E (method_register s').

(** An assembler call that does not clobber the method register. *)
Definition harmless (e : Event) : Prop :=
  match e with
  | Asm op => clobbers_method_register op = false
  | _ => False
  end.

(** What the conventions and the assembler owe the compiler about
    registers: the managed method register, the parameter registers of the
    native convention, its scratch registers and their views of another size
    are registers, and a native parameter is on the stack when it is not in
    a register. *)
Definition well_formed_registers (env : Environment)
           (main_jni_conv : JniCallingConvention)
           (mr_conv : ManagedRuntimeCallingConvention) : Prop :=
  IsRegister (mr_MethodRegister mr_conv) = true
  /\ (forall i, jni_IsParamInRegister main_jni_conv i = true ->
                IsRegister (jni_ParamRegister main_jni_conv i) = true)
  /\ (forall i, jni_IsParamOnStack main_jni_conv i
                = negb (jni_IsParamInRegister main_jni_conv i))
  /\ (forall r size, IsRegister r = true ->
                     IsRegister (CoreRegisterWithSize env r size) = true)
  /\ Forall (fun r => IsRegister r = true)
            (jni_CalleeSaveScratchRegisters main_jni_conv).

(** The claim as the spec states it, for the reads: every read of
    [method_register] finds a register in it. *)
Definition reads_only_while_live (es : list Event) : Prop :=
  forall before r after,
    es = before ++ MethodRegisterRead r :: after ->
    IsRegister (last_write before) = true.

(** ** Critical native stubs *)



(** ** The shorty of the end convention *)

(** The shorty of the convention of the [JniMethodEnd] call as the
    specification gives it: ["IL"] for a synchronized method that returns a
    reference, ["I"] for another method that returns a reference, ["V"]
    for every method that does not. *)
Definition end_shorty_of_spec (reference_return is_synchronized : bool)
  : string :=
  match reference_return, is_synchronized with
  | true, true => "IL"%string
  | true, false => "I"%string
  | false, _ => "V"%string
  end.

(** ** The result of a run *)

(** The value a run returned, [d] when it aborted. *)
Definition returned {A} (d : A) (x : State * Result A) : A :=
  match snd x with Ok a => a | Fatal _ => d end.

Definition no_method : JniCompiledMethod :=
  Build_JniCompiledMethod kNone [] 0 0 0 [].

(** ** Labels *)

(** The calls that bind a label or branch to one. *)
Definition is_label_op (op : AsmOp) : bool :=
  match op with
  | Bind _ | TestGcMarking _ _ | TestMarkBit _ _ _ | JumpLabel _
  | ExceptionPoll _ | SuspendCheck _ => true
  | _ => false
  end.

(** The label a call may branch to. *)
Definition branch_target (op : AsmOp) : option (option Label) :=
  match op with
  | TestGcMarking l _ | TestMarkBit _ l _ | JumpLabel l | ExceptionPoll l
  | SuspendCheck l => Some l
  | _ => None
  end.

Definition binds_label (n : Label) (op : AsmOp) : bool :=
  match op with
  | Bind (Some m) => Nat.eqb m n
  | _ => false
  end.

(** How many times the label [n] is bound by the calls [ops]. *)
Definition binds (n : Label) (ops : list AsmOp) : nat :=
  List.length (filter (binds_label n) ops).

(** The label calls of a stub, in order, with the labels numbered in the
    order of their creation. *)
Section LabelOps.

Variable env : Environment.
Variables is_static is_synchronized is_fast_native is_critical_native : bool.
Variable main_jni_conv : JniCallingConvention.

Definition has_read_barrier_path : bool :=
  kUseReadBarrier env && is_static && negb is_critical_native.

Definition labels_1 : nat := if has_read_barrier_path then 2%nat else 0%nat.
Definition labels_2 : nat := if is_synchronized then S labels_1 else labels_1.
Definition labels_5 : nat := if negb is_critical_native then S labels_2 else labels_2.

Definition monitor_enter_label : option Label :=
  if is_synchronized then Some labels_1 else None.
Definition exception_label : option Label :=
  if negb is_critical_native then Some labels_2 else None.
Definition suspend_check_labels : option Label * option Label :=
  if is_fast_native then (Some labels_5, Some (S labels_5)) else (None, None).

Definition label_ops : list AsmOp :=
  let reference_return := jni_IsReturnAReference main_jni_conv in
  let temp :=
    CoreRegisterWithSize
      env (nth 0 (jni_CalleeSaveScratchRegisters main_jni_conv) NoRegister)
      kObjectReferenceSize in
  (if has_read_barrier_path
   then [TestGcMarking (Some 0%nat) kNotZero; Bind (Some 1%nat)] else [])
    ++ (if negb is_critical_native && negb is_fast_native && is_synchronized
        then [ExceptionPoll monitor_enter_label] else [])
    ++ (if is_fast_native && reference_return
        then [ExceptionPoll exception_label;
              SuspendCheck (fst suspend_check_labels);
              Bind (snd suspend_check_labels)]
        else [])
    ++ (if negb is_critical_native && (negb is_fast_native || negb reference_return)
        then [ExceptionPoll exception_label] else [])
    ++ (if is_fast_native && negb reference_return
        then [SuspendCheck (fst suspend_check_labels);
              Bind (snd suspend_check_labels)]
        else [])
    ++ (if has_read_barrier_path
        then [Bind (Some 0%nat)]
               ++ (if kUseBakerReadBarrier env
                   then [TestMarkBit temp (Some 1%nat) kNotZero] else [])
               ++ [JumpLabel (Some 1%nat)]
        else [])
    ++ (if is_fast_native
        then [Bind (fst suspend_check_labels); JumpLabel (snd suspend_check_labels)]
        else [])
    ++ (if negb is_critical_native
        then (if is_synchronized then [Bind monitor_enter_label] else [])
               ++ [Bind exception_label]
        else []).

End LabelOps.

(** ** Calls and polls *)

(** A call or jump, the store of the stack pointer to the thread, a poll
    for a pending exception, or a suspend check. *)
Inductive Milestone :=
| CallTo (off : Offset)
| StoresStackPointer (t : ThreadOffset)
| PollsException (l : option Label)
| ChecksSuspend (l : option Label).

Definition milestone_of (op : AsmOp) : list Milestone :=
  match op with
  | Call _ off | Jump _ off => [CallTo off]
  | CallFromThread t => [CallTo (OfThread t)]
  | StoreStackPointerToThread t => [StoresStackPointer t]
  | ExceptionPoll l => [PollsException l]
  | SuspendCheck l => [ChecksSuspend l]
  | _ => []
  end.

(** ** The frame, from prologue to epilogue *)

Definition is_BuildFrame_or_RemoveFrame (op : AsmOp) : bool :=
  match op with
  | BuildFrame _ _ _ | RemoveFrame _ _ _ => true
  | _ => false
  end.

(** ** The attributes a debug build accepts *)

(** No character of the shorty is of a reference type. *)
Definition no_reference_in (env : Environment) (shorty : string) : bool :=
  forallb (fun c => negb (PrimitiveType_eqb kPrimNot (Primitive_GetType env c)))
          (list_ascii_of_string shorty).

(** What lines 151-177 require of the attributes of a method. *)
Definition valid_attributes (env : Environment)
           (is_static is_synchronized is_fast_native is_critical_native : bool)
           (shorty : string) : bool :=
  negb (is_fast_native && is_critical_native)
  && (negb is_critical_native
      || (is_static && negb is_synchronized && no_reference_in env shorty)).

(** ** The checks of the stub *)

(** [m] never aborts. *)
Definition never_fatal {A} (m : M A) : Prop :=
  forall s s' f, m s <> (s', Fatal f).

(** What the [CHECK]s of the stub (lines 389, 529, 535, 553, 568 and 576)
    require of the conventions. *)
Section StubChecks.

Variables is_fast_native is_critical_native : bool.
Variable main_jni_conv : JniCallingConvention.
Variable mr_conv : ManagedRuntimeCallingConvention.

(** Line 389. *)
Definition enough_scratch_registers : bool :=
  is_critical_native
  || (3 <=? List.length (jni_CalleeSaveScratchRegisters main_jni_conv))%nat.

(** Lines 529 and 535. *)
Definition extension_allowed : bool :=
  negb (jni_RequiresSmallResultTypeExtension main_jni_conv)
  || ((negb is_critical_native || negb (jni_UseTailCall main_jni_conv))
      && (PrimitiveType_eqb (jni_GetReturnType main_jni_conv) kPrimByte
          || PrimitiveType_eqb (jni_GetReturnType main_jni_conv) kPrimShort
          || PrimitiveType_eqb (jni_GetReturnType main_jni_conv) kPrimBoolean
          || PrimitiveType_eqb (jni_GetReturnType main_jni_conv) kPrimChar)).

(** Lines 553, 568 and 576, in a frame of size [frame_size]. *)
Definition return_value_placed (frame_size : Z) : bool :=
  if jni_SpillsReturnValue main_jni_conv then
    jni_ReturnValueSaveLocation main_jni_conv mod 2 ^ 32 <? frame_size
  else if (is_fast_native || is_critical_native)
          && negb (jni_SizeOfReturnValue main_jni_conv =? 0) then
    if negb (Equals (jni_ReturnRegister main_jni_conv)
                    (mr_ReturnRegister mr_conv)) then
      negb is_critical_native || negb (jni_UseTailCall main_jni_conv)
    else if IsNoRegister (jni_ReturnRegister main_jni_conv)
            && IsNoRegister (mr_ReturnRegister mr_conv) then
      jni_SizeOfReturnValue main_jni_conv =? mr_SizeOfReturnValue mr_conv
    else true
  else true.

Definition stub_checks : bool :=
  enough_scratch_registers
  && extension_allowed
  && return_value_placed (frame_size_2 is_critical_native main_jni_conv).

End StubChecks.

(** ** The JNI environment and its local reference table *)

(** The load of the JNI environment, or an access to the cookie or the
    segment state of its local reference table. *)
Definition is_local_reference_access (op : AsmOp) : bool :=
  match op with
  | LoadRawPtrFromThread _ (JniEnvOffset _) => true
  | LoadMember _ _ off _ | StoreMember _ off _ _ =>
      is_local_reference_frame_offset off
  | _ => false
  end.

(** The calls among which the exception path of a stub is read: the label
    calls, the accesses to the JNI environment and its local reference
    table, and the delivery of the pending exception. *)
Definition is_path_op (op : AsmOp) : bool :=
  match op with
  | DeliverPendingException => true
  | _ => is_label_op op || is_local_reference_access op
  end.

Definition same_label (a b : option Label) : bool :=
  match a, b with
  | Some n, Some m => Nat.eqb n m
  | None, None => true
  | _, _ => false
  end.

(** An access to the JNI environment or its local reference table, a poll
    that branches to the label [exception_slow_path], the binding of that
    label, or the delivery of the pending exception. *)
Definition on_exception_path (exception_slow_path : option Label) (op : AsmOp)
  : bool :=
  match op with
  | ExceptionPoll l | Bind l => same_label l exception_slow_path
  | DeliverPendingException => true
  | _ => is_local_reference_access op
  end.

(** ** What a critical native stub is made of *)

(** The calls of a critical native stub: the configuration of the
    assembler, [BuildFrame], the move of the arguments, the call of or the
    jump to the native code, the extension of a small result, the move of
    the return value, [RemoveFrame], and the finalization. *)
Definition critical_native_call (op : AsmOp) : bool :=
  match op with
  | CfiSetEnabled _ | SetEmitRunTimeChecksInDebugMode _
  | BuildFrame _ _ _ | RemoveFrame _ _ _
  | MoveArguments _ _ _
  | Call _ (OfMember (EntryPointFromJniOffset _))
  | Jump _ (OfMember (EntryPointFromJniOffset _))
  | SignExtend _ _ | ZeroExtend _ _ | Move _ _ _
  | FinalizeCode | FinalizeInstructions => true
  | _ => false
  end.

(** ** The pointer size of the offsets *)

Definition thread_offset_for (p : PointerSize) (t : ThreadOffset) : bool :=
  match t, p with
  | QUICK_ENTRYPOINT_OFFSET k32 _, k32 | QUICK_ENTRYPOINT_OFFSET k64 _, k64
  | TopOfManagedStackOffset k32, k32 | TopOfManagedStackOffset k64, k64
  | JniEnvOffset k32, k32 | JniEnvOffset k64, k64 => true
  | _, _ => false
  end.

(** The offsets of the JNI environment are for the pointer size [p]; the
    offsets into the method are left to the instruction set. *)
Definition member_offset_for (p : PointerSize) (m : MemberOffset) : bool :=
  match m with
  | LocalRefCookieOffset size | SegmentStateOffset size =>
      size =? kRawPointerSize p
  | EntryPointFromJniOffset _ | MemberOffsetValue _ => true
  end.

(** Every offset from the thread pointer or into the JNI environment that
    the call [op] mentions is an offset for the pointer size [p]. *)
Definition offsets_for (p : PointerSize) (op : AsmOp) : bool :=
  match op with
  | StoreStackPointerToThread t | CallFromThread t
  | LoadRawPtrFromThread _ t => thread_offset_for p t
  | Call _ (OfThread t) | Jump _ (OfThread t) => thread_offset_for p t
  | Call _ (OfMember m) | Jump _ (OfMember m) => member_offset_for p m
  | LoadMember _ _ m _ | StoreMember _ m _ _ => member_offset_for p m
  | _ => true
  end.

(** ** The vectors of [MoveArguments] *)




(** ** The extension of a small result *)

Definition is_extension (op : AsmOp) : bool :=
  match op with
  | SignExtend _ _ | ZeroExtend _ _ => true
  | _ => false
  end.

(** The sample environment with a native convention that leaves small
    results unextended, as on x86. *)
Definition extending_native (tail_call : bool)
           (is_static is_synchronized is_fast_native is_critical_native : bool)
           (shorty : string) (isa : InstructionSet) : JniCallingConvention :=
  let c := Sample.native tail_call is_static is_synchronized is_fast_native
                         is_critical_native shorty isa in
  {| jni_NumArgs := jni_NumArgs c;
     jni_IsParamInRegister := jni_IsParamInRegister c;
     jni_IsParamOnStack := jni_IsParamOnStack c;
     jni_ParamRegister := jni_ParamRegister c;
     jni_ParamStackOffset := jni_ParamStackOffset c;
     jni_ParamSize := jni_ParamSize c;
     jni_FrameSize := jni_FrameSize c;
     jni_OutFrameSize := jni_OutFrameSize c;
     jni_CalleeSaveRegisters := jni_CalleeSaveRegisters c;
     jni_CalleeSaveScratchRegisters := jni_CalleeSaveScratchRegisters c;
     jni_CoreSpillMask := jni_CoreSpillMask c;
     jni_FpSpillMask := jni_FpSpillMask c;
     jni_IsReturnAReference := jni_IsReturnAReference c;
     jni_ReturnRegister := jni_ReturnRegister c;
     jni_SizeOfReturnValue := jni_SizeOfReturnValue c;
     jni_SpillsReturnValue := jni_SpillsReturnValue c;
     jni_ReturnValueSaveLocation := jni_ReturnValueSaveLocation c;
     jni_RequiresSmallResultTypeExtension := jni_HasSmallReturnType c;
     jni_HasSmallReturnType := jni_HasSmallReturnType c;
     jni_GetReturnType := jni_GetReturnType c;
     jni_UseTailCall := jni_UseTailCall c;
     jni_HiddenArgumentRegister := jni_HiddenArgumentRegister c |}.

Definition extending_environment (debug tail_call : bool) : Environment :=
  let e := Sample.environment debug tail_call in
  {| kIsDebugBuild := kIsDebugBuild e;
     kUseReadBarrier := kUseReadBarrier e;
     kUseBakerReadBarrier := kUseBakerReadBarrier e;
     kAccNative := kAccNative e;
     kAccStatic := kAccStatic e;
     kAccSynchronized := kAccSynchronized e;
     kAccFastNative := kAccFastNative e;
     kAccCriticalNative := kAccCriticalNative e;
     kInvalidReferenceOffset := kInvalidReferenceOffset e;
     kIRTCookieSize := kIRTCookieSize e;
     ArtMethod_DeclaringClassOffset := ArtMethod_DeclaringClassOffset e;
     Primitive_GetType := Primitive_GetType e;
     Primitive_ComponentSize := Primitive_ComponentSize e;
     JniCallingConvention_Create := extending_native tail_call;
     ManagedRuntimeCallingConvention_Create :=
       ManagedRuntimeCallingConvention_Create e;
     CoreRegisterWithSize := CoreRegisterWithSize e;
     Is64BitInstructionSet := Is64BitInstructionSet e;
     InstructionSetPointerSize := InstructionSetPointerSize e;
     AssembledCode := AssembledCode e;
     CfiData := CfiData e |}.

(** ** The spilled return value *)

(** What the compiler knows of the frame and of the slot of the return
    value. *)
Definition frame_and_slot (s : State) : Z * Z * FrameOffset :=
  (current_frame_size s, current_out_arg_size s, return_save_location s).

(** ** The references the stub converts itself *)

(** A reference converted by [CreateJObject] (the stack slot it is read
    from, and whether it may be null), a call of a [JniMethodStart] or
    end-of-method entrypoint, or the call of (the jump to) the native
    code. *)
Inductive ConversionOrCall :=
| ConvertsReference (spilled_reference_offset : FrameOffset)
                    (null_allowed : bool)
| CallsRuntime (t : ThreadOffset)
| CallsNative.

Definition is_jni_transition_offset (t : ThreadOffset) : bool :=
  match t with
  | QUICK_ENTRYPOINT_OFFSET _ e => is_jni_transition_entrypoint e
  | _ => false
  end.

Definition conversion_or_call (op : AsmOp) : list ConversionOrCall :=
  match op with
  | CreateJObjectStack _ spilled_reference_offset null_allowed
  | CreateJObjectReg _ spilled_reference_offset _ null_allowed =>
      [ConvertsReference spilled_reference_offset null_allowed]
  | Call _ (OfThread t) | CallFromThread t =>
      if is_jni_transition_offset t then [CallsRuntime t] else []
  | Call _ (OfMember (EntryPointFromJniOffset _))
  | Jump _ (OfMember (EntryPointFromJniOffset _)) => [CallsNative]
  | _ => []
  end.

(** ** The arguments of the native call (4.1) *)

(** What one round of the loop of 4.1 appends to [src_args], [dest_args]
    and [refs], for the managed argument at position [i] and the native
    parameter at position [j]: nothing, for a normal native method, when the
    native parameter is on the stack. *)
Definition Step_4_1_entry (env : Environment) (p : PointerSize)
           (is_fast_native is_critical_native : bool)
           (main_jni_conv : JniCallingConvention)
           (mr_conv : ManagedRuntimeCallingConvention)
           (mr_displacement main_displacement : Z) (i j : nat)
  : list (ArgumentLocation * ArgumentLocation * FrameOffset) :=
  let dest_in_reg := jni_IsParamInRegister main_jni_conv j in
  if (negb is_critical_native && negb is_fast_native) && negb dest_in_reg
  then []
  else
    let is_reference := mr_IsParamAReference mr_conv i in
    let src_size :=
      if negb is_reference && mr_IsParamALongOrDouble mr_conv i then 8 else 4 in
    let dest_size := if is_reference then kRawPointerSize p else src_size in
    [(if (is_critical_native || is_fast_native)
         && mr_IsParamInRegister mr_conv i
      then ArgInRegister (mr_ParamRegister mr_conv i) src_size
      else ArgOnStack (mr_ParamStackOffset mr_conv mr_displacement i) src_size,
      if dest_in_reg
      then ArgInRegister (jni_ParamRegister main_jni_conv j) dest_size
      else ArgOnStack (jni_ParamStackOffset main_jni_conv main_displacement j)
                      dest_size,
      if is_reference then mr_ParamStackOffset mr_conv mr_displacement i
      else kInvalidReferenceOffset env)].

Definition entry_src (e : ArgumentLocation * ArgumentLocation * FrameOffset)
  : ArgumentLocation := fst (fst e).
Definition entry_dest (e : ArgumentLocation * ArgumentLocation * FrameOffset)
  : ArgumentLocation := snd (fst e).
Definition entry_ref (e : ArgumentLocation * ArgumentLocation * FrameOffset)
  : FrameOffset := snd e.

(** What 4.1 puts first into [src_args], [dest_args] and [refs] (lines
    410-468): the method, from the managed method register to the hidden
    argument register, for a critical native method; the method as [jclass]
    for another static method, from the register that holds it (the
    callee-save temporary when the [jclass] parameter is on the stack) or
    from its stack slot; [this] for an instance method.  [method_register]
    is the value of the variable when 4.1 begins. *)
Definition Step_4_1_first_entry (env : Environment) (p : PointerSize)
           (is_static is_fast_native is_critical_native : bool)
           (main_jni_conv : JniCallingConvention)
           (mr_conv : ManagedRuntimeCallingConvention)
           (callee_save_temp method_register : ManagedRegister)
           (frame_size out_arg_size : Z)
  : ArgumentLocation * ArgumentLocation * FrameOffset :=
  if is_critical_native then
    (ArgInRegister (mr_MethodRegister mr_conv) (kRawPointerSize p),
     ArgInRegister (jni_HiddenArgumentRegister main_jni_conv)
                   (kRawPointerSize p),
     kInvalidReferenceOffset env)
  else
    let dest :=
      if jni_IsParamInRegister main_jni_conv 1
      then ArgInRegister (jni_ParamRegister main_jni_conv 1)
                         (kRawPointerSize p)
      else ArgOnStack (jni_ParamStackOffset main_jni_conv
                                            (jni_OutFrameSize main_jni_conv) 1)
                      (kRawPointerSize p) in
    if is_static then
      let method_offset :=
        size_t_wrap (out_arg_size + mr_MethodStackOffset mr_conv) in
      let method_register :=
        if jni_IsParamOnStack main_jni_conv 1
        then CoreRegisterWithSize env callee_save_temp (kRawPointerSize p)
        else method_register in
      (if IsNoRegister method_register
       then ArgOnStack method_offset (kRawPointerSize p)
       else ArgInRegister method_register (kRawPointerSize p),
       dest,
       kInvalidReferenceOffset env)
    else
      (if is_fast_native && mr_IsParamInRegister mr_conv 0
       then ArgInRegister (mr_ParamRegister mr_conv 0) kObjectReferenceSize
       else ArgOnStack (mr_ParamStackOffset mr_conv frame_size 0)
                       kObjectReferenceSize,
       dest,
       mr_ParamStackOffset mr_conv frame_size 0).

(** The frame sizes and [method_register]. *)
Definition frame_and_method (s : State) : Z * Z * ManagedRegister :=
  (current_frame_size s, current_out_arg_size s, method_register s).

(** ** Around the native call *)

(** The call of, or the jump to, the native code of the method. *)
Definition is_native_entry (op : AsmOp) : bool :=
  match op with
  | Call _ (OfMember (EntryPointFromJniOffset _))
  | Jump _ (OfMember (EntryPointFromJniOffset _)) => true
  | _ => false
  end.

Section AroundTheCall.

Variable env : Environment.
Variable kPointerSize : PointerSize.
Variables is_fast_native is_critical_native : bool.
Variable main_jni_conv : JniCallingConvention.
Variable mr_conv : ManagedRuntimeCallingConvention.

(** 4.2: the JNI environment, from the first callee-save scratch register
    to the first native parameter. *)
Definition jni_env_argument : list AsmOp :=
  let jni_env_reg :=
    nth 0 (jni_CalleeSaveScratchRegisters main_jni_conv) NoRegister in
  if is_critical_native then []
  else [if jni_IsParamInRegister main_jni_conv 0
        then Move (jni_ParamRegister main_jni_conv 0) jni_env_reg
                  (kRawPointerSize kPointerSize)
        else Store (jni_ParamStackOffset main_jni_conv
                                         (jni_OutFrameSize main_jni_conv) 0)
                   jni_env_reg (kRawPointerSize kPointerSize)].

(** 4.4: the extension of a small result. *)
Definition result_extension : list AsmOp :=
  let return_type := jni_GetReturnType main_jni_conv in
  if jni_RequiresSmallResultTypeExtension main_jni_conv
  then [if PrimitiveType_eqb return_type kPrimByte
           || PrimitiveType_eqb return_type kPrimShort
        then SignExtend (jni_ReturnRegister main_jni_conv)
                        (Primitive_ComponentSize env return_type)
        else ZeroExtend (jni_ReturnRegister main_jni_conv)
                        (Primitive_ComponentSize env return_type)]
  else [].

(** 5.1: the return value is spilled, or moved to the managed return
    register, or left where it is. *)
Definition return_value_move : list AsmOp :=
  if jni_SpillsReturnValue main_jni_conv
  then [Store (jni_ReturnValueSaveLocation main_jni_conv)
              (jni_ReturnRegister main_jni_conv)
              (jni_SizeOfReturnValue main_jni_conv)]
  else if (is_fast_native || is_critical_native)
          && negb (jni_SizeOfReturnValue main_jni_conv =? 0)
          && negb (Equals (jni_ReturnRegister main_jni_conv)
                          (mr_ReturnRegister mr_conv))
       then [Move (mr_ReturnRegister mr_conv) (jni_ReturnRegister main_jni_conv)
                  (jni_SizeOfReturnValue main_jni_conv)]
       else [].

End AroundTheCall.

(** ** The assertions on [method_register] *)

(** [fails_only P m]: when [m] aborts, it is with a failure satisfying
    [P]. *)
Definition fails_only {A} (P : Failure -> Prop) (m : M A) : Prop :=
  forall s s' f, m s = (s', Fatal f) -> P f.

(** The [DCHECK]s of lines 427, 430, 439 and 519: [method_register] holds a
    register when it is needed, none when it was clobbered, and the method
    is found in the [jclass] register when in none. *)
Definition is_method_register_check (f : Failure) : bool :=
  match f with
  | DCheckFailed line =>
      (line =? 427)%nat || (line =? 430)%nat || (line =? 439)%nat
      || (line =? 519)%nat
  | _ => false
  end.

Definition other_failure (f : Failure) : Prop :=
  is_method_register_check f = false.

(** * Reasoning about the emitter *)

Lemma bind_Ok {A B} (m : M A) (k : A -> M B) s s' b :
  bind m k s = (s', Ok b) ->
  exists a s1, m s = (s1, Ok a) /\ k a s1 = (s', Ok b).
Proof.
  unfold bind. destruct (m s) as [s1 [a | f]]; intros H.
  - exists a, s1. split; [reflexivity | exact H].
  - discriminate H.
Qed.

Lemma trace_record_event e s : trace (record_event e s) = trace s ++ [e].
Proof. reflexivity. Qed.

Section EmitsOnly.

Context {T : Type} (g : State -> T) (P : Event -> Prop).

Lemma emits_ret {A} (a : A) : emits_only g P (ret a).
Proof.
  intros s s' r H. inversion H; subst. split; [reflexivity |].
  exists []. rewrite app_nil_r. split; [reflexivity | constructor].
Qed.

Lemma emits_fail {A} f : emits_only g P (@fail A f).
Proof.
  intros s s' r H. inversion H; subst. split; [reflexivity |].
  exists []. rewrite app_nil_r. split; [reflexivity | constructor].
Qed.

Lemma emits_gets {A} (f : State -> A) : emits_only g P (gets f).
Proof.
  intros s s' r H. inversion H; subst. split; [reflexivity |].
  exists []. rewrite app_nil_r. split; [reflexivity | constructor].
Qed.

Lemma emits_update f :
  (forall s, trace_rev (f s) = trace_rev s) ->
  (forall s, g (f s) = g s) ->
  emits_only g P (update f).
Proof.
  intros Ht Hg s s' r H. inversion H; subst. split; [apply Hg |].
  exists []. rewrite app_nil_r. unfold trace. rewrite Ht.
  split; [reflexivity | constructor].
Qed.

Lemma emits_event e (m : M unit) :
  (forall s, m s = (record_event e s, Ok tt)) ->
  P e ->
  (forall s, g (record_event e s) = g s) ->
  emits_only g P m.
Proof.
  intros Hm HP Hg s s' r H. rewrite Hm in H. inversion H; subst.
  split; [apply Hg |]. exists [e]. split; [reflexivity | auto].
Qed.

Lemma emits_emit op :
  P (Asm op) ->
  (forall s, g (record_event (Asm op) s) = g s) ->
  emits_only g P (emit op).
Proof. intros HP Hg. apply (emits_event (Asm op)); auto. Qed.

Lemma emits_CreateLabel :
  (forall n s, g (set_next_label n s) = g s) ->
  emits_only g P CreateLabel.
Proof.
  intros Hg s s' r H. inversion H; subst. split; [apply Hg |].
  exists []. rewrite app_nil_r. split; [reflexivity | constructor].
Qed.

Lemma emits_assign_method_register r :
  P (MethodRegisterWrite r) ->
  (forall s, g (set_method_register r (record_event (MethodRegisterWrite r) s))
             = g s) ->
  emits_only g P (assign_method_register r).
Proof.
  intros HP Hg s s' x H. inversion H; subst. split; [apply Hg |].
  exists [MethodRegisterWrite r]. split; [reflexivity | auto].
Qed.

Lemma emits_use_method_register :
  (forall r, P (MethodRegisterRead r)) ->
  (forall e s, g (record_event e s) = g s) ->
  emits_only g P use_method_register.
Proof.
  intros HP Hg s s' x H. inversion H; subst. split; [apply Hg |].
  exists [MethodRegisterRead (method_register s)].
  split; [reflexivity | auto].
Qed.

Lemma emits_bind {A B} (m : M A) (k : A -> M B) :
  emits_only g P m ->
  (forall a, emits_only g P (k a)) ->
  emits_only g P (bind m k).
Proof.
  intros Hm Hk s s' r H. unfold bind in H.
  destruct (m s) as [s1 [a | f]] eqn:E1.
  - destruct (Hm _ _ _ E1) as [G1 [E [T1 F1]]].
    destruct (Hk a _ _ _ H) as [G2 [E' [T2 F2]]].
    split; [congruence |].
    exists (E ++ E'). rewrite T2, T1, app_assoc.
    split; [reflexivity | apply Forall_app; auto].
  - inversion H; subst.
    destruct (Hm _ _ _ E1) as [G1 [E [T1 F1]]]. eauto.
Qed.

Lemma emits_when b (m : M unit) :
  (b = true -> emits_only g P m) -> emits_only g P (when b m).
Proof. destruct b; intros H; [apply H; reflexivity | apply emits_ret]. Qed.

Lemma emits_CHECK line cond : emits_only g P (CHECK line cond).
Proof. destruct cond; [apply emits_ret | apply emits_fail]. Qed.

Lemma emits_DCHECK env line cond : emits_only g P (DCHECK env line cond).
Proof.
  unfold DCHECK. destruct (kIsDebugBuild env); [| apply emits_ret].
  destruct cond; [apply emits_ret | apply emits_fail].
Qed.

Lemma emits_for_each_remaining n body :
  (forall s i d, g (set_mr_iterator i d s) = g s) ->
  (forall s i d, g (set_main_iterator i d s) = g s) ->
  emits_only g P body ->
  emits_only g P (for_each_remaining n body).
Proof.
  intros G1 G2 Hb. induction n as [| n IH]; simpl.
  - apply emits_ret.
  - apply emits_bind; [exact Hb | intros _].
    apply emits_bind; [apply emits_update; intros; [reflexivity | apply G1] | intros _].
    apply emits_bind; [apply emits_update; intros; [reflexivity | apply G2] | intros _].
    exact IH.
Qed.

End EmitsOnly.

(** Walking a program of the emitter, rule by rule.  [solve_event] proves
    the goal [P e] for each event the program can add. *)

Ltac head_of t :=
  lazymatch t with
  | ?f _ => head_of f
  | _ => t
  end.

Ltac bool_atom b :=
  lazymatch b with
  | negb ?x => bool_atom x
  | andb ?x _ => bool_atom x
  | orb ?x _ => bool_atom x
  | _ => b
  end.

Ltac split_on_condition b :=
  let a := bool_atom b in
  destruct a eqn:?; cbn [negb andb orb].

Ltac emits_rule solve_event :=
  cbn [negb andb orb fst snd];
  lazymatch goal with
  | |- emits_only _ _ (bind _ _) => apply emits_bind; [ | intros ? ]
  | |- emits_only _ _ (ret _) => apply emits_ret
  | |- emits_only _ _ (fail _) => apply emits_fail
  | |- emits_only _ _ (gets _) => apply emits_gets
  | |- emits_only _ _ (update _) =>
      apply emits_update; intros; reflexivity
  | |- emits_only _ _ (emit _) =>
      apply emits_emit; [ solve_event | intros; reflexivity ]
  | |- emits_only _ _ CreateLabel =>
      apply emits_CreateLabel; intros; reflexivity
  | |- emits_only _ _ (assign_method_register _) =>
      apply emits_assign_method_register; [ solve_event | intros; reflexivity ]
  | |- emits_only _ _ use_method_register =>
      apply emits_use_method_register; [ intros; solve_event | intros; reflexivity ]
  | |- emits_only _ _ (CHECK _ _) => apply emits_CHECK
  | |- emits_only _ _ (DCHECK _ _ _) => apply emits_DCHECK
  | |- emits_only _ _ (for_each_remaining _ _) =>
      apply emits_for_each_remaining; [ intros; reflexivity | intros; reflexivity | ]
  | |- emits_only _ _ (when ?b _) => unfold when at 1
  | |- emits_only _ _ (if ?b then _ else _) => split_on_condition b
  | |- emits_only _ _ (let _ := _ in _) => cbv zeta
  | |- emits_only _ _ ?m => let h := head_of m in unfold h
  end.

Ltac emits_walk solve_event := repeat (emits_rule solve_event).

Lemma Forall_asm_trace (Q : AsmOp -> Prop) s :
  Forall (on_asm Q) (trace s) -> Forall Q (asm_trace s).
Proof.
  unfold asm_trace. induction (trace s) as [| e l IH]; intros H; simpl.
  - constructor.
  - inversion H; subst. destruct e; simpl; auto.
Qed.

Lemma check_shorty_state env shorty s0 s1 x :
  check_shorty env shorty s0 = (s1, x) -> s1 = s0.
Proof.
  revert s1 x. induction shorty as [| c sh IH]; simpl; intros s1 x Hc.
  - inversion Hc; reflexivity.
  - unfold bind, CHECK in Hc.
    destruct (negb _); simpl in Hc; [eauto | inversion Hc; reflexivity].
Qed.

(** The validation emits nothing and changes nothing. *)
Lemma validate_attributes_state env st sy fa cr shorty s0 s1 x :
  validate_attributes env st sy fa cr shorty s0 = (s1, x) -> s1 = s0.
Proof.
  unfold validate_attributes, when, bind, CHECK.
  repeat match goal with
         | |- context [if ?b then _ else _] => destruct b; simpl
         end;
    intros Hv; try (inversion Hv; reflexivity);
    eauto using check_shorty_state.
Qed.

(** The compile function either stops in its checks, before anything is
    emitted, or runs [EmitStub] on the attributes and conventions of the
    method. *)
Lemma compile_cases env kPointerSize options access_flags method_idx dex_file s0 s r :
  ArtJniCompileMethodInternal env kPointerSize options access_flags method_idx
                              dex_file s0 = (s, r) ->
  (s = s0 /\ exists f, r = Fatal f)
  \/ (has_flag access_flags (kAccNative env) = true
      /\ EmitStub env kPointerSize (GetInstructionSet options)
                  (static_of env access_flags) (synchronized_of env access_flags)
                  (fast_native_of env access_flags)
                  (critical_native_of env access_flags)
                  (main_conv_of env options access_flags method_idx dex_file)
                  (end_conv_of env options access_flags method_idx dex_file)
                  (mr_conv_of env options access_flags method_idx dex_file)
                  options s0 = (s, r)).
Proof.
  unfold ArtJniCompileMethodInternal. intros H.
  destruct (has_flag access_flags (kAccNative env)) eqn:Hn.
  2:{ left. inversion H; subst. eauto. }
  change (bind (CHECK 123 true) ?k s0) with (k tt s0) in H. cbv beta in H.
  unfold bind at 1 in H.
  destruct (validate_attributes _ _ _ _ _ _ s0) as [s1 [[] | f]] eqn:Hv;
    apply validate_attributes_state in Hv; subst s1.
  - right. split; [reflexivity | exact H].
  - left. inversion H; subst. eauto.
Qed.

(** A successful compile ran [EmitStub] to its end. *)
Lemma compile_Ok env kPointerSize options access_flags method_idx dex_file s0 s r :
  ArtJniCompileMethodInternal env kPointerSize options access_flags method_idx
                              dex_file s0 = (s, Ok r) ->
  EmitStub env kPointerSize (GetInstructionSet options)
           (static_of env access_flags) (synchronized_of env access_flags)
           (fast_native_of env access_flags)
           (critical_native_of env access_flags)
           (main_conv_of env options access_flags method_idx dex_file)
           (end_conv_of env options access_flags method_idx dex_file)
           (mr_conv_of env options access_flags method_idx dex_file)
           options s0 = (s, Ok r).
Proof.
  intros H. destruct (compile_cases _ _ _ _ _ _ _ _ _ H) as [[_ [f Hf]] | [_ He]].
  - discriminate Hf.
  - exact He.
Qed.

(** ** Selections of the trace *)

Lemma asm_trace_app s E :
  forall s', trace s' = trace s ++ E ->
             asm_trace s' = asm_trace s ++ flat_map asm_of E.
Proof. intros s' H. unfold asm_trace. rewrite H. apply flat_map_app. Qed.

Lemma filter_not_selected f E :
  Forall (not_selected f) E -> filter f (flat_map asm_of E) = [].
Proof.
  induction 1 as [| e E He _ IH]; simpl; [reflexivity |].
  destruct e; simpl in *; [rewrite He | |]; exact IH.
Qed.

(** A program that emits no selected call leaves the selection alone. *)
Lemma emits_only_filter {A T} (g : State -> T) f (m : M A) s s' r :
  emits_only g (not_selected f) m ->
  m s = (s', r) ->
  filter f (asm_trace s') = filter f (asm_trace s) /\ g s' = g s.
Proof.
  intros Hm H. destruct (Hm _ _ _ H) as [Hg [E [HE HF]]].
  split; [| exact Hg].
  rewrite (asm_trace_app _ _ _ HE), filter_app, (filter_not_selected _ _ HF).
  apply app_nil_r.
Qed.

(** Peeling the first action off a successful run. *)
Ltac peel H a s1 H1 :=
  apply bind_Ok in H; destruct H as (a & s1 & H1 & H).

(** Running a short straight-line program on a symbolic state. *)
Arguments to_int : simpl never.
Arguments size_t_wrap : simpl never.
Arguments cfa_of : simpl never.
Arguments Z.eqb : simpl never.
Arguments Z.ltb : simpl never.
Arguments Z.add : simpl never.
Arguments Z.sub : simpl never.
Arguments Z.opp : simpl never.
Arguments Z.modulo : simpl never.
Arguments Nat.ltb : simpl never.
Arguments Nat.leb : simpl never.
Arguments Nat.sub : simpl never.
Arguments nth : simpl never.
Arguments trace : simpl never.
Arguments Step_2_2_entry : simpl never.
Arguments asm_trace : simpl never.

Ltac unfold_emitter H :=
  unfold Step_1_1, Step_1_2, Step_1_3, Step_2_1, Step_2_2, Step_2_2_body,
    Step_2_3, Step_3, Step_4_1, Step_4_1_body, Step_4_2, Step_4_3, Step_4_4,
    Step_5_1, Step_5_2, Step_5_3, Step_5_4, Step_5_5, Step_5_6,
    Step_5_4_to_5_6, Step_6, Step_7_1, Step_7_2, Step_7_3, Step_7_4,
    Step_8_1, Step_8_2, Step_8_3, Step_9, rewind_out_args,
    PushLocalReferenceFrame, PopLocalReferenceFrame, SetNativeParameter,
    emit_MoveArguments, push_arg, clear_args,
    mr_ResetIterator, mr_Next, mr_HasNext, mr_Remaining,
    mr_IsCurrentParamInRegister, mr_CurrentParamRegister,
    mr_CurrentParamStackOffset, mr_IsCurrentParamAReference,
    mr_IsCurrentParamALongOrDouble, ResetIterator, Next, HasNext,
    IsCurrentParamInRegister, IsCurrentParamOnStack, CurrentParamRegister,
    CurrentParamStackOffset, CurrentParamSize, GetCurrentCFAOffset,
    main_out_arg_size, managed_frame_size, callee_save_regs,
    spill_return_value, jni_entrypoint_offset,
    DCHECK, CHECK, when in H.

Ltac break_if H :=
  match type of H with
  | context [if ?b then _ else _] =>
      let a := bool_atom b in destruct a eqn:?
  end.

(** Running a short program on a symbolic state: the state is taken apart,
    the program is evaluated, and every test met on the way is decided both
    ways. *)
Lemma Ok_state {A} (s s' : State) (a b : A) : (s, Ok a) = (s', Ok b) -> s' = s.
Proof. intros H. inversion H. reflexivity. Qed.

Lemma Ok_value {A} (s s' : State) (a b : A) : (s, Ok a) = (s', Ok b) -> b = a.
Proof. intros H. inversion H. reflexivity. Qed.

Lemma Fatal_not_Ok {A} (s s' : State) f (b : A) : (s, Fatal f) = (s', Ok b) -> False.
Proof. intros H. inversion H. Qed.

Ltac eval_in H :=
  cbv beta iota zeta delta
      [bind ret fail gets update emit CreateLabel assign_method_register
       use_method_register] in H;
  cbn in H.

Ltac run_in H :=
  cbn; unfold_emitter H; eval_in H; repeat (break_if H; eval_in H);
  first [ exfalso; exact (Fatal_not_Ok _ _ _ _ H)
        | let V := fresh "V" in
          pose proof (Ok_value _ _ _ _ H) as V; apply Ok_state in H;
          subst; cbn ].

(** ** The prologue (C3) *)

Lemma Step_1_1_run env is_critical_native main_jni_conv mr_conv s s' :
  Step_1_1 env is_critical_native main_jni_conv mr_conv s = (s', Ok tt) ->
  let frame_size := if is_critical_native then jni_OutFrameSize main_jni_conv
                    else jni_FrameSize main_jni_conv in
  let method_reg := if is_critical_native then NoRegister
                    else mr_MethodRegister mr_conv in
  trace s' = trace s ++ [MethodRegisterWrite method_reg;
                         MethodRegisterRead method_reg;
                         Asm (BuildFrame frame_size method_reg
                                         (jni_CalleeSaveRegisters main_jni_conv))]
  /\ current_frame_size s' = frame_size
  /\ method_register s' = method_reg
  /\ current_out_arg_size s' = current_out_arg_size s.
Proof.
  intros H. destruct s. run_in H;
    unfold trace; cbn; rewrite <- !app_assoc; auto.
Qed.

Ltac solve_event :=
  first [ exact I
        | reflexivity
        | cbv [selects_none not_selected on_asm harmless];
          unfold jni_end, GetJniEntrypointThreadOffset; cbn;
          repeat match goal with
                 | |- context [if ?b then _ else _] => destruct b; cbn
                 end;
          reflexivity ].

(** [H : (m ;; rest) s = (s', Ok r)] where [m] emits no call selected by
    [f]: step over [m]. *)
Ltac pass_step f H E :=
  let a := fresh "a" in
  let s1 := fresh "s" in
  peel H a s1 E;
  apply (emits_only_filter no_state f) in E;
  [ destruct E as [E _] | solve [emits_walk solve_event] ].

(** [H : m s = (s', r)] where [m] emits no call selected by [f]. *)
Ltac pass_rest f H :=
  apply (emits_only_filter no_state f) in H;
  [ destruct H as [H _] | solve [emits_walk solve_event] ].

(** C3. The one [BuildFrame] of a compile is given the out-args size of the
    native convention and no method register when the method is critical
    native, and the managed frame size and the managed method register
    otherwise; in both cases with the callee saves of the native
    convention. *)
Theorem BuildFrame_arguments
        env kPointerSize options access_flags method_idx dex_file s r :
  ArtJniCompileMethodInternal env kPointerSize options access_flags method_idx
                              dex_file initial_state = (s, Ok r) ->
  let main := main_conv_of env options access_flags method_idx dex_file in
  let mr := mr_conv_of env options access_flags method_idx dex_file in
  filter is_BuildFrame (asm_trace s)
  = [BuildFrame
       (if critical_native_of env access_flags
        then jni_OutFrameSize main else jni_FrameSize main)
       (if critical_native_of env access_flags
        then NoRegister else mr_MethodRegister mr)
       (jni_CalleeSaveRegisters main)].
Proof.
  intros H main mr. apply compile_Ok in H. unfold EmitStub in H.
  pass_step is_BuildFrame H E1.
  pass_step is_BuildFrame H E2.
  peel H x t X. destruct x.
  apply Step_1_1_run in X. destruct X as (T & _).
  pass_rest is_BuildFrame H.
  rewrite H, (asm_trace_app _ _ _ T), filter_app, E2, E1.
  reflexivity.
Qed.

Lemma BuildFrame_arguments_witness :
  filter is_BuildFrame (asm_trace (fst (Sample.compile true false 288 "IL")))
  = [BuildFrame 96 0 [30; 31]].
Proof.
  apply (BuildFrame_arguments
           (Sample.environment true false) k64 Sample.options 288 0
           (Sample.dex "IL") _ (Build_JniCompiledMethod kArm64
              (map (fun _ => 0) (asm_trace (fst (Sample.compile true false 288 "IL"))))
              96 3 0 [])).
  vm_compute. reflexivity.
Defined.

Lemma flat_map_selects_none {X} (pi : AsmOp -> list X) E :
  Forall (selects_none pi) E -> flat_map pi (flat_map asm_of E) = [].
Proof.
  induction 1 as [| e E He _ IH]; simpl; [reflexivity |].
  destruct e; simpl in *; [rewrite He; simpl | |]; exact IH.
Qed.

(** A program that emits nothing seen by [pi] leaves the projection alone. *)
Lemma emits_only_select {A T X} (g : State -> T) (pi : AsmOp -> list X)
      (m : M A) s s' r :
  emits_only g (selects_none pi) m ->
  m s = (s', r) ->
  flat_map pi (asm_trace s') = flat_map pi (asm_trace s) /\ g s' = g s.
Proof.
  intros Hm H. destruct (Hm _ _ _ H) as [Hg [E [HE HF]]].
  split; [| exact Hg].
  rewrite (asm_trace_app _ _ _ HE), flat_map_app, (flat_map_selects_none _ _ HF).
  apply app_nil_r.
Qed.

Ltac skip_step g pi H E :=
  let a := fresh "a" in
  let s1 := fresh "s" in
  peel H a s1 E;
  apply (emits_only_select g pi) in E;
  [ | solve [emits_walk solve_event] ].

Ltac skip_rest g pi H :=
  apply (emits_only_select g pi) in H;
  [ | solve [emits_walk solve_event] ].

(** The extension of the trace by explicit events, after [run_in]. *)
Ltac trace_extension :=
  unfold trace; cbn;
  first [ rewrite <- ?app_assoc; reflexivity | symmetry; apply app_nil_r ].

(** ** The end-of-method runtime call (C1) *)

Lemma Step_5_5_run env kPointerSize is_static is_synchronized is_fast_native
      main_jni_conv end_jni_conv mr_conv s s' :
  Step_5_5 env kPointerSize is_static is_synchronized is_fast_native
           main_jni_conv end_jni_conv mr_conv s = (s', Ok tt) ->
  end_calls s'
  = end_calls s
      ++ (if negb is_fast_native || jni_IsReturnAReference main_jni_conv
          then
            [if is_fast_native then pJniDecodeReferenceResult
             else if jni_IsReturnAReference main_jni_conv
                  then (if is_synchronized
                        then pJniMethodEndWithReferenceSynchronized
                        else pJniMethodEndWithReference)
                  else (if is_synchronized
                        then pJniMethodEndSynchronized
                        else pJniMethodEnd)]
          else []).
Proof.
  intros H.
  assert (exists E, trace s' = trace s ++ E
                    /\ flat_map end_call_of (flat_map asm_of E)
                       = (if negb is_fast_native || jni_IsReturnAReference main_jni_conv
          then
            [if is_fast_native then pJniDecodeReferenceResult
             else if jni_IsReturnAReference main_jni_conv
                  then (if is_synchronized
                        then pJniMethodEndWithReferenceSynchronized
                        else pJniMethodEndWithReference)
                  else (if is_synchronized
                        then pJniMethodEndSynchronized
                        else pJniMethodEnd)]
          else [])) as (E & HE & HP).
  { destruct s. unfold jni_end, GetJniEntrypointThreadOffset in H.
    run_in H; (eexists; split; [trace_extension | reflexivity]). }
  unfold end_calls. rewrite (asm_trace_app _ _ _ HE), flat_map_app, HP.
  reflexivity.
Qed.

(** Stepping over the next action of [H], which emits nothing seen by [pi]
    and keeps [g]. *)
Ltac skip_next g pi H :=
  let E := fresh "E" in
  let G := fresh "G" in
  skip_step g pi H E; destruct E as [E G].

Ltac skip_last g pi H :=
  let G := fresh "G" in
  skip_rest g pi H; destruct H as [H G].

Ltac skip_last_keeping g pi H G :=
  skip_rest g pi H; destruct H as [H G].

(** Rewriting the projection of a later state into that of an earlier one. *)
Ltac chain_back :=
  repeat match goal with
         | E : flat_map ?pi (asm_trace ?a) = _ |- context [flat_map ?pi (asm_trace ?a)] =>
             rewrite E; clear E
         end.

Lemma Step_5_4_to_5_6_run env kPointerSize is_static is_synchronized
      is_fast_native main_jni_conv end_jni_conv mr_conv s s' :
  Step_5_4_to_5_6 env kPointerSize is_static is_synchronized is_fast_native
                  false main_jni_conv end_jni_conv mr_conv s = (s', Ok tt) ->
  end_calls s'
  = end_calls s
      ++ (if negb is_fast_native || jni_IsReturnAReference main_jni_conv
          then
            [if is_fast_native then pJniDecodeReferenceResult
             else if jni_IsReturnAReference main_jni_conv
                  then (if is_synchronized
                        then pJniMethodEndWithReferenceSynchronized
                        else pJniMethodEndWithReference)
                  else (if is_synchronized
                        then pJniMethodEndSynchronized
                        else pJniMethodEnd)]
          else []).
Proof.
  unfold Step_5_4_to_5_6, when. cbn [negb]. intros H.
  skip_next no_state end_call_of H.
  peel H x t X. destruct x. apply Step_5_5_run in X.
  skip_last no_state end_call_of H.
  unfold end_calls in *. chain_back. reflexivity.
Qed.

(** C1. In the stub of a method that is not critical native, the
    end-of-method runtime call is: for a fast native method, a call of
    [pJniDecodeReferenceResult] when the return type is a reference and no
    call otherwise; for a normal native method, one call, of [pJniMethodEnd],
    [pJniMethodEndWithReference], [pJniMethodEndSynchronized] or
    [pJniMethodEndWithReferenceSynchronized] according to whether the method
    is synchronized and returns a reference. *)
Theorem end_of_method_call_selection
        env kPointerSize options access_flags method_idx dex_file s r :
  critical_native_of env access_flags = false ->
  ArtJniCompileMethodInternal env kPointerSize options access_flags method_idx
                              dex_file initial_state = (s, Ok r) ->
  let reference_return :=
    reference_return_of env options access_flags method_idx dex_file in
  let is_synchronized := synchronized_of env access_flags in
  end_calls s
  = if fast_native_of env access_flags
    then (if reference_return then [pJniDecodeReferenceResult] else [])
    else [match is_synchronized, reference_return with
          | false, false => pJniMethodEnd
          | false, true => pJniMethodEndWithReference
          | true, false => pJniMethodEndSynchronized
          | true, true => pJniMethodEndWithReferenceSynchronized
          end].
Proof.
  intros Hc H reference_return is_synchronized.
  apply compile_Ok in H. rewrite Hc in H. unfold EmitStub in H.
  do 16 skip_next no_state end_call_of H.
  peel H x t X. destruct x. apply Step_5_4_to_5_6_run in X.
  skip_last no_state end_call_of H.
  unfold end_calls in *. chain_back.
  subst reference_return is_synchronized. unfold reference_return_of.
  destruct (fast_native_of env access_flags),
    (jni_IsReturnAReference _), (synchronized_of env access_flags);
    reflexivity.
Qed.

Lemma end_of_method_call_selection_witness :
  end_calls (fst (Sample.compile true false 288 "IL"))
  = [pJniMethodEndSynchronized].
Proof.
  apply (end_of_method_call_selection
           (Sample.environment true false) k64 Sample.options 288 0
           (Sample.dex "IL") _ (Build_JniCompiledMethod kArm64
              (map (fun _ => 0) (asm_trace (fst (Sample.compile true false 288 "IL"))))
              96 3 0 [])).
  - reflexivity.
  - vm_compute. reflexivity.
Defined.

Lemma filter_keep f l : filter f l = flat_map (keep f) l.
Proof.
  induction l as [| x l IH]; simpl; [reflexivity |].
  unfold keep at 1. destruct (f x); simpl; congruence.
Qed.

Lemma select_extension {X} (pi : AsmOp -> list X) s s' E Y :
  trace s' = trace s ++ E ->
  flat_map pi (flat_map asm_of E) = Y ->
  flat_map pi (asm_trace s') = flat_map pi (asm_trace s) ++ Y.
Proof.
  intros HE HY. rewrite (asm_trace_app _ _ _ HE), flat_map_app, HY. reflexivity.
Qed.

(** After [run_in]: the trace grew by explicit events whose projection is
    the expected one. *)
Ltac explicit_extension :=
  eapply select_extension; [trace_extension | reflexivity].

(** ** The native call and the epilogue (C6) *)

Lemma Step_4_3_run env instruction_set is_critical_native main_jni_conv s s' :
  Step_4_3 env instruction_set is_critical_native main_jni_conv s = (s', Ok tt) ->
  let entry :=
    OfMember (EntryPointFromJniOffset (InstructionSetPointerSize env instruction_set)) in
  flat_map (keep is_native_entry_or_RemoveFrame) (asm_trace s')
  = flat_map (keep is_native_entry_or_RemoveFrame) (asm_trace s)
      ++ [if is_critical_native
          then (if jni_UseTailCall main_jni_conv
                then Jump (jni_HiddenArgumentRegister main_jni_conv) entry
                else Call (jni_HiddenArgumentRegister main_jni_conv) entry)
          else Call (method_register s) entry].
Proof.
  intros H entry. subst entry. destruct s. run_in H; explicit_extension.
Qed.

Lemma Step_7_4_run env is_critical_native main_jni_conv s s' :
  Step_7_4 env is_critical_native main_jni_conv s = (s', Ok tt) ->
  flat_map (keep is_native_entry_or_RemoveFrame) (asm_trace s')
  = flat_map (keep is_native_entry_or_RemoveFrame) (asm_trace s)
      ++ (if negb is_critical_native || negb (jni_UseTailCall main_jni_conv)
          then [RemoveFrame (current_frame_size s)
                            (jni_CalleeSaveRegisters main_jni_conv)
                            (negb is_critical_native)]
          else [])
  /\ current_frame_size s' = current_frame_size s.
Proof.
  intros H. destruct s. run_in H; (split; [explicit_extension | reflexivity]).
Qed.

(** C6. A critical native stub whose native convention uses a tail call
    reaches the native code by [Jump] on the hidden argument register and the
    JNI entrypoint offset, and has no [RemoveFrame]; every other stub reaches
    it by [Call] and then removes the frame with [RemoveFrame] of the current
    frame size and the callee saves, the stub being able to suspend unless the
    method is critical native. *)
Theorem native_entry_and_epilogue
        env kPointerSize options access_flags method_idx dex_file s r :
  ArtJniCompileMethodInternal env kPointerSize options access_flags method_idx
                              dex_file initial_state = (s, Ok r) ->
  let main := main_conv_of env options access_flags method_idx dex_file in
  let is_critical_native := critical_native_of env access_flags in
  let entry :=
    OfMember (EntryPointFromJniOffset
                (InstructionSetPointerSize env (GetInstructionSet options))) in
  if is_critical_native && jni_UseTailCall main
  then filter is_native_entry_or_RemoveFrame (asm_trace s)
       = [Jump (jni_HiddenArgumentRegister main) entry]
  else exists base,
      filter is_native_entry_or_RemoveFrame (asm_trace s)
      = [Call base entry;
         RemoveFrame (current_frame_size s) (jni_CalleeSaveRegisters main)
                     (negb is_critical_native)]
      /\ (is_critical_native = true -> base = jni_HiddenArgumentRegister main).
Proof.
  intros H main is_critical_native entry.
  apply compile_Ok in H. unfold EmitStub in H.
  fold main is_critical_native in H.
  do 11 skip_next no_state (keep is_native_entry_or_RemoveFrame) H.
  peel H x t X. destruct x. apply Step_4_3_run in X. cbv zeta in X.
  do 9 skip_next no_state (keep is_native_entry_or_RemoveFrame) H.
  peel H x' t' X'. destruct x'. apply Step_7_4_run in X'. destruct X' as [X' F].
  skip_last_keeping current_frame_size (keep is_native_entry_or_RemoveFrame) H K.
  rewrite !filter_keep. chain_back. rewrite K, F. subst entry. simpl.
  destruct is_critical_native, (jni_UseTailCall main); simpl; eauto.
  - eexists; split; [reflexivity | discriminate].
  - eexists; split; [reflexivity | discriminate].
Qed.

Lemma native_entry_and_epilogue_witness :
  filter is_native_entry_or_RemoveFrame
         (asm_trace (fst (Sample.compile true true 2097416 "II")))
  = [Jump 15 (OfMember (EntryPointFromJniOffset k64))].
Proof.
  apply (native_entry_and_epilogue
           (Sample.environment true true) k64 Sample.options 2097416 0
           (Sample.dex "II") _ (Build_JniCompiledMethod kArm64
              (map (fun _ => 0) (asm_trace (fst (Sample.compile true true 2097416 "II"))))
              96 3 0 [])).
  vm_compute. reflexivity.
Defined.

(** ** The conventions (C7) *)

(** C7. Every compile works with the end convention built from the shorty
    of the specification: the compile function is the check of the native
    bit and the validation of the attributes followed by the emitter run on
    the three conventions, of which the one of the [JniMethodEnd] call is
    created, with the attributes and the instruction set of the method, from
    ["IL"] when the method returns a reference and is synchronized, ["I"]
    when it returns a reference and is not synchronized, and ["V"] when it
    does not return a reference, be it synchronized or not. *)
Theorem end_convention_shorty
        env kPointerSize options access_flags method_idx dex_file s0 :
  let is_static := has_flag access_flags (kAccStatic env) in
  let is_synchronized := has_flag access_flags (kAccSynchronized env) in
  let is_fast_native := has_flag access_flags (kAccFastNative env) in
  let is_critical_native := has_flag access_flags (kAccCriticalNative env) in
  let shorty := GetMethodShorty dex_file method_idx in
  let instruction_set := GetInstructionSet options in
  let main_jni_conv :=
    JniCallingConvention_Create env is_static is_synchronized is_fast_native
                                is_critical_native shorty instruction_set in
  let mr_conv :=
    ManagedRuntimeCallingConvention_Create env is_static is_synchronized shorty
                                           instruction_set in
  let end_jni_conv :=
    JniCallingConvention_Create
      env is_static is_synchronized is_fast_native is_critical_native
      (end_shorty_of_spec (jni_IsReturnAReference main_jni_conv) is_synchronized)
      instruction_set in
  ArtJniCompileMethodInternal env kPointerSize options access_flags method_idx
                              dex_file s0
  = (CHECK 123 (has_flag access_flags (kAccNative env)) ;;
     validate_attributes env is_static is_synchronized is_fast_native
                         is_critical_native shorty ;;
     EmitStub env kPointerSize instruction_set is_static is_synchronized
              is_fast_native is_critical_native main_jni_conv end_jni_conv
              mr_conv options) s0.
Proof.
  intros is_static is_synchronized is_fast_native is_critical_native shorty
         instruction_set main_jni_conv mr_conv end_jni_conv.
  assert (E : jni_end_shorty (jni_IsReturnAReference main_jni_conv)
                             is_synchronized
              = end_shorty_of_spec (jni_IsReturnAReference main_jni_conv)
                                   is_synchronized).
  { unfold jni_end_shorty, end_shorty_of_spec.
    destruct (jni_IsReturnAReference main_jni_conv), is_synchronized;
      reflexivity. }
  unfold ArtJniCompileMethodInternal, BuildConventions. cbv zeta.
  fold is_static is_synchronized is_fast_native is_critical_native shorty
       instruction_set.
  fold main_jni_conv. rewrite E. reflexivity.
Qed.

(** ** The native check (C10) *)

(** C10. When the access flags lack the native bit the compile function
    stops at the check of line 123, whatever the build mode, and nothing has
    been emitted or changed at that point. *)
Theorem not_native_is_fatal
        env kPointerSize options access_flags method_idx dex_file s0 :
  Z.land access_flags (kAccNative env) = 0 ->
  ArtJniCompileMethodInternal env kPointerSize options access_flags method_idx
                              dex_file s0 = (s0, Fatal (CheckFailed 123))
  /\ ArtQuickJniCompileMethod env options access_flags method_idx dex_file s0
     = (s0, Fatal (CheckFailed 123)).
Proof.
  intros H.
  assert (Hi : forall p, ArtJniCompileMethodInternal env p options access_flags
                           method_idx dex_file s0 = (s0, Fatal (CheckFailed 123))).
  { intros p. unfold ArtJniCompileMethodInternal, has_flag.
    rewrite H. reflexivity. }
  split; [apply Hi |].
  unfold ArtQuickJniCompileMethod.
  destruct (Is64BitInstructionSet env (GetInstructionSet options)); apply Hi.
Qed.

Lemma not_native_is_fatal_witness :
  (Sample.compile false false 8 "V" = (initial_state, Fatal (CheckFailed 123)))
  /\ (Sample.compile true false 8 "V" = (initial_state, Fatal (CheckFailed 123))).
Proof.
  split.
  - apply (not_native_is_fatal (Sample.environment false false) k64
                               Sample.options 8 0 (Sample.dex "V") initial_state).
    reflexivity.
  - apply (not_native_is_fatal (Sample.environment true false) k64
                               Sample.options 8 0 (Sample.dex "V") initial_state).
    reflexivity.
Defined.

(** ** The local reference frame (C5) *)

Lemma emits_only_extends {A T} (g : State -> T) (m : M A) s s' r :
  emits_only g any_event m ->
  m s = (s', r) ->
  exists E, asm_trace s' = asm_trace s ++ E.
Proof.
  intros Hm H. destruct (Hm _ _ _ H) as [_ [E [HE _]]].
  exists (flat_map asm_of E). apply asm_trace_app. exact HE.
Qed.

Lemma occurs_in_extends sub l E : occurs_in sub l -> occurs_in sub (l ++ E).
Proof.
  intros (b & a & ->). exists b, (a ++ E). rewrite <- !app_assoc. reflexivity.
Qed.

Lemma occurs_in_suffix sub l : occurs_in sub (l ++ sub).
Proof. exists l, []. rewrite app_nil_r. reflexivity. Qed.

Lemma occurs_in_member_access sub l :
  Forall (fun op => is_member_access op = false) l ->
  occurs_in sub l ->
  Forall (fun op => is_member_access op = false) sub.
Proof.
  intros HF (b & a & ->).
  apply Forall_app in HF. destruct HF as [_ HF].
  apply Forall_app in HF. tauto.
Qed.

Lemma Step_3_run env kPointerSize main_jni_conv s s' regs :
  Step_3 env kPointerSize false main_jni_conv s = (s', Ok regs) ->
  asm_trace s'
  = (asm_trace s ++ [LoadRawPtrFromThread (fst (fst regs)) (JniEnvOffset kPointerSize)])
      ++ PushLocalReferenceFrame_calls env kPointerSize (fst (fst regs))
                                       (snd (fst regs)) (snd regs).
Proof.
  intros H. destruct s. run_in H.
  unfold asm_trace, trace. cbn. rewrite !flat_map_app. cbn.
  rewrite <- !app_assoc. reflexivity.
Qed.

Lemma Step_6_run env kPointerSize s s' jni_env_reg saved_cookie_reg callee_save_temp :
  Step_6 env kPointerSize false jni_env_reg saved_cookie_reg callee_save_temp s
  = (s', Ok tt) ->
  asm_trace s'
  = asm_trace s ++ PopLocalReferenceFrame_calls env kPointerSize jni_env_reg
                                                saved_cookie_reg callee_save_temp.
Proof.
  intros H. destruct s. run_in H.
  unfold asm_trace, trace. cbn. rewrite !flat_map_app. cbn.
  rewrite <- !app_assoc. reflexivity.
Qed.

Lemma EmitStub_critical_native_member_access env kPointerSize instruction_set
      is_static is_synchronized is_fast_native main_jni_conv end_jni_conv
      mr_conv options :
  emits_only no_state (not_selected is_member_access)
             (EmitStub env kPointerSize instruction_set is_static is_synchronized
                       is_fast_native true main_jni_conv end_jni_conv mr_conv
                       options).
Proof. emits_walk solve_event. Qed.

(** [H : m s = (s', r)]: the calls made up to [s'] extend those made up to
    [s]. *)
Ltac extension_of H X :=
  pose proof H as X;
  apply (emits_only_extends no_state) in X;
  [ | solve [emits_walk ltac:(exact I)] ].

(** C5. In the stub of a compile that succeeds, the calls of
    [PushLocalReferenceFrame] occur if and only if the calls of
    [PopLocalReferenceFrame] occur, and neither occurs exactly when the
    method is critical native. *)
Theorem push_iff_pop_local_reference_frame
        env kPointerSize options access_flags method_idx dex_file s r :
  ArtJniCompileMethodInternal env kPointerSize options access_flags method_idx
                              dex_file initial_state = (s, Ok r) ->
  (push_emitted env kPointerSize s <-> pop_emitted env kPointerSize s)
  /\ (~ push_emitted env kPointerSize s /\ ~ pop_emitted env kPointerSize s
      <-> critical_native_of env access_flags = true).
Proof.
  intros H. apply compile_Ok in H.
  destruct (critical_native_of env access_flags) eqn:Hc.
  - (* critical native: no access to a member at all *)
    apply (emits_only_filter no_state is_member_access) in H;
      [| apply EmitStub_critical_native_member_access].
    destruct H as [H _]. change (asm_trace initial_state) with (@nil AsmOp) in H.
    assert (HF : Forall (fun op => is_member_access op = false) (asm_trace s)).
    { apply Forall_forall. intros op Hin.
      destruct (is_member_access op) eqn:Hop; [| reflexivity].
      assert (Hi : In op (filter is_member_access (asm_trace s)))
        by (apply filter_In; auto).
      rewrite H in Hi. destruct Hi. }
    assert (Np : ~ push_emitted env kPointerSize s).
    { intros (e & c & t & Ho).
      apply (occurs_in_member_access _ _ HF) in Ho. inversion Ho; discriminate. }
    assert (Nq : ~ pop_emitted env kPointerSize s).
    { intros (e & c & t & Ho).
      apply (occurs_in_member_access _ _ HF) in Ho. inversion Ho; discriminate. }
    tauto.
  - unfold EmitStub in H.
    do 8 (let a := fresh in let t := fresh in let X := fresh in peel H a t X; clear X).
    peel H regs s3 X3. apply Step_3_run in X3.
    extension_of H Y3. destruct Y3 as [E3 Y3].
    do 8 (let a := fresh in let t := fresh in let X := fresh in peel H a t X; clear X).
    peel H x s6 X6. destruct x. apply Step_6_run in X6.
    extension_of H Y6. destruct Y6 as [E6 Y6].
    assert (Pu : push_emitted env kPointerSize s).
    { exists (fst (fst regs)), (snd (fst regs)), (snd regs).
      rewrite Y3, X3. apply occurs_in_extends, occurs_in_suffix. }
    assert (Po : pop_emitted env kPointerSize s).
    { exists (fst (fst regs)), (snd (fst regs)), (snd regs).
      rewrite Y6, X6. apply occurs_in_extends, occurs_in_suffix. }
    split; [tauto |]. split; [tauto | discriminate].
Qed.

Lemma push_iff_pop_local_reference_frame_witness :
  (push_emitted (Sample.environment true false) k64
                (fst (Sample.compile true false 288 "IL"))
   <-> pop_emitted (Sample.environment true false) k64
                   (fst (Sample.compile true false 288 "IL")))
  /\ (~ push_emitted (Sample.environment true false) k64
                     (fst (Sample.compile true false 288 "IL"))
      /\ ~ pop_emitted (Sample.environment true false) k64
                       (fst (Sample.compile true false 288 "IL"))
      <-> critical_native_of (Sample.environment true false) 288 = true).
Proof.
  apply (push_iff_pop_local_reference_frame
           (Sample.environment true false) k64 Sample.options 288 0
           (Sample.dex "IL") _ (Build_JniCompiledMethod kArm64
              (map (fun _ => 0) (asm_trace (fst (Sample.compile true false 288 "IL"))))
              96 3 0 [])).
  vm_compute. reflexivity.
Defined.

(** ** The spill plan (C2) *)

(** One round of the loop of 2.2. *)
Lemma Step_2_2_body_run env kPointerSize main_jni_conv end_jni_conv mr_conv s s' :
  Step_2_2_body env kPointerSize main_jni_conv end_jni_conv mr_conv s
  = (s', Ok tt) ->
  let entry := Step_2_2_entry env kPointerSize main_jni_conv mr_conv
                              (mr_displacement s) (main_displacement s)
                              (mr_itr s) (main_itr s) in
  s' = set_arg_vectors (src_args s ++ [fst (fst entry)])
                       (dest_args s ++ [snd (fst entry)])
                       (refs s ++ [snd entry]) s.
Proof.
  intros H. destruct s. unfold Step_2_2_entry.
  run_in H; cbn in *;
    repeat match goal with
           | E : _ = _ |- _ => rewrite E
           end; reflexivity.
Qed.

(** Two states with the same components are the same. *)
Lemma State_eq s t :
  trace_rev s = trace_rev t ->
  next_label s = next_label t ->
  mr_itr s = mr_itr t ->
  mr_displacement s = mr_displacement t ->
  main_itr s = main_itr t ->
  main_displacement s = main_displacement t ->
  end_itr s = end_itr t ->
  end_displacement s = end_displacement t ->
  method_register s = method_register t ->
  current_frame_size s = current_frame_size t ->
  current_out_arg_size s = current_out_arg_size t ->
  return_save_location s = return_save_location t ->
  src_args s = src_args t ->
  dest_args s = dest_args t ->
  refs s = refs t ->
  s = t.
Proof. destruct s, t; cbn; intros; subst; reflexivity. Qed.

(** The loop of 2.2: one entry for each of the [n] parameters that remain;
    nothing is emitted. *)
Lemma Step_2_2_loop env kPointerSize main_jni_conv end_jni_conv mr_conv n :
  forall s s',
    for_each_remaining n (Step_2_2_body env kPointerSize main_jni_conv
                                        end_jni_conv mr_conv) s
    = (s', Ok tt) ->
    let entry k :=
      Step_2_2_entry env kPointerSize main_jni_conv mr_conv
                     (mr_displacement s) (main_displacement s)
                     (mr_itr s + k) (main_itr s + k) in
    s' = set_main_iterator
           (main_itr s + n) (main_displacement s)
           (set_mr_iterator
              (mr_itr s + n) (mr_displacement s)
              (set_arg_vectors
                 (src_args s ++ map (fun k => fst (fst (entry k))) (seq 0 n))
                 (dest_args s ++ map (fun k => snd (fst (entry k))) (seq 0 n))
                 (refs s ++ map (fun k => snd (entry k)) (seq 0 n))
                 s)).
Proof.
  induction n as [| n IH]; intros s s' H entry.
  - inversion H; subst.
    apply State_eq; cbn; rewrite ?Nat.add_0_r, ?app_nil_r; reflexivity.
  - destruct s. cbn [for_each_remaining] in H.
    peel H x1 t1 X1. destruct x1. apply Step_2_2_body_run in X1.
    cbn in X1. subst t1.
    peel H x2 t2 X2. cbv [mr_Next update] in X2. cbn in X2.
    inversion X2; subst t2 x2; clear X2.
    peel H x3 t3 X3. cbv [Next update] in X3. cbn in X3.
    inversion X3; subst t3 x3; clear X3.
    apply IH in H. subst s' entry.
    apply State_eq; cbn; try reflexivity;
      rewrite <- ?plus_n_Sm; try reflexivity;
      rewrite <- !seq_shift, !map_map, <- !app_assoc, !Nat.add_0_r; cbn;
      do 2 f_equal; apply map_ext; intros k; rewrite <- !plus_n_Sm; reflexivity.
Qed.

Lemma gets_Ok {A} (f : State -> A) s t a :
  gets f s = (t, Ok a) -> t = s /\ a = f s.
Proof. intros H. inversion H. auto. Qed.

Lemma update_Ok f s t a : update f s = (t, Ok a) -> t = f s /\ a = tt.
Proof. intros H. inversion H. auto. Qed.

Lemma emit_Ok op s t a :
  emit op s = (t, Ok a) -> t = record_event (Asm op) s /\ a = tt.
Proof. intros H. inversion H. auto. Qed.

(** Running the first action of [H], one that meets no test. *)
Ltac step_in H :=
  let a := fresh "a" in
  let t := fresh "t" in
  let X := fresh "X" in
  peel H a t X; unfold_emitter X;
  first [ apply gets_Ok in X | apply update_Ok in X | apply emit_Ok in X ];
  destruct X as [-> ->]; cbn in H.

Ltac steps_in H := cbn in H; repeat (step_in H).

(** Running the last action of [H]. *)
Ltac last_in H :=
  unfold_emitter H;
  first [ apply gets_Ok in H | apply update_Ok in H | apply emit_Ok in H ];
  destruct H as [-> _].

(** 2.2 for a normal native method: one [MoveArguments], whose vectors are
    the entry of [jclass] or [this] followed by one entry for each managed
    argument after it. *)
Lemma Step_2_2_run env kPointerSize is_static main_jni_conv end_jni_conv mr_conv
      s s' :
  Step_2_2 env kPointerSize is_static false false main_jni_conv end_jni_conv
           mr_conv s = (s', Ok tt) ->
  let first := if is_static then 0%nat else 1%nat in
  let entry k :=
    Step_2_2_entry env kPointerSize main_jni_conv mr_conv
                   (current_frame_size s) (jni_OutFrameSize main_jni_conv)
                   (first + k) (2 + k) in
  exists dests srcs refs,
    flat_map (keep is_MoveArguments) (asm_trace s')
    = flat_map (keep is_MoveArguments) (asm_trace s)
        ++ [MoveArguments dests srcs refs]
    /\ skipn 1 srcs
       = map (fun k => fst (fst (entry k))) (seq 0 (mr_NumArgs mr_conv - first))
    /\ skipn 1 dests
       = map (fun k => snd (fst (entry k))) (seq 0 (mr_NumArgs mr_conv - first))
    /\ skipn 1 refs
       = map (fun k => snd (entry k)) (seq 0 (mr_NumArgs mr_conv - first)).
Proof.
  intros H first entry. destruct s.
  unfold Step_2_2, when in H. cbn [negb andb] in H.
  steps_in H.
  peel H x5 t5 X5. run_in X5;
    (steps_in H;
     peel H x7 t7 X7; destruct x7; apply Step_2_2_loop in X7; cbn in X7; subst t7;
     unfold emit_MoveArguments in H; steps_in H; last_in H;
     do 3 eexists; split; [explicit_extension |];
     subst first entry; cbn;
     repeat split; reflexivity).
Qed.

(** 2.1: the frame grows by the out-args of the native call, unless they
    are part of the frame already. *)
Lemma Step_2_1_run env is_critical_native main_jni_conv s s' :
  Step_2_1 env is_critical_native main_jni_conv s = (s', Ok tt) ->
  trace s' = trace s
               ++ (if is_critical_native then []
                   else [Asm (IncreaseFrameSize (jni_OutFrameSize main_jni_conv))])
  /\ current_frame_size s'
     = (if is_critical_native then current_frame_size s
        else size_t_wrap (current_frame_size s + jni_OutFrameSize main_jni_conv))
  /\ current_out_arg_size s' = jni_OutFrameSize main_jni_conv.
Proof.
  intros H. destruct s. run_in H; (split; [trace_extension | split; reflexivity]).
Qed.

Lemma select_record_event {X} (pi : AsmOp -> list X) op t :
  flat_map pi (asm_trace (record_event (Asm op) t))
  = flat_map pi (asm_trace t) ++ pi op.
Proof.
  eapply select_extension; [apply trace_record_event | apply app_nil_r].
Qed.

(** 4.1 ends in the one [MoveArguments] it emits. *)
Lemma Step_4_1_run env kPointerSize is_static is_fast_native is_critical_native
      main_jni_conv end_jni_conv mr_conv callee_save_temp s s' :
  Step_4_1 env kPointerSize is_static is_fast_native is_critical_native
           main_jni_conv end_jni_conv mr_conv callee_save_temp s = (s', Ok tt) ->
  exists dests srcs refs,
    flat_map (keep is_MoveArguments) (asm_trace s')
    = flat_map (keep is_MoveArguments) (asm_trace s)
        ++ [MoveArguments dests srcs refs].
Proof.
  intros H. unfold Step_4_1 in H.
  do 9 skip_next no_state (keep is_MoveArguments) H.
  unfold emit_MoveArguments in H. steps_in H. last_in H.
  do 3 eexists. rewrite select_record_event. chain_back. reflexivity.
Qed.

Lemma nth_after_first {X} (f : nat -> X) l n k d :
  skipn 1 l = map f (seq 0 n) -> (k < n)%nat -> nth (S k) l d = f k.
Proof.
  intros Hl Hk. destruct l as [| x l]; simpl in Hl.
  - destruct n; [inversion Hk | discriminate Hl].
  - subst l. change (nth (S k) (x :: ?l) d) with (nth k l d).
    rewrite (nth_indep _ d (f 0%nat)) by (rewrite length_map, length_seq; exact Hk).
    rewrite map_nth, seq_nth by exact Hk. reflexivity.
Qed.

(** C2. A normal native stub has two [MoveArguments]; the first is the spill
    plan of step 2.2.  After the entry of [jclass] or [this], the plan has
    one entry for each managed argument: a reference whose native parameter
    is not in a register is given a destination of pointer size and its
    managed stack slot as reference offset; any other argument is copied with
    the same source and destination size, 8 for a long or double that is not
    a reference and 4 otherwise, and the invalid reference offset.  A fast or
    critical native stub has the one [MoveArguments] of the native call. *)
Theorem spill_plan env kPointerSize options access_flags method_idx dex_file s r :
  ArtJniCompileMethodInternal env kPointerSize options access_flags method_idx
                              dex_file initial_state = (s, Ok r) ->
  let main := main_conv_of env options access_flags method_idx dex_file in
  let mr := mr_conv_of env options access_flags method_idx dex_file in
  let first := if static_of env access_flags then 0%nat else 1%nat in
  let displacement := size_t_wrap (jni_FrameSize main + jni_OutFrameSize main) in
  if negb (critical_native_of env access_flags)
     && negb (fast_native_of env access_flags)
  then
    exists dests srcs refs second,
      filter is_MoveArguments (asm_trace s)
      = [MoveArguments dests srcs refs; second]
      /\ forall k,
        (k < mr_NumArgs mr - first)%nat ->
        let i := (first + k)%nat in
        let j := (2 + k)%nat in
        let src := nth (S k) srcs (ArgOnStack 0 0) in
        let dest := nth (S k) dests (ArgOnStack 0 0) in
        let ref := nth (S k) refs 0 in
        if mr_IsParamAReference mr i && negb (jni_IsParamInRegister main j)
        then ArgSize dest = kRawPointerSize kPointerSize
             /\ ref = mr_ParamStackOffset mr displacement i
        else ArgSize src
             = (if negb (mr_IsParamAReference mr i) && mr_IsParamALongOrDouble mr i
                then 8 else 4)
             /\ ArgSize dest = ArgSize src
             /\ ref = kInvalidReferenceOffset env
  else
    exists only, filter is_MoveArguments (asm_trace s) = [only].
Proof.
  intros H main mr first displacement.
  apply compile_Ok in H. unfold EmitStub in H. fold main mr in H.
  rewrite !filter_keep.
  destruct (critical_native_of env access_flags) eqn:Hc;
    [| destruct (fast_native_of env access_flags) eqn:Hf]; cbn [negb andb].
  - do 9 skip_next no_state (keep is_MoveArguments) H.
    peel H x t X. destruct x. apply Step_4_1_run in X.
    destruct X as (d' & a' & f' & X).
    skip_last no_state (keep is_MoveArguments) H.
    exists (MoveArguments d' a' f'). chain_back. reflexivity.
  - do 9 skip_next no_state (keep is_MoveArguments) H.
    peel H x t X. destruct x. apply Step_4_1_run in X.
    destruct X as (d' & a' & f' & X).
    skip_last no_state (keep is_MoveArguments) H.
    exists (MoveArguments d' a' f'). chain_back. reflexivity.
  - do 2 skip_next no_state (keep is_MoveArguments) H.
    peel H x1 t1 X1. destruct x1. apply Step_1_1_run in X1.
    destruct X1 as (T1 & F1 & _).
    apply (select_extension (keep is_MoveArguments) _ _ _ []) in T1;
      [| reflexivity]. rewrite app_nil_r in T1.
    do 2 skip_next current_frame_size (keep is_MoveArguments) H.
    peel H x2 t2 X2. destruct x2. apply Step_2_1_run in X2.
    destruct X2 as (T2 & F2 & _).
    apply (select_extension (keep is_MoveArguments) _ _ _ []) in T2;
      [| reflexivity]. rewrite app_nil_r in T2.
    peel H x3 t3 X3. destruct x3. apply Step_2_2_run in X3. cbv zeta in X3.
    destruct X3 as (dests & srcs & refs & T3 & Hs & Hd & Hr).
    do 2 skip_next no_state (keep is_MoveArguments) H.
    peel H x4 t4 X4. destruct x4. apply Step_4_1_run in X4.
    destruct X4 as (d' & a' & f' & X4).
    skip_last no_state (keep is_MoveArguments) H.
    exists dests, srcs, refs, (MoveArguments d' a' f').
    split; [chain_back; reflexivity |].
    intros k Hk. cbv zeta.
    rewrite (nth_after_first _ _ _ _ _ Hs Hk), (nth_after_first _ _ _ _ _ Hd Hk),
      (nth_after_first _ _ _ _ _ Hr Hk).
    rewrite F2, G2, G1, F1. fold first displacement.
    unfold Step_2_2_entry. cbn [fst snd].
    destruct (mr_IsParamAReference mr (first + k)),
      (jni_IsParamInRegister main (2 + k)),
      (mr_IsParamALongOrDouble mr (first + k)),
      (mr_IsParamInRegister mr (first + k));
      cbn; auto.
Qed.

Lemma spill_plan_witness :
  exists dests srcs refs second,
    filter is_MoveArguments
           (asm_trace (fst (Sample.compile true false 256 "VIJFDLL")))
    = [MoveArguments dests srcs refs; second]
    /\ ArgSize (nth 6 dests (ArgOnStack 0 0)) = 8
    /\ nth 6 refs 0 = 160.
Proof.
  assert (W := spill_plan
                 (Sample.environment true false) k64 Sample.options 256 0
                 (Sample.dex "VIJFDLL")
                 (fst (Sample.compile true false 256 "VIJFDLL"))
                 (Build_JniCompiledMethod kArm64
                    (map (fun _ => 0)
                         (asm_trace (fst (Sample.compile true false 256 "VIJFDLL"))))
                    96 3 0 [])).
  assert (R : ArtJniCompileMethodInternal
                (Sample.environment true false) k64 Sample.options 256 0
                (Sample.dex "VIJFDLL") initial_state
              = (fst (Sample.compile true false 256 "VIJFDLL"),
                 Ok (Build_JniCompiledMethod kArm64
                    (map (fun _ => 0)
                         (asm_trace (fst (Sample.compile true false 256 "VIJFDLL"))))
                    96 3 0 []))) by (vm_compute; reflexivity).
  specialize (W R). cbv zeta in W.
  change (negb (critical_native_of (Sample.environment true false) 256)
          && negb (fast_native_of (Sample.environment true false) 256))
    with true in W.
  destruct W as (dests & srcs & refs & second & Hf & Hk).
  exists dests, srcs, refs, second. split; [exact Hf |].
  specialize (Hk 5%nat). vm_compute in Hk. apply Hk. reflexivity.
Defined.

(** ** The CFA offset (C8) *)

(** *** What the steps do to the frame *)

Lemma Step_5_4_run env is_fast_native end_jni_conv s s' :
  Step_5_4 env is_fast_native end_jni_conv s = (s', Ok tt) ->
  let grows := current_out_arg_size s <? jni_OutFrameSize end_jni_conv in
  let diff :=
    size_t_wrap (jni_OutFrameSize end_jni_conv - current_out_arg_size s) in
  trace s' = trace s ++ (if grows then [Asm (IncreaseFrameSize diff)] else [])
  /\ current_frame_size s'
     = (if grows then size_t_wrap (current_frame_size s + diff)
        else current_frame_size s)
  /\ current_out_arg_size s'
     = (if grows then jni_OutFrameSize end_jni_conv else current_out_arg_size s).
Proof.
  intros H. destruct s. run_in H; (split; [trace_extension | split; reflexivity]).
Qed.

Lemma Step_5_4_to_5_6_frame env kPointerSize is_static is_synchronized
      is_fast_native is_critical_native main_jni_conv end_jni_conv mr_conv s s' :
  Step_5_4_to_5_6 env kPointerSize is_static is_synchronized is_fast_native
                  is_critical_native main_jni_conv end_jni_conv mr_conv s
  = (s', Ok tt) ->
  let grows := negb is_critical_native
               && (current_out_arg_size s <? jni_OutFrameSize end_jni_conv) in
  let diff :=
    size_t_wrap (jni_OutFrameSize end_jni_conv - current_out_arg_size s) in
  flat_map (keep is_frame_call) (asm_trace s')
  = flat_map (keep is_frame_call) (asm_trace s)
      ++ (if grows then [IncreaseFrameSize diff] else [])
  /\ current_frame_size s'
     = (if grows then size_t_wrap (current_frame_size s + diff)
        else current_frame_size s)
  /\ current_out_arg_size s'
     = (if grows then jni_OutFrameSize end_jni_conv else current_out_arg_size s).
Proof.
  unfold Step_5_4_to_5_6, when. intros H. destruct is_critical_native; cbn [negb andb] in *.
  - inversion H; subst. rewrite app_nil_r. auto.
  - peel H x t X. destruct x. apply Step_5_4_run in X. cbv zeta in X.
    destruct X as (T & F & O).
    skip_next frame_state (keep is_frame_call) H.
    skip_last_keeping frame_state (keep is_frame_call) H K.
    unfold frame_state in *. inversion G; inversion K.
    chain_back. split; [| split; congruence].
    rewrite (asm_trace_app _ _ _ T), flat_map_app.
    destruct (current_out_arg_size s <? jni_OutFrameSize end_jni_conv); reflexivity.
Qed.

Lemma Step_7_1_run is_critical_native s s' :
  Step_7_1 is_critical_native s = (s', Ok tt) ->
  trace s' = trace s
               ++ (if is_critical_native then []
                   else [Asm (DecreaseFrameSize (current_out_arg_size s))])
  /\ current_frame_size s'
     = (if is_critical_native then current_frame_size s
        else size_t_wrap (current_frame_size s - current_out_arg_size s)).
Proof.
  intros H. destruct s. run_in H; (split; [trace_extension | reflexivity]).
Qed.

Lemma Step_7_4_trace env is_critical_native main_jni_conv s s' :
  Step_7_4 env is_critical_native main_jni_conv s = (s', Ok tt) ->
  trace s' = trace s
               ++ (if negb is_critical_native || negb (jni_UseTailCall main_jni_conv)
                   then [Asm (RemoveFrame (current_frame_size s)
                                          (jni_CalleeSaveRegisters main_jni_conv)
                                          (negb is_critical_native))]
                   else [])
  /\ current_frame_size s' = current_frame_size s.
Proof.
  intros H. destruct s. run_in H; (split; [trace_extension | reflexivity]).
Qed.

Lemma Step_8_2_frame kPointerSize is_fast_native main_jni_conv slow resume s s' :
  Step_8_2 kPointerSize is_fast_native main_jni_conv slow resume s = (s', Ok tt) ->
  flat_map (keep is_frame_call) (asm_trace s')
  = flat_map (keep is_frame_call) (asm_trace s)
      ++ (if is_fast_native && jni_IsReturnAReference main_jni_conv
             && negb (jni_OutFrameSize main_jni_conv =? 0)
          then [CfiAdjustCFAOffset (to_int (jni_OutFrameSize main_jni_conv));
                DecreaseFrameSize (jni_OutFrameSize main_jni_conv);
                IncreaseFrameSize (jni_OutFrameSize main_jni_conv);
                CfiAdjustCFAOffset
                  (to_int (size_t_wrap (- jni_OutFrameSize main_jni_conv)))]
          else [])
  /\ current_frame_size s' = current_frame_size s.
Proof.
  intros H. destruct s. run_in H; (split; [explicit_extension | reflexivity]).
Qed.

Lemma Step_8_3_frame env kPointerSize is_synchronized is_fast_native
      is_critical_native main_jni_conv monitor exception e c t s s' :
  Step_8_3 env kPointerSize is_synchronized is_fast_native is_critical_native
           main_jni_conv monitor exception e c t s = (s', Ok tt) ->
  flat_map (keep is_frame_call) (asm_trace s')
  = flat_map (keep is_frame_call) (asm_trace s)
      ++ (if is_critical_native then []
          else (if is_synchronized
                then rewind_calls (jni_OutFrameSize main_jni_conv) else [])
                 ++ (if is_fast_native && jni_IsReturnAReference main_jni_conv
                     then rewind_calls (jni_OutFrameSize main_jni_conv) else [])
                 ++ [DeliverPendingException])
  /\ current_frame_size s' = current_frame_size s.
Proof.
  intros H. destruct s. unfold rewind_calls.
  run_in H; (split; [explicit_extension | reflexivity]).
Qed.

(** *** The CFA offset is a function of the frame calls *)

Lemma cfa_step_not_frame_call op cfa :
  is_frame_call op = false -> cfa_step op cfa = cfa.
Proof. destruct op; simpl; intros H; try reflexivity; discriminate H. Qed.

Lemma cfa_after_select cfa es :
  fold_left (fun c e => event_cfa e c) es cfa
  = cfa_after cfa (flat_map (keep is_frame_call) (flat_map asm_of es)).
Proof.
  revert cfa. induction es as [| e es IH]; intros cfa; [reflexivity |].
  cbn [fold_left flat_map]. rewrite IH. destruct e as [op | r | r]; cbn.
  - unfold keep. destruct (is_frame_call op) eqn:Hop; cbn.
    + reflexivity.
    + rewrite cfa_step_not_frame_call by exact Hop. reflexivity.
  - reflexivity.
  - reflexivity.
Qed.

Lemma cfa_of_select es :
  cfa_of es = cfa_after 0 (flat_map (keep is_frame_call) (flat_map asm_of es)).
Proof. apply cfa_after_select. Qed.

(** The checks along a sequence reach each of its calls. *)
Lemma cfa_checks_at final cfa before op after :
  cfa_checks final cfa (before ++ op :: after) ->
  cfa_check final (cfa_after cfa before) op.
Proof.
  revert cfa. induction before as [| x before IH]; intros cfa H.
  - destruct H as [H _]. exact H.
  - destruct H as [_ H]. apply IH in H. exact H.
Qed.

(** The checks on the frame calls of a trace hold before each frame call of
    the trace. *)
Lemma cfa_checks_site final s before op after :
  cfa_checks final 0 (flat_map (keep is_frame_call) (asm_trace s)) ->
  trace s = before ++ Asm op :: after ->
  is_frame_call op = true ->
  cfa_check final (cfa_of before) op.
Proof.
  intros Hc Ht Hop. unfold asm_trace in Hc. rewrite Ht in Hc.
  rewrite !flat_map_app in Hc. cbn [flat_map asm_of app] in Hc.
  unfold keep at 2 in Hc. rewrite Hop in Hc. cbn [app] in Hc.
  apply cfa_checks_at in Hc. rewrite cfa_of_select. exact Hc.
Qed.

Lemma cfa_of_snoc es e : cfa_of (es ++ [e]) = event_cfa e (cfa_of es).
Proof. unfold cfa_of. rewrite fold_left_app. reflexivity. Qed.

(** *** The frame calls of a stub *)

Ltac frame_facts :=
  repeat match goal with
         | G : frame_state _ = frame_state _ |- _ =>
             unfold frame_state in G; injection G as ? ?
         end.

Ltac rewrite_frame_sizes :=
  repeat match goal with
         | E : current_frame_size ?t = _ |- _ => rewrite E in *; clear E
         | E : current_out_arg_size ?t = _ |- _ => rewrite E in *; clear E
         end.

Lemma EmitStub_frame_calls env kPointerSize instruction_set is_static
      is_synchronized is_fast_native is_critical_native main_jni_conv
      end_jni_conv mr_conv options s r :
  EmitStub env kPointerSize instruction_set is_static is_synchronized
           is_fast_native is_critical_native main_jni_conv end_jni_conv mr_conv
           options initial_state = (s, Ok r) ->
  flat_map (keep is_frame_call) (asm_trace s)
  = frame_calls is_critical_native main_jni_conv end_jni_conv is_synchronized
                is_fast_native
                (if is_critical_native then NoRegister
                 else mr_MethodRegister mr_conv)
  /\ current_frame_size s
     = final_frame_size is_critical_native main_jni_conv end_jni_conv.
Proof.
  intros H. unfold EmitStub in H.
  do 2 skip_next frame_state (keep is_frame_call) H.
  peel H x1 t1 X1. destruct x1. apply Step_1_1_run in X1. cbv zeta in X1.
  destruct X1 as (T1 & F1 & O1).
  eapply (select_extension (keep is_frame_call)) in T1; [| reflexivity].
  do 2 skip_next frame_state (keep is_frame_call) H.
  peel H x2 t2 X2. destruct x2. apply Step_2_1_run in X2.
  destruct X2 as (T2 & F2 & O2).
  eapply (select_extension (keep is_frame_call)) in T2; [| reflexivity].
  do 10 skip_next frame_state (keep is_frame_call) H.
  peel H x5 t5 X5. destruct x5. apply Step_5_4_to_5_6_frame in X5. cbv zeta in X5.
  destruct X5 as (T5 & F5 & O5).
  skip_next frame_state (keep is_frame_call) H.
  peel H x7 t7 X7. destruct x7. apply Step_7_1_run in X7.
  destruct X7 as (T7 & F7).
  eapply (select_extension (keep is_frame_call)) in T7; [| reflexivity].
  do 2 skip_next frame_state (keep is_frame_call) H.
  peel H x74 t74 X74. destruct x74. apply Step_7_4_trace in X74.
  destruct X74 as (T74 & F74).
  eapply (select_extension (keep is_frame_call)) in T74; [| reflexivity].
  skip_next frame_state (keep is_frame_call) H.
  peel H x82 t82 X82. destruct x82. apply Step_8_2_frame in X82.
  destruct X82 as (T82 & F82).
  peel H x83 t83 X83. destruct x83. apply Step_8_3_frame in X83.
  destruct X83 as (T83 & F83).
  skip_last_keeping frame_state (keep is_frame_call) H K.
  frame_facts. chain_back. rewrite_frame_sizes.
  change (asm_trace initial_state) with (@nil AsmOp).
  unfold frame_calls, final_frame_size, frame_size_5, out_arg_size_5,
    out_arg_size_diff, end_needs_more, frame_size_2, frame_size_1.
  cbn [flat_map app].
  destruct is_critical_native; cbn [negb andb orb];
    [ destruct (jni_UseTailCall main_jni_conv)
    | destruct (jni_OutFrameSize main_jni_conv <? jni_OutFrameSize end_jni_conv) ];
    cbn [negb andb orb flat_map app asm_of keep is_frame_call];
    rewrite <- ?app_assoc; cbn [app]; split; reflexivity.
Qed.

(** *** Machine arithmetic *)

Lemma to_int_spec x :
  exists q, to_int x = x - 4294967296 * q
            /\ -2147483648 <= to_int x < 2147483648.
Proof.
  unfold to_int. change (2 ^ 31) with 2147483648. change (2 ^ 32) with 4294967296.
  exists ((x + 2147483648) / 4294967296).
  pose proof (Z.mod_pos_bound (x + 2147483648) 4294967296 eq_refl).
  pose proof (Z.div_mod (x + 2147483648) 4294967296 ltac:(lia)).
  lia.
Qed.

Lemma size_t_wrap_spec x :
  exists q, size_t_wrap x = x - 18446744073709551616 * q
            /\ 0 <= size_t_wrap x < 18446744073709551616.
Proof.
  unfold size_t_wrap. change (2 ^ 64) with 18446744073709551616.
  exists (x / 18446744073709551616).
  pose proof (Z.mod_pos_bound x 18446744073709551616 eq_refl).
  pose proof (Z.div_mod x 18446744073709551616 ltac:(lia)).
  lia.
Qed.

Ltac name_to_int e :=
  let q := fresh "q" in
  let v := fresh "v" in
  let H1 := fresh in
  let H2 := fresh in
  destruct (to_int_spec e) as (q & H1 & H2);
  set (v := to_int e) in *; clearbody v.

Ltac name_size_t_wrap e :=
  let q := fresh "q" in
  let v := fresh "v" in
  let H1 := fresh in
  let H2 := fresh in
  destruct (size_t_wrap_spec e) as (q & H1 & H2);
  set (v := size_t_wrap e) in *; clearbody v.

(** Every conversion to [int] and every wrap of a [size_t] is named, with
    its value up to a multiple of the modulus and its range. *)
Ltac machine_values :=
  repeat match goal with
         | |- context [to_int ?e] => name_to_int e
         | _ : context [to_int ?e] |- _ => name_to_int e
         | |- context [size_t_wrap ?e] => name_size_t_wrap e
         | _ : context [size_t_wrap ?e] |- _ => name_size_t_wrap e
         end.

Ltac machine_arithmetic := machine_values; lia.

(** *** The checks hold on the frame calls of every stub *)

Lemma frame_calls_checks is_critical_native main_jni_conv end_jni_conv
      is_synchronized is_fast_native method_reg :
  cfa_checks (final_frame_size is_critical_native main_jni_conv end_jni_conv) 0
             (frame_calls is_critical_native main_jni_conv end_jni_conv
                          is_synchronized is_fast_native method_reg).
Proof.
  unfold frame_calls, rewind_calls, final_frame_size, frame_size_5,
    out_arg_size_5, out_arg_size_diff, end_needs_more, frame_size_2, frame_size_1.
  destruct is_critical_native, is_synchronized, is_fast_native,
    (jni_IsReturnAReference main_jni_conv), (jni_UseTailCall main_jni_conv),
    (jni_OutFrameSize main_jni_conv <? jni_OutFrameSize end_jni_conv),
    (jni_OutFrameSize main_jni_conv =? 0);
    cbn [negb andb orb app cfa_checks cfa_check cfa_step];
    repeat split; machine_arithmetic.
Qed.

Lemma In_frame_calls s before op after :
  trace s = before ++ Asm op :: after ->
  is_frame_call op = true ->
  In op (flat_map (keep is_frame_call) (asm_trace s)).
Proof.
  intros Ht Hop. unfold asm_trace. rewrite Ht, !flat_map_app.
  apply in_or_app. right. apply in_or_app. left.
  cbn. unfold keep. rewrite Hop. left. reflexivity.
Qed.

Ltac in_explicit_list H :=
  cbn [In] in H;
  repeat match type of H with
         | _ \/ _ => destruct H as [H | H]
         end;
  try discriminate H; try contradiction.

Lemma frame_calls_BuildFrame is_critical_native main_jni_conv end_jni_conv
      is_synchronized is_fast_native method_reg frame_size m callee_saves :
  In (BuildFrame frame_size m callee_saves)
     (frame_calls is_critical_native main_jni_conv end_jni_conv is_synchronized
                  is_fast_native method_reg) ->
  frame_size = frame_size_1 is_critical_native main_jni_conv.
Proof.
  unfold frame_calls, rewind_calls.
  destruct is_critical_native, is_synchronized, is_fast_native,
    (jni_IsReturnAReference main_jni_conv), (jni_UseTailCall main_jni_conv),
    (end_needs_more _ main_jni_conv end_jni_conv),
    (jni_OutFrameSize main_jni_conv =? 0);
    cbn [negb andb orb app]; intros H; in_explicit_list H;
    inversion H; reflexivity.
Qed.

Lemma frame_calls_RemoveFrame is_critical_native main_jni_conv end_jni_conv
      is_synchronized is_fast_native method_reg frame_size callee_saves may_suspend :
  In (RemoveFrame frame_size callee_saves may_suspend)
     (frame_calls is_critical_native main_jni_conv end_jni_conv is_synchronized
                  is_fast_native method_reg) ->
  frame_size = final_frame_size is_critical_native main_jni_conv end_jni_conv.
Proof.
  unfold frame_calls, rewind_calls.
  destruct is_critical_native, is_synchronized, is_fast_native,
    (jni_IsReturnAReference main_jni_conv), (jni_UseTailCall main_jni_conv),
    (end_needs_more _ main_jni_conv end_jni_conv),
    (jni_OutFrameSize main_jni_conv =? 0);
    cbn [negb andb orb app]; intros H; in_explicit_list H;
    inversion H; reflexivity.
Qed.

(** Without overflow the frame is, in the end, what [BuildFrame] made it. *)
Lemma final_frame_size_in_range is_critical_native main_jni_conv end_jni_conv :
  0 <= jni_FrameSize main_jni_conv ->
  0 <= jni_OutFrameSize main_jni_conv ->
  0 <= jni_OutFrameSize end_jni_conv ->
  jni_FrameSize main_jni_conv + jni_OutFrameSize main_jni_conv
  + jni_OutFrameSize end_jni_conv < 2 ^ 31 ->
  final_frame_size is_critical_native main_jni_conv end_jni_conv
  = frame_size_1 is_critical_native main_jni_conv
  /\ to_int (frame_size_1 is_critical_native main_jni_conv)
     = frame_size_1 is_critical_native main_jni_conv.
Proof.
  change (2 ^ 31) with 2147483648. intros H1 H2 H3 H4.
  unfold final_frame_size, frame_size_5, out_arg_size_5, out_arg_size_diff,
    end_needs_more, frame_size_2, frame_size_1.
  destruct is_critical_native; cbn [negb andb];
    [| destruct (Z.ltb_spec (jni_OutFrameSize main_jni_conv)
                            (jni_OutFrameSize end_jni_conv))];
    split; machine_arithmetic.
Qed.

(** The checks of lines 234, 703 and 789, as the code states them: each
    compares the CFA offset with [static_cast<int>(current_frame_size)]. *)
Lemma cfa_checks_of_compile
      env kPointerSize options access_flags method_idx dex_file s r :
  ArtJniCompileMethodInternal env kPointerSize options access_flags method_idx
                              dex_file initial_state = (s, Ok r) ->
  cfa_checks (current_frame_size s) 0
             (flat_map (keep is_frame_call) (asm_trace s)).
Proof.
  intros H. apply compile_Ok, EmitStub_frame_calls in H.
  destruct H as [-> ->]. apply frame_calls_checks.
Qed.

(** C8. In a compile that succeeds, with frame sizes that fit an [int]: the
    CFA offset right after [BuildFrame] is the frame size it was given, the
    first value of [current_frame_size]; the CFA offset where [RemoveFrame]
    is emitted is the frame size it is given, and the CFA offset where
    [DeliverPendingException] is emitted is that same size, the last value of
    [current_frame_size], whatever [IncreaseFrameSize], [DecreaseFrameSize]
    and CFI adjustments came in between. *)
Theorem cfa_offset_equals_frame_size
        env kPointerSize options access_flags method_idx dex_file s r :
  let main := main_conv_of env options access_flags method_idx dex_file in
  let end_conv := end_conv_of env options access_flags method_idx dex_file in
  0 <= jni_FrameSize main ->
  0 <= jni_OutFrameSize main ->
  0 <= jni_OutFrameSize end_conv ->
  jni_FrameSize main + jni_OutFrameSize main + jni_OutFrameSize end_conv < 2 ^ 31 ->
  ArtJniCompileMethodInternal env kPointerSize options access_flags method_idx
                              dex_file initial_state = (s, Ok r) ->
  (forall before frame_size method_reg callee_saves after,
      trace s = before ++ Asm (BuildFrame frame_size method_reg callee_saves) :: after ->
      cfa_of (before ++ [Asm (BuildFrame frame_size method_reg callee_saves)])
      = frame_size
      /\ frame_size = (if critical_native_of env access_flags
                       then jni_OutFrameSize main else jni_FrameSize main))
  /\ (forall before frame_size callee_saves may_suspend after,
         trace s = before ++ Asm (RemoveFrame frame_size callee_saves may_suspend)
                          :: after ->
         cfa_of before = frame_size /\ frame_size = current_frame_size s)
  /\ (forall before after,
         trace s = before ++ Asm DeliverPendingException :: after ->
         cfa_of before = current_frame_size s).
Proof.
  intros main end_conv H1 H2 H3 H4 H.
  pose proof (cfa_checks_of_compile _ _ _ _ _ _ _ _ H) as Hc.
  apply compile_Ok, EmitStub_frame_calls in H. fold main end_conv in H.
  destruct H as [HF HS].
  destruct (final_frame_size_in_range (critical_native_of env access_flags)
                                      main end_conv H1 H2 H3 H4) as [R1 R2].
  assert (R3 : to_int (current_frame_size s) = current_frame_size s)
    by (rewrite HS, R1; exact R2).
  split; [| split].
  - intros before frame_size method_reg callee_saves after Ht.
    pose proof (In_frame_calls _ _ _ _ Ht eq_refl) as Hin.
    rewrite HF in Hin. apply frame_calls_BuildFrame in Hin.
    rewrite cfa_of_snoc. cbn [event_cfa cfa_step]. subst frame_size.
    split; [exact R2 | reflexivity].
  - intros before frame_size callee_saves may_suspend after Ht.
    pose proof (In_frame_calls _ _ _ _ Ht eq_refl) as Hin.
    rewrite HF in Hin. apply frame_calls_RemoveFrame in Hin.
    apply (cfa_checks_site _ _ _ _ _ Hc) in Ht; [| reflexivity].
    cbn [cfa_check] in Ht. rewrite Ht. subst frame_size.
    rewrite <- HS. split; [exact R3 | reflexivity].
  - intros before after Ht.
    apply (cfa_checks_site _ _ _ _ _ Hc) in Ht; [| reflexivity].
    cbn [cfa_check] in Ht. rewrite Ht. exact R3.
Qed.

Lemma cfa_offset_equals_frame_size_witness :
  cfa_of (firstn 31 (trace (fst (Sample.compile true false 524552 "LIIII")))) = 96
  /\ cfa_of (firstn 53 (trace (fst (Sample.compile true false 524552 "LIIII"))))
     = 96.
Proof.
  destruct (cfa_offset_equals_frame_size
              (Sample.environment true false) k64 Sample.options 524552 0
              (Sample.dex "LIIII")
              (fst (Sample.compile true false 524552 "LIIII"))
              (Build_JniCompiledMethod kArm64
                 (map (fun _ => 0)
                      (asm_trace (fst (Sample.compile true false 524552 "LIIII"))))
                 96 3 0 []))
    as (_ & R & D).
  - vm_compute. discriminate.
  - vm_compute. discriminate.
  - vm_compute. discriminate.
  - vm_compute. reflexivity.
  - vm_compute. reflexivity.
  - split.
    + apply (R (firstn 31 (trace (fst (Sample.compile true false 524552 "LIIII"))))
               96 [30; 31] true
               (skipn 32 (trace (fst (Sample.compile true false 524552 "LIIII"))))).
      vm_compute. reflexivity.
    + rewrite (D (firstn 53 (trace (fst (Sample.compile true false 524552 "LIIII"))))
                 (skipn 54 (trace (fst (Sample.compile true false 524552 "LIIII"))))).
      * vm_compute. reflexivity.
      * vm_compute. reflexivity.
Defined.

(** ** The method register (C9) *)

(** *** Walks *)

Lemma walk_app w E1 E2 : walk w (E1 ++ E2) = walk (walk w E1) E2.
Proof. apply fold_left_app. Qed.

Lemma walk_ok_app w E1 E2 :
  walk_ok w (E1 ++ E2) <-> walk_ok w E1 /\ walk_ok (walk w E1) E2.
Proof.
  revert w. induction E1 as [| e E1 IH]; intros w; cbn [app walk_ok].
  - unfold walk. cbn. tauto.
  - rewrite IH. unfold walk. cbn [fold_left]. tauto.
Qed.

Lemma mr_segment_nil cur : mr_segment cur [] cur.
Proof. split; [exact I | reflexivity]. Qed.

Lemma mr_segment_app cur E1 cur1 E2 cur2 :
  mr_segment cur E1 cur1 -> mr_segment cur1 E2 cur2 ->
  mr_segment cur (E1 ++ E2) cur2.
Proof.
  intros [O1 W1] [O2 W2]. split.
  - apply walk_ok_app. rewrite W1. auto.
  - rewrite walk_app, W1. exact W2.
Qed.

Lemma mr_segment_harmless cur E : Forall harmless E -> mr_segment cur E cur.
Proof.
  induction 1 as [| e E He _ IH]; [apply mr_segment_nil |].
  destruct e as [op | r | r]; try contradiction.
  change (Asm op :: E) with ([Asm op] ++ E).
  apply (mr_segment_app _ _ cur); [| exact IH].
  split; cbn; [auto | rewrite He; reflexivity].
Qed.

Lemma mr_run_refl s : mr_run s s.
Proof. exists []. rewrite app_nil_r. split; [reflexivity | apply mr_segment_nil]. Qed.

Lemma mr_run_trans s1 s2 s3 : mr_run s1 s2 -> mr_run s2 s3 -> mr_run s1 s3.
Proof.
  intros (E1 & T1 & S1) (E2 & T2 & S2). exists (E1 ++ E2). split.
  - rewrite T2, T1, app_assoc. reflexivity.
  - eapply mr_segment_app; eassumption.
Qed.

(** A program that emits harmless calls only and leaves [method_register]
    alone keeps the discipline. *)
Lemma emits_only_mr_run {A} (m : M A) s s' r :
  emits_only method_register harmless m ->
  m s = (s', r) ->
  mr_run s s' /\ method_register s' = method_register s.
Proof.
  intros Hm H. destruct (Hm _ _ _ H) as [Hg [E [HE HF]]].
  split; [| exact Hg]. exists E. split; [exact HE |].
  rewrite Hg. apply mr_segment_harmless. exact HF.
Qed.

(** *** From a walk to the places of a trace *)

Lemma fst_walk_last_write w es :
  fst (walk w es)
  = fold_left (fun cur e => match e with MethodRegisterWrite r => r | _ => cur end)
              es (fst w).
Proof.
  revert w. induction es as [| e es IH]; intros w; [reflexivity |].
  unfold walk in *. cbn [fold_left]. rewrite IH. destruct e; reflexivity.
Qed.

Lemma walk_last_write es : fst (walk (NoRegister, false) es) = last_write es.
Proof. apply fst_walk_last_write. Qed.

Lemma walk_pending w es :
  snd (walk w es) = true ->
  (es = [] /\ snd w = true)
  \/ exists before op, es = before ++ [Asm op]
                       /\ clobbers_method_register op = true.
Proof.
  induction es as [| e before _] using rev_ind; intros H.
  - left. split; [reflexivity | exact H].
  - right. rewrite walk_app in H. cbn in H.
    destruct e as [op | r | r]; cbn in H; try discriminate H.
    exists before, op. split; [reflexivity | exact H].
Qed.

Lemma walk_ok_at w before e after :
  walk_ok w (before ++ e :: after) ->
  event_ok (walk w before) e /\ walk_ok (walk_event (walk w before) e) after.
Proof. intros H. apply walk_ok_app in H. destruct H as [_ H]. exact H. Qed.

(** *** The steps that touch [method_register] *)

(** After [run_in]: the trace grew by explicit events that keep the
    discipline; [tac] proves that the registers involved are registers. *)
Ltac explicit_mr_run tac :=
  eexists; split;
  [ trace_extension
  | split; [ cbn; repeat split; intros; tac | reflexivity ] ].

Ltac skip_mr H R G :=
  let a := fresh "a" in
  let s1 := fresh "s" in
  peel H a s1 R;
  apply emits_only_mr_run in R;
  [ destruct R as [R G] | solve [emits_walk solve_event] ].

Lemma Step_1_1_mr env main_jni_conv mr_conv s s' :
  IsRegister (mr_MethodRegister mr_conv) = true ->
  Step_1_1 env false main_jni_conv mr_conv s = (s', Ok tt) ->
  mr_run s s' /\ method_register s' = mr_MethodRegister mr_conv.
Proof.
  intros W H. apply Step_1_1_run in H. cbv zeta in H.
  destruct H as (T & _ & M & _). split; [| exact M].
  exists [MethodRegisterWrite (mr_MethodRegister mr_conv);
          MethodRegisterRead (mr_MethodRegister mr_conv);
          Asm (BuildFrame (jni_FrameSize main_jni_conv)
                          (mr_MethodRegister mr_conv)
                          (jni_CalleeSaveRegisters main_jni_conv))].
  split; [exact T |]. rewrite M.
  split; [cbn; repeat split; auto | reflexivity].
Qed.

Lemma Step_2_3_mr env kPointerSize is_static is_synchronized is_fast_native
      main_jni_conv end_jni_conv mr_conv s s' label :
  IsRegister (method_register s) = true ->
  Step_2_3 env kPointerSize is_static is_synchronized is_fast_native false
           main_jni_conv end_jni_conv mr_conv s = (s', Ok label) ->
  mr_run s s'
  /\ method_register s' = (if is_fast_native then method_register s
                           else NoRegister).
Proof.
  intros W H. destruct s. cbn in W.
  unfold GetJniEntrypointThreadOffset in H.
  run_in H; (split; [explicit_mr_run ltac:(auto) | reflexivity]).
Qed.

Lemma Step_4_3_mr env instruction_set main_jni_conv s s' :
  IsRegister (method_register s) = true ->
  Step_4_3 env instruction_set false main_jni_conv s = (s', Ok tt) ->
  mr_run s s' /\ method_register s' = NoRegister.
Proof.
  intros W H. destruct s. cbn in W.
  run_in H; (split; [explicit_mr_run ltac:(auto) | reflexivity]).
Qed.

Lemma Step_8_1_mr env kPointerSize is_static main_jni_conv mr_conv slow back s s' :
  IsRegister (mr_MethodRegister mr_conv) = true ->
  Step_8_1 env kPointerSize is_static false main_jni_conv mr_conv slow back s
  = (s', Ok tt) ->
  mr_run s s'.
Proof.
  intros W H. destruct s.
  run_in H; explicit_mr_run ltac:(auto).
Qed.

Lemma Step_2_2_mr env kPointerSize is_static is_fast_native main_jni_conv
      end_jni_conv mr_conv s s' :
  IsRegister (method_register s) = true ->
  Step_2_2 env kPointerSize is_static is_fast_native false main_jni_conv
           end_jni_conv mr_conv s = (s', Ok tt) ->
  mr_run s s' /\ method_register s' = method_register s.
Proof.
  intros W H. destruct is_fast_native.
  - apply emits_only_mr_run in H; [exact H | solve [emits_walk solve_event]].
  - destruct s. cbn in W. unfold Step_2_2, when in H. cbn [negb andb] in H.
    steps_in H.
    peel H x5 t5 X5. run_in X5;
      (apply emits_only_mr_run in H; [| solve [emits_walk solve_event]];
       destruct H as [R G]; rewrite G; split; [| reflexivity];
       (eapply mr_run_trans; [| exact R]);
       explicit_mr_run ltac:(auto)).
Qed.

(** The registers of step 3 are registers. *)
Lemma Step_3_regs env kPointerSize main_jni_conv mr_conv s s' regs :
  well_formed_registers env main_jni_conv mr_conv ->
  Step_3 env kPointerSize false main_jni_conv s = (s', Ok regs) ->
  IsRegister (snd regs) = true.
Proof.
  intros (_ & _ & _ & Wc & Ws) H. destruct s. run_in H.
  apply Wc. rewrite Forall_forall in Ws. apply Ws. apply nth_In.
  apply Nat.leb_le in Heqb. lia.
Qed.

Lemma Step_4_1_mr env kPointerSize is_static (is_fast_native : bool)
      main_jni_conv end_jni_conv mr_conv callee_save_temp s s' :
  well_formed_registers env main_jni_conv mr_conv ->
  IsRegister callee_save_temp = true ->
  method_register s = (if is_fast_native then mr_MethodRegister mr_conv
                       else NoRegister) ->
  Step_4_1 env kPointerSize is_static is_fast_native false main_jni_conv
           end_jni_conv mr_conv callee_save_temp s = (s', Ok tt) ->
  mr_run s s' /\ IsRegister (method_register s') = true.
Proof.
  intros (Wm & Wp & Wo & Wc & _) Wt M H. destruct s. cbn in M. subst.
  unfold Step_4_1 in H. steps_in H.
  peel H x5 t5 X5.
  assert (Wn : IsRegister (CoreRegisterWithSize env callee_save_temp
                                                (kRawPointerSize kPointerSize))
               = true) by (apply Wc; exact Wt).
  run_in X5;
    (apply emits_only_mr_run in H; [| solve [emits_walk solve_event]];
     destruct H as [R G]; rewrite G;
     repeat match goal with
            | E : jni_IsParamOnStack _ _ = _ |- _ => rewrite Wo in E
            | E : negb ?b = _ |- _ => destruct b eqn:?; try discriminate E; clear E
            end;
     try congruence;
     (split;
      [ (eapply mr_run_trans; [| exact R]); explicit_mr_run ltac:(auto)
      | cbn; auto ])).
Qed.

(** *** The whole stub *)

(** [R : mr_run initial_state t] and [M : method_register t = _] for the
    state [t] at which [H] starts: step over a harmless action. *)
Ltac harmless_step H R M :=
  let R' := fresh "R" in
  let G := fresh "G" in
  skip_mr H R' G;
  apply (mr_run_trans _ _ _ R) in R'; clear R; rename R' into R;
  rewrite M in G; clear M; rename G into M.

(** The same with [M : IsRegister (method_register t) = true]. *)
Ltac harmless_step_live H R M :=
  let R' := fresh "R" in
  let G := fresh "G" in
  skip_mr H R' G;
  apply (mr_run_trans _ _ _ R) in R'; clear R; rename R' into R;
  rewrite <- G in M; clear G.

Lemma EmitStub_mr env kPointerSize instruction_set is_static is_synchronized
      (is_fast_native : bool) main_jni_conv end_jni_conv mr_conv options s r :
  well_formed_registers env main_jni_conv mr_conv ->
  EmitStub env kPointerSize instruction_set is_static is_synchronized
           is_fast_native false main_jni_conv end_jni_conv mr_conv options
           initial_state = (s, Ok r) ->
  mr_run initial_state s.
Proof.
  intros W H. pose proof W as (Wm & _). unfold EmitStub in H.
  pose proof (mr_run_refl initial_state) as R.
  assert (M : method_register initial_state = NoRegister) by reflexivity.
  do 2 harmless_step H R M. clear M.
  peel H x1 t1 X1. destruct x1. apply (Step_1_1_mr _ _ _ _ _ Wm) in X1.
  destruct X1 as [R1 M]. apply (mr_run_trans _ _ _ R) in R1. clear R.
  rename R1 into R.
  do 3 harmless_step H R M.
  peel H x2 t2 X2. destruct x2. apply Step_2_2_mr in X2; [| rewrite M; exact Wm].
  destruct X2 as [R2 M2]. apply (mr_run_trans _ _ _ R) in R2. clear R.
  rename R2 into R. rewrite M in M2. clear M. rename M2 into M.
  peel H x3 t3 X3. apply Step_2_3_mr in X3; [| rewrite M; exact Wm].
  destruct X3 as [R3 M3]. apply (mr_run_trans _ _ _ R) in R3. clear R.
  rename R3 into R. rewrite M in M3. clear M. rename M3 into M.
  peel H regs t4 X4. pose proof (Step_3_regs _ _ _ _ _ _ _ W X4) as Wt.
  apply emits_only_mr_run in X4; [| solve [emits_walk solve_event]].
  destruct X4 as [R4 M4]. apply (mr_run_trans _ _ _ R) in R4. clear R.
  rename R4 into R. rewrite M in M4. clear M. rename M4 into M.
  peel H x5 t5 X5. destruct x5.
  apply (Step_4_1_mr _ _ _ _ _ _ _ _ _ _ W Wt M) in X5. clear M.
  destruct X5 as [R5 M]. apply (mr_run_trans _ _ _ R) in R5. clear R.
  rename R5 into R.
  harmless_step_live H R M.
  peel H x6 t6 X6. destruct x6. apply (Step_4_3_mr _ _ _ _ _ M) in X6. clear M.
  destruct X6 as [R6 M]. apply (mr_run_trans _ _ _ R) in R6. clear R.
  rename R6 into R.
  do 10 harmless_step H R M.
  peel H x7 t7 X7. destruct x7. apply (Step_8_1_mr _ _ _ _ _ _ _ _ _ Wm) in X7.
  apply (mr_run_trans _ _ _ R) in X7. clear R.
  apply emits_only_mr_run in H; [| solve [emits_walk solve_event]].
  destruct H as [R _]. exact (mr_run_trans _ _ _ X7 R).
Qed.

(** A program that does not touch [method_register] leaves the accesses to
    it as they were. *)
Lemma emits_only_no_access {A T} (g : State -> T) (m : M A) s s' r :
  emits_only g (fun e => is_method_register_event e = false) m ->
  m s = (s', r) ->
  filter is_method_register_event (trace s')
  = filter is_method_register_event (trace s).
Proof.
  intros Hm H. destruct (Hm _ _ _ H) as [_ [E [HE HF]]].
  rewrite HE, filter_app.
  assert (HN : filter is_method_register_event E = []).
  { clear HE. induction HF as [| e E He _ IH]; [reflexivity |].
    cbn. rewrite He. exact IH. }
  rewrite HN. apply app_nil_r.
Qed.

(** The stub of a critical native method: the variable is initialised empty,
    handed to [BuildFrame], and not touched again. *)
Lemma EmitStub_critical_native_accesses env kPointerSize instruction_set
      is_static is_synchronized is_fast_native main_jni_conv end_jni_conv
      mr_conv options s r :
  EmitStub env kPointerSize instruction_set is_static is_synchronized
           is_fast_native true main_jni_conv end_jni_conv mr_conv options
           initial_state = (s, Ok r) ->
  filter is_method_register_event (trace s)
  = [MethodRegisterWrite NoRegister; MethodRegisterRead NoRegister].
Proof.
  intros H. unfold EmitStub in H.
  peel H x1 t1 X1. apply (emits_only_no_access no_state) in X1;
    [| solve [emits_walk solve_event]].
  peel H x2 t2 X2. apply (emits_only_no_access no_state) in X2;
    [| solve [emits_walk solve_event]].
  peel H x3 t3 X3. destruct x3. apply Step_1_1_run in X3. cbv zeta in X3.
  destruct X3 as (T & _).
  apply (emits_only_no_access no_state) in H;
    [| solve [emits_walk solve_event]].
  rewrite H, T, filter_app, X2, X1. reflexivity.
Qed.

(** C9, as the code has it.  In a compile that succeeds, on conventions whose
    registers are registers: for a method that is not critical native, every
    read of [method_register] hands out the register last assigned to it;
    the variable goes from a register to empty only right after a call that
    clobbers it, the call of [JniMethodStart] or the call of the native code,
    and each of these two calls is followed at once by that assignment; for a
    critical native method the variable is empty from its initialisation on
    and its only use is as the (empty) method register given to
    [BuildFrame]. *)
Theorem method_register_discipline
        env kPointerSize options access_flags method_idx dex_file s r :
  well_formed_registers
    env (main_conv_of env options access_flags method_idx dex_file)
    (mr_conv_of env options access_flags method_idx dex_file) ->
  ArtJniCompileMethodInternal env kPointerSize options access_flags method_idx
                              dex_file initial_state = (s, Ok r) ->
  if critical_native_of env access_flags
  then filter is_method_register_event (trace s)
       = [MethodRegisterWrite NoRegister; MethodRegisterRead NoRegister]
  else
    (forall before r after,
        trace s = before ++ MethodRegisterRead r :: after ->
        r = last_write before /\ IsRegister r = true)
    /\ (forall before r after,
           trace s = before ++ MethodRegisterWrite r :: after ->
           IsRegister (last_write before) = true ->
           IsRegister r = false ->
           exists before' op,
             before = before' ++ [Asm op]
             /\ clobbers_method_register op = true)
    /\ (forall before op after,
           trace s = before ++ Asm op :: after ->
           clobbers_method_register op = true ->
           IsRegister (last_write before) = true
           /\ exists after', after = MethodRegisterWrite NoRegister :: after').
Proof.
  intros W H. apply compile_Ok in H.
  destruct (critical_native_of env access_flags).
  - apply EmitStub_critical_native_accesses in H. exact H.
  - apply (EmitStub_mr _ _ _ _ _ _ _ _ _ _ _ _ W) in H.
    destruct H as (E & HE & HO & HW).
    change (trace initial_state) with (@nil Event) in HE. cbn [app] in HE.
    change (method_register initial_state) with NoRegister in *.
    rewrite <- HE in *. clear E HE.
    split; [| split].
    + intros before x after Ht. rewrite Ht in HO.
      apply walk_ok_at in HO. destruct HO as [(_ & Hx & Hl) _].
      rewrite walk_last_write in Hx. auto.
    + intros before x after Ht Hl Hx. rewrite Ht in HO.
      apply walk_ok_at in HO. destruct HO as [HO _]. cbn [event_ok] in HO.
      destruct (snd (walk (NoRegister, false) before)) eqn:Hp.
      * apply walk_pending in Hp. destruct Hp as [[_ Hp] | Hp];
          [discriminate Hp | exact Hp].
      * rewrite walk_last_write in HO. rewrite (HO Hl) in Hx. discriminate Hx.
    + intros before op after Ht Hop. rewrite Ht in HO, HW.
      apply walk_ok_at in HO. destruct HO as [Hb HO]. cbn [event_ok] in Hb.
      rewrite walk_app in HW. cbn [walk fold_left] in HW.
      fold (walk (NoRegister, false) before) in HW, HO.
      cbn [walk_event] in HW, HO. rewrite Hop in HW, HO.
      destruct after as [| e after'].
      * cbn in HW. inversion HW.
      * destruct HO as [He _]. destruct e as [op' | x | x]; cbn in He.
        -- discriminate He.
        -- destruct He as [Hl ->]. rewrite walk_last_write in Hl. eauto.
        -- destruct He as [He _]. discriminate He.
Qed.

Lemma Sample_well_formed_registers debug tail_call access_flags shorty :
  well_formed_registers
    (Sample.environment debug tail_call)
    (main_conv_of (Sample.environment debug tail_call) Sample.options
                  access_flags 0 (Sample.dex shorty))
    (mr_conv_of (Sample.environment debug tail_call) Sample.options
                access_flags 0 (Sample.dex shorty)).
Proof.
  unfold well_formed_registers. cbn. repeat split; auto.
  intros i _. unfold IsRegister, IsNoRegister, NoRegister.
  destruct (Z.eqb_spec (10 + Z.of_nat i) (-1)); [lia | reflexivity].
Qed.

Lemma method_register_discipline_witness :
  IsRegister
    (last_write (firstn 10 (trace (fst (Sample.compile true false 288 "IL")))))
  = true
  /\ exists after',
      skipn 11 (trace (fst (Sample.compile true false 288 "IL")))
      = MethodRegisterWrite NoRegister :: after'.
Proof.
  assert (W := method_register_discipline
                 (Sample.environment true false) k64 Sample.options 288 0
                 (Sample.dex "IL")
                 (fst (Sample.compile true false 288 "IL"))
                 (Build_JniCompiledMethod kArm64
                    (map (fun _ => 0)
                         (asm_trace (fst (Sample.compile true false 288 "IL"))))
                    96 3 0 [])
                 (Sample_well_formed_registers true false 288 "IL")).
  assert (R : ArtJniCompileMethodInternal
                (Sample.environment true false) k64 Sample.options 288 0
                (Sample.dex "IL") initial_state
              = (fst (Sample.compile true false 288 "IL"),
                 Ok (Build_JniCompiledMethod kArm64
                    (map (fun _ => 0)
                         (asm_trace (fst (Sample.compile true false 288 "IL"))))
                    96 3 0 []))) by (vm_compute; reflexivity).
  specialize (W R).
  change (critical_native_of (Sample.environment true false) 288) with false in W.
  destruct W as (_ & _ & C).
  apply (C (firstn 10 (trace (fst (Sample.compile true false 288 "IL"))))
           (Call 11 (OfThread (QUICK_ENTRYPOINT_OFFSET
                                 k64 pJniMethodStartSynchronized))));
    vm_compute; reflexivity.
Defined.

(** C9, as the spec states it, fails on the stub of a critical native
    method: its one read of [method_register], the method register handed to
    [BuildFrame], finds the variable empty. *)
Lemma critical_native_reads_empty_method_register :
  ~ reads_only_while_live (trace (fst (Sample.compile true false 2097416 "V"))).
Proof.
  intros H.
  specialize (H [Asm (CfiSetEnabled false);
                 Asm (SetEmitRunTimeChecksInDebugMode false);
                 MethodRegisterWrite NoRegister]
                NoRegister
                (skipn 4 (trace (fst (Sample.compile true false 2097416 "V"))))).
  assert (T : trace (fst (Sample.compile true false 2097416 "V"))
              = [Asm (CfiSetEnabled false);
                 Asm (SetEmitRunTimeChecksInDebugMode false);
                 MethodRegisterWrite NoRegister]
                  ++ MethodRegisterRead NoRegister
                  :: skipn 4 (trace (fst (Sample.compile true false 2097416 "V"))))
    by (vm_compute; reflexivity).
  specialize (H T). vm_compute in H. discriminate H.
Qed.

(** ** Critical native stubs (C4) *)






(** * Further properties of the compiler *)

(** ** Labels *)

Lemma Step_1_2_labels env is_static is_critical_native s s' ls :
  Step_1_2 env is_static is_critical_native s = (s', Ok ls) ->
  let rb := kUseReadBarrier env && is_static && negb is_critical_native in
  ls = (if rb then (Some (next_label s), Some (S (next_label s)))
        else (None, None))
  /\ next_label s' = (if rb then S (S (next_label s)) else next_label s)
  /\ flat_map (keep is_label_op) (asm_trace s')
     = flat_map (keep is_label_op) (asm_trace s)
         ++ (if rb then [TestGcMarking (fst ls) kNotZero; Bind (snd ls)] else []).
Proof.
  intros H. destruct s.
  run_in H; (split; [reflexivity | split; [reflexivity | explicit_extension]]).
Qed.

Lemma Step_2_3_labels env kPointerSize is_static is_synchronized is_fast_native
      is_critical_native main_jni_conv end_jni_conv mr_conv s s' l :
  Step_2_3 env kPointerSize is_static is_synchronized is_fast_native
           is_critical_native main_jni_conv end_jni_conv mr_conv s = (s', Ok l) ->
  l = (if is_synchronized then Some (next_label s) else None)
  /\ next_label s' = (if is_synchronized then S (next_label s) else next_label s)
  /\ flat_map (keep is_label_op) (asm_trace s')
     = flat_map (keep is_label_op) (asm_trace s)
         ++ (if negb is_critical_native && negb is_fast_native && is_synchronized
             then [ExceptionPoll l] else []).
Proof.
  intros H. destruct s.
  run_in H; (split; [reflexivity | split; [reflexivity | explicit_extension]]).
Qed.

Lemma Step_5_2_labels is_fast_native is_critical_native main_jni_conv s s' l :
  Step_5_2 is_fast_native is_critical_native main_jni_conv s = (s', Ok l) ->
  l = (if negb is_critical_native then Some (next_label s) else None)
  /\ next_label s' = (if negb is_critical_native then S (next_label s)
                      else next_label s)
  /\ flat_map (keep is_label_op) (asm_trace s')
     = flat_map (keep is_label_op) (asm_trace s)
         ++ (if is_fast_native && jni_IsReturnAReference main_jni_conv
             then [ExceptionPoll l] else []).
Proof.
  intros H. destruct s.
  run_in H; (split; [reflexivity | split; [reflexivity | explicit_extension]]).
Qed.

Lemma Step_5_3_labels is_fast_native main_jni_conv s s' ls :
  Step_5_3 is_fast_native main_jni_conv s = (s', Ok ls) ->
  ls = (if is_fast_native then (Some (next_label s), Some (S (next_label s)))
        else (None, None))
  /\ next_label s' = (if is_fast_native then S (S (next_label s))
                      else next_label s)
  /\ flat_map (keep is_label_op) (asm_trace s')
     = flat_map (keep is_label_op) (asm_trace s)
         ++ (if is_fast_native && jni_IsReturnAReference main_jni_conv
             then [SuspendCheck (fst ls); Bind (snd ls)] else []).
Proof.
  intros H. destruct s.
  run_in H; (split; [reflexivity | split; [reflexivity | explicit_extension]]).
Qed.

Lemma Step_7_2_labels is_fast_native is_critical_native main_jni_conv l s s' :
  Step_7_2 is_fast_native is_critical_native main_jni_conv l s = (s', Ok tt) ->
  flat_map (keep is_label_op) (asm_trace s')
  = flat_map (keep is_label_op) (asm_trace s)
      ++ (if negb is_critical_native
             && (negb is_fast_native
                 || negb (jni_IsReturnAReference main_jni_conv))
          then [ExceptionPoll l] else []).
Proof.
  intros H. destruct s. run_in H; explicit_extension.
Qed.

Lemma Step_7_3_labels is_fast_native main_jni_conv slow resume s s' :
  Step_7_3 is_fast_native main_jni_conv slow resume s = (s', Ok tt) ->
  flat_map (keep is_label_op) (asm_trace s')
  = flat_map (keep is_label_op) (asm_trace s)
      ++ (if is_fast_native && negb (jni_IsReturnAReference main_jni_conv)
          then [SuspendCheck slow; Bind resume] else []).
Proof.
  intros H. destruct s. run_in H; explicit_extension.
Qed.

Lemma Step_8_1_labels env kPointerSize is_static is_critical_native main_jni_conv
      mr_conv slow back s s' :
  Step_8_1 env kPointerSize is_static is_critical_native main_jni_conv mr_conv
           slow back s = (s', Ok tt) ->
  flat_map (keep is_label_op) (asm_trace s')
  = flat_map (keep is_label_op) (asm_trace s)
      ++ (if kUseReadBarrier env && is_static && negb is_critical_native
          then [Bind slow]
                 ++ (if kUseBakerReadBarrier env
                     then [TestMarkBit
                             (CoreRegisterWithSize
                                env
                                (nth 0 (jni_CalleeSaveScratchRegisters main_jni_conv)
                                     NoRegister)
                                kObjectReferenceSize)
                             back kNotZero]
                     else [])
                 ++ [JumpLabel back]
          else []).
Proof.
  intros H. destruct s. run_in H; explicit_extension.
Qed.

Lemma Step_8_2_labels kPointerSize is_fast_native main_jni_conv slow resume s s' :
  Step_8_2 kPointerSize is_fast_native main_jni_conv slow resume s = (s', Ok tt) ->
  flat_map (keep is_label_op) (asm_trace s')
  = flat_map (keep is_label_op) (asm_trace s)
      ++ (if is_fast_native then [Bind slow; JumpLabel resume] else []).
Proof.
  intros H. destruct s. run_in H; explicit_extension.
Qed.

Lemma Step_8_3_labels env kPointerSize is_synchronized is_fast_native
      is_critical_native main_jni_conv monitor exception e c t s s' :
  Step_8_3 env kPointerSize is_synchronized is_fast_native is_critical_native
           main_jni_conv monitor exception e c t s = (s', Ok tt) ->
  flat_map (keep is_label_op) (asm_trace s')
  = flat_map (keep is_label_op) (asm_trace s)
      ++ (if negb is_critical_native
          then (if is_synchronized then [Bind monitor] else []) ++ [Bind exception]
          else []).
Proof.
  intros H. destruct s. run_in H; explicit_extension.
Qed.

Lemma EmitStub_label_ops env kPointerSize instruction_set is_static
      is_synchronized is_fast_native is_critical_native main_jni_conv
      end_jni_conv mr_conv options s r :
  EmitStub env kPointerSize instruction_set is_static is_synchronized
           is_fast_native is_critical_native main_jni_conv end_jni_conv mr_conv
           options initial_state = (s, Ok r) ->
  flat_map (keep is_label_op) (asm_trace s)
  = label_ops env is_static is_synchronized is_fast_native is_critical_native
              main_jni_conv.
Proof.
  intros H. unfold EmitStub in H.
  do 3 skip_next next_label (keep is_label_op) H.
  peel H x12 t12 X12. apply Step_1_2_labels in X12. cbv zeta in X12.
  destruct X12 as (L12 & N12 & T12).
  do 3 skip_next next_label (keep is_label_op) H.
  peel H x23 t23 X23. apply Step_2_3_labels in X23.
  destruct X23 as (L23 & N23 & T23).
  do 6 skip_next next_label (keep is_label_op) H.
  peel H x52 t52 X52. apply Step_5_2_labels in X52.
  destruct X52 as (L52 & N52 & T52).
  peel H x53 t53 X53. apply Step_5_3_labels in X53.
  destruct X53 as (L53 & N53 & T53).
  do 3 skip_next next_label (keep is_label_op) H.
  peel H x72 t72 X72. destruct x72. apply Step_7_2_labels in X72.
  peel H x73 t73 X73. destruct x73. apply Step_7_3_labels in X73.
  skip_next next_label (keep is_label_op) H.
  peel H x81 t81 X81. destruct x81. apply Step_8_1_labels in X81.
  peel H x82 t82 X82. destruct x82. apply Step_8_2_labels in X82.
  peel H x83 t83 X83. destruct x83. apply Step_8_3_labels in X83.
  skip_last next_label (keep is_label_op) H.
  chain_back. change (asm_trace initial_state) with (@nil AsmOp).
  subst x12 x23 x52 x53.
  repeat match goal with
         | E : next_label ?t = _ |- _ => rewrite E in *; clear E
         end.
  change (next_label initial_state) with 0%nat.
  unfold label_ops, suspend_check_labels, exception_label, monitor_enter_label,
    labels_5, labels_2, labels_1, has_read_barrier_path.
  cbn [flat_map app].
  destruct (kUseReadBarrier env), is_static, is_critical_native,
    is_synchronized, is_fast_native, (jni_IsReturnAReference main_jni_conv);
    cbn [negb andb orb fst snd app]; rewrite <- ?app_assoc; reflexivity.
Qed.

Lemma binds_label_is_label_op n op : binds_label n op = true -> is_label_op op = true.
Proof. destruct op; simpl; intros H; try reflexivity; discriminate H. Qed.

(** Only label calls bind labels. *)
Lemma binds_filter n ops : binds n ops = binds n (filter is_label_op ops).
Proof.
  unfold binds. induction ops as [| op ops IH]; [reflexivity |].
  cbn [filter]. destruct (binds_label n op) eqn:Hb.
  - rewrite (binds_label_is_label_op _ _ Hb). cbn [filter]. rewrite Hb.
    cbn [List.length]. rewrite IH. reflexivity.
  - destruct (is_label_op op); cbn [filter]; rewrite ?Hb; exact IH.
Qed.

Lemma label_ops_bound_once env is_static is_synchronized is_fast_native
      is_critical_native main_jni_conv op :
  is_fast_native && is_critical_native && jni_IsReturnAReference main_jni_conv
  = false ->
  let ops := label_ops env is_static is_synchronized is_fast_native
                       is_critical_native main_jni_conv in
  In op ops ->
  forall l, branch_target op = Some l \/ op = Bind l ->
            exists n, l = Some n /\ binds n ops = 1%nat.
Proof.
  unfold label_ops, suspend_check_labels, exception_label, monitor_enter_label,
    labels_5, labels_2, labels_1, has_read_barrier_path, binds.
  destruct (kUseReadBarrier env), (kUseBakerReadBarrier env), is_static,
    is_critical_native, is_synchronized, is_fast_native,
    (jni_IsReturnAReference main_jni_conv);
    cbn [negb andb orb fst snd app]; intros Hx Hin l Hl;
    try discriminate Hx;
    in_explicit_list Hin; subst op; cbn [branch_target] in Hl;
    destruct Hl as [Hl | Hl]; try discriminate Hl;
    injection Hl as <-; eexists; (split; [reflexivity | reflexivity]).
Qed.

(** X2. In the stub of a compile that succeeds (for a method that is not at
    once fast native, critical native and returning a reference), every
    label a call branches to, and every label that is bound, is a label of
    the assembler (not [nullptr]) that is bound exactly once in the stub. *)
Theorem labels_bound_once
        env kPointerSize options access_flags method_idx dex_file s r :
  fast_native_of env access_flags && critical_native_of env access_flags
  && reference_return_of env options access_flags method_idx dex_file = false ->
  ArtJniCompileMethodInternal env kPointerSize options access_flags method_idx
                              dex_file initial_state = (s, Ok r) ->
  forall op l,
    In op (asm_trace s) ->
    branch_target op = Some l \/ op = Bind l ->
    exists n, l = Some n /\ binds n (asm_trace s) = 1%nat.
Proof.
  intros Hx H op l Hin Hl.
  apply compile_Ok, EmitStub_label_ops in H.
  rewrite <- filter_keep in H.
  destruct (label_ops_bound_once
              env (static_of env access_flags) (synchronized_of env access_flags)
              _ _ _ op Hx) with (l := l)
    as (n & Hn & Hb); [| exact Hl |].
  - rewrite <- H. apply filter_In. split; [exact Hin |].
    destruct Hl as [Hl | ->]; [| reflexivity].
    destruct op; simpl in Hl; try discriminate Hl; reflexivity.
  - exists n. split; [exact Hn |]. rewrite binds_filter, H. exact Hb.
Qed.

Lemma labels_bound_once_witness :
  exists n,
    Some 3%nat = Some n
    /\ binds n (asm_trace (fst (Sample.compile true false 524552 "LI"))) = 1%nat.
Proof.
  apply (labels_bound_once
           (Sample.environment true false) k64 Sample.options 524552 0
           (Sample.dex "LI") _
           (returned no_method (Sample.compile true false 524552 "LI"))
           eq_refl)
    with (op := SuspendCheck (Some 3%nat)).
  - vm_compute. reflexivity.
  - vm_compute. tauto.
  - left. reflexivity.
Defined.

(** ** Calls and polls, in order *)

Lemma Step_2_3_milestones env kPointerSize is_static is_synchronized
      is_fast_native is_critical_native main_jni_conv end_jni_conv mr_conv s s' l :
  Step_2_3 env kPointerSize is_static is_synchronized is_fast_native
           is_critical_native main_jni_conv end_jni_conv mr_conv s = (s', Ok l) ->
  flat_map milestone_of (asm_trace s')
  = flat_map milestone_of (asm_trace s)
      ++ (if negb is_critical_native && negb is_fast_native
          then CallTo (OfThread (GetJniEntrypointThreadOffset
                                   kPointerSize kStart
                                   (jni_IsReturnAReference main_jni_conv)
                                   is_synchronized))
                 :: (if is_synchronized then [PollsException l] else [])
          else []).
Proof.
  intros H. destruct s. unfold GetJniEntrypointThreadOffset in *.
  run_in H; explicit_extension.
Qed.

Lemma Step_4_3_milestones env instruction_set is_critical_native main_jni_conv
      s s' :
  Step_4_3 env instruction_set is_critical_native main_jni_conv s = (s', Ok tt) ->
  flat_map milestone_of (asm_trace s')
  = flat_map milestone_of (asm_trace s)
      ++ [CallTo (OfMember (jni_entrypoint_offset env instruction_set))].
Proof.
  intros H. destruct s. unfold jni_entrypoint_offset.
  run_in H; explicit_extension.
Qed.

Lemma Step_5_2_milestones is_fast_native is_critical_native main_jni_conv s s' l :
  Step_5_2 is_fast_native is_critical_native main_jni_conv s = (s', Ok l) ->
  flat_map milestone_of (asm_trace s')
  = flat_map milestone_of (asm_trace s)
      ++ (if is_fast_native && jni_IsReturnAReference main_jni_conv
          then [PollsException l] else []).
Proof.
  intros H. destruct s. run_in H; explicit_extension.
Qed.

Lemma Step_5_3_milestones is_fast_native main_jni_conv s s' ls :
  Step_5_3 is_fast_native main_jni_conv s = (s', Ok ls) ->
  flat_map milestone_of (asm_trace s')
  = flat_map milestone_of (asm_trace s)
      ++ (if is_fast_native && jni_IsReturnAReference main_jni_conv
          then [ChecksSuspend (fst ls)] else []).
Proof.
  intros H. destruct s. run_in H; explicit_extension.
Qed.

Lemma Step_5_5_milestones env kPointerSize is_static is_synchronized
      is_fast_native main_jni_conv end_jni_conv mr_conv s s' :
  Step_5_5 env kPointerSize is_static is_synchronized is_fast_native
           main_jni_conv end_jni_conv mr_conv s = (s', Ok tt) ->
  flat_map milestone_of (asm_trace s')
  = flat_map milestone_of (asm_trace s)
      ++ (if negb is_fast_native || jni_IsReturnAReference main_jni_conv
          then [CallTo (OfThread (jni_end kPointerSize is_synchronized
                                          is_fast_native main_jni_conv))]
          else []).
Proof.
  intros H. destruct s. unfold jni_end, GetJniEntrypointThreadOffset in *.
  run_in H; explicit_extension.
Qed.

Lemma Step_5_4_to_5_6_milestones env kPointerSize is_static is_synchronized
      is_fast_native is_critical_native main_jni_conv end_jni_conv mr_conv s s' :
  Step_5_4_to_5_6 env kPointerSize is_static is_synchronized is_fast_native
                  is_critical_native main_jni_conv end_jni_conv mr_conv s
  = (s', Ok tt) ->
  flat_map milestone_of (asm_trace s')
  = flat_map milestone_of (asm_trace s)
      ++ (if negb is_critical_native
             && (negb is_fast_native || jni_IsReturnAReference main_jni_conv)
          then [CallTo (OfThread (jni_end kPointerSize is_synchronized
                                          is_fast_native main_jni_conv))]
          else [])
  /\ next_label s' = next_label s.
Proof.
  unfold Step_5_4_to_5_6, when. intros H.
  destruct is_critical_native; cbn [negb andb] in *.
  - apply Ok_state in H. subst. split; [symmetry; apply app_nil_r | reflexivity].
  - skip_next next_label milestone_of H.
    peel H x t X. destruct x.
    assert (N : next_label t = next_label s0).
    { apply (emits_only_select next_label (fun _ : AsmOp => @nil AsmOp)) in X;
        [destruct X as [_ X]; exact X | emits_walk solve_event]. }
    apply Step_5_5_milestones in X.
    skip_last next_label milestone_of H.
    chain_back. split; [reflexivity | congruence].
Qed.

Lemma Step_7_2_milestones is_fast_native is_critical_native main_jni_conv l s s' :
  Step_7_2 is_fast_native is_critical_native main_jni_conv l s = (s', Ok tt) ->
  flat_map milestone_of (asm_trace s')
  = flat_map milestone_of (asm_trace s)
      ++ (if negb is_critical_native
             && (negb is_fast_native
                 || negb (jni_IsReturnAReference main_jni_conv))
          then [PollsException l] else []).
Proof.
  intros H. destruct s. run_in H; explicit_extension.
Qed.

Lemma Step_7_3_milestones is_fast_native main_jni_conv slow resume s s' :
  Step_7_3 is_fast_native main_jni_conv slow resume s = (s', Ok tt) ->
  flat_map milestone_of (asm_trace s')
  = flat_map milestone_of (asm_trace s)
      ++ (if is_fast_native && negb (jni_IsReturnAReference main_jni_conv)
          then [ChecksSuspend slow] else []).
Proof.
  intros H. destruct s. run_in H; explicit_extension.
Qed.

Lemma Step_8_1_milestones env kPointerSize is_static is_critical_native
      main_jni_conv mr_conv slow back s s' :
  Step_8_1 env kPointerSize is_static is_critical_native main_jni_conv mr_conv
           slow back s = (s', Ok tt) ->
  flat_map milestone_of (asm_trace s')
  = flat_map milestone_of (asm_trace s)
      ++ (if kUseReadBarrier env && is_static && negb is_critical_native
          then [CallTo (OfThread (QUICK_ENTRYPOINT_OFFSET kPointerSize
                                                          pReadBarrierJni))]
          else []).
Proof.
  intros H. destruct s. run_in H; explicit_extension.
Qed.

Lemma Step_8_2_milestones kPointerSize is_fast_native main_jni_conv slow resume
      s s' :
  Step_8_2 kPointerSize is_fast_native main_jni_conv slow resume s = (s', Ok tt) ->
  flat_map milestone_of (asm_trace s')
  = flat_map milestone_of (asm_trace s)
      ++ (if is_fast_native
          then CallTo (OfThread (QUICK_ENTRYPOINT_OFFSET kPointerSize
                                                         pTestSuspend))
                 :: (if jni_IsReturnAReference main_jni_conv
                     then [StoresStackPointer
                             (TopOfManagedStackOffset kPointerSize)]
                     else [])
          else []).
Proof.
  intros H. destruct s. run_in H; explicit_extension.
Qed.

Lemma Step_1_3_milestones kPointerSize is_critical_native s s' :
  Step_1_3 kPointerSize is_critical_native s = (s', Ok tt) ->
  flat_map milestone_of (asm_trace s')
  = flat_map milestone_of (asm_trace s)
      ++ (if is_critical_native then []
          else [StoresStackPointer (TopOfManagedStackOffset kPointerSize)])
  /\ next_label s' = next_label s.
Proof.
  intros H. destruct s. run_in H; (split; [explicit_extension | reflexivity]).
Qed.

(** X1. What a stub does with the thread, in order.  Unless the method is
    critical native, the stub first stores the stack pointer as the top of
    the managed stack.  A normal native stub then calls [JniMethodStart]
    (polling for the exception of a failed monitor enter when synchronized),
    the native code, the [JniMethodEnd] entrypoint, and only then polls for a
    pending exception.  A fast native stub that returns a reference polls and
    checks for a suspend request right after the native code, before it
    calls [JniDecodeReferenceResult]; one that returns no reference polls
    and then checks after the native code and calls no end entrypoint.  A
    critical native stub only reaches the native code.  The calls of the
    slow paths come last, and the stub calls nothing else. *)
Theorem calls_and_polls_in_order
        env kPointerSize options access_flags method_idx dex_file s r :
  ArtJniCompileMethodInternal env kPointerSize options access_flags method_idx
                              dex_file initial_state = (s, Ok r) ->
  let main := main_conv_of env options access_flags method_idx dex_file in
  let is_static := static_of env access_flags in
  let is_synchronized := synchronized_of env access_flags in
  let is_fast_native := fast_native_of env access_flags in
  let is_critical_native := critical_native_of env access_flags in
  let reference_return := jni_IsReturnAReference main in
  let monitor_enter_exception_slow_path :=
    monitor_enter_label env is_static is_synchronized is_critical_native in
  let exception_slow_path :=
    exception_label env is_static is_synchronized is_critical_native in
  let suspend_check_slow_path :=
    fst (suspend_check_labels env is_static is_synchronized is_fast_native
                              is_critical_native) in
  flat_map milestone_of (asm_trace s)
  = (if is_critical_native then []
     else [StoresStackPointer (TopOfManagedStackOffset kPointerSize)])
      ++ (if negb is_critical_native && negb is_fast_native
          then CallTo (OfThread (GetJniEntrypointThreadOffset
                                   kPointerSize kStart reference_return
                                   is_synchronized))
                 :: (if is_synchronized
                     then [PollsException monitor_enter_exception_slow_path]
                     else [])
          else [])
      ++ [CallTo (OfMember (jni_entrypoint_offset env (GetInstructionSet options)))]
      ++ (if is_fast_native && reference_return
          then [PollsException exception_slow_path;
                ChecksSuspend suspend_check_slow_path]
          else [])
      ++ (if negb is_critical_native && (negb is_fast_native || reference_return)
          then [CallTo (OfThread (jni_end kPointerSize is_synchronized
                                          is_fast_native main))]
          else [])
      ++ (if negb is_critical_native
             && (negb is_fast_native || negb reference_return)
          then [PollsException exception_slow_path] else [])
      ++ (if is_fast_native && negb reference_return
          then [ChecksSuspend suspend_check_slow_path] else [])
      ++ (if kUseReadBarrier env && is_static && negb is_critical_native
          then [CallTo (OfThread (QUICK_ENTRYPOINT_OFFSET kPointerSize
                                                          pReadBarrierJni))]
          else [])
      ++ (if is_fast_native
          then CallTo (OfThread (QUICK_ENTRYPOINT_OFFSET kPointerSize
                                                         pTestSuspend))
                 :: (if reference_return
                     then [StoresStackPointer
                             (TopOfManagedStackOffset kPointerSize)]
                     else [])
          else []).
Proof.
  intros H main is_static is_synchronized is_fast_native is_critical_native
         reference_return.
  apply compile_Ok in H. unfold EmitStub in H.
  fold main is_static is_synchronized is_fast_native is_critical_native in H.
  do 3 skip_next next_label milestone_of H.
  peel H x12 t12 X12. pose proof X12 as Y12.
  apply Step_1_2_labels in Y12. cbv zeta in Y12. destruct Y12 as (_ & N12 & _).
  apply (emits_only_select no_state milestone_of) in X12;
    [destruct X12 as [X12 _] | emits_walk solve_event].
  peel H x13 t13 X13. destruct x13. apply Step_1_3_milestones in X13.
  destruct X13 as (X13 & N13).
  do 2 skip_next next_label milestone_of H.
  peel H x23 t23 X23. pose proof X23 as Y23.
  apply Step_2_3_labels in Y23. destruct Y23 as (L23 & N23 & _).
  apply Step_2_3_milestones in X23.
  do 3 skip_next next_label milestone_of H.
  peel H x43 t43 X43. destruct x43. pose proof X43 as Y43.
  apply (emits_only_select next_label (fun _ : AsmOp => @nil AsmOp)) in Y43;
    [destruct Y43 as [_ N43] | emits_walk solve_event].
  apply Step_4_3_milestones in X43.
  do 2 skip_next next_label milestone_of H.
  peel H x52 t52 X52. pose proof X52 as Y52.
  apply Step_5_2_labels in Y52. destruct Y52 as (L52 & N52 & _).
  apply Step_5_2_milestones in X52.
  peel H x53 t53 X53. pose proof X53 as Y53.
  apply Step_5_3_labels in Y53. destruct Y53 as (L53 & N53 & _).
  apply Step_5_3_milestones in X53.
  peel H x5 t5 X5. destruct x5. apply Step_5_4_to_5_6_milestones in X5.
  destruct X5 as (X5 & N5).
  do 2 skip_next next_label milestone_of H.
  peel H x72 t72 X72. destruct x72. apply Step_7_2_milestones in X72.
  peel H x73 t73 X73. destruct x73. apply Step_7_3_milestones in X73.
  skip_next no_state milestone_of H.
  peel H x81 t81 X81. destruct x81. apply Step_8_1_milestones in X81.
  peel H x82 t82 X82. destruct x82. apply Step_8_2_milestones in X82.
  skip_next no_state milestone_of H.
  skip_last no_state milestone_of H.
  chain_back. change (asm_trace initial_state) with (@nil AsmOp).
  subst x23 x52 x53.
  repeat match goal with
         | E : next_label ?t = _ |- _ => rewrite E in *; clear E
         end.
  change (next_label initial_state) with 0%nat.
  unfold suspend_check_labels, exception_label, monitor_enter_label,
    labels_5, labels_2, labels_1, has_read_barrier_path.
  cbn [flat_map app]. subst reference_return.
  clearbody main is_static is_synchronized is_fast_native is_critical_native.
  destruct (kUseReadBarrier env), is_static, is_critical_native,
    is_synchronized, is_fast_native, (jni_IsReturnAReference main);
    cbn [negb andb orb fst snd app]; rewrite <- ?app_assoc; reflexivity.
Qed.

Lemma calls_and_polls_in_order_witness :
  flat_map milestone_of
           (asm_trace (fst (Sample.compile true false 524552 "LI")))
  = [StoresStackPointer (TopOfManagedStackOffset k64);
     CallTo (OfMember (EntryPointFromJniOffset k64));
     PollsException (Some 2%nat);
     ChecksSuspend (Some 3%nat);
     CallTo (OfThread (QUICK_ENTRYPOINT_OFFSET k64 pJniDecodeReferenceResult));
     CallTo (OfThread (QUICK_ENTRYPOINT_OFFSET k64 pReadBarrierJni));
     CallTo (OfThread (QUICK_ENTRYPOINT_OFFSET k64 pTestSuspend));
     StoresStackPointer (TopOfManagedStackOffset k64)].
Proof.
  apply (calls_and_polls_in_order
           (Sample.environment true false) k64 Sample.options 524552 0
           (Sample.dex "LI") _
           (returned no_method (Sample.compile true false 524552 "LI"))).
  vm_compute. reflexivity.
Defined.

(** ** The frame, from prologue to epilogue *)

Lemma filter_within (f g : AsmOp -> bool) l :
  (forall op, f op = true -> g op = true) ->
  filter f l = filter f (filter g l).
Proof.
  intros Hfg. induction l as [| op l IH]; [reflexivity |].
  cbn [filter]. destruct (f op) eqn:Hf.
  - rewrite (Hfg _ Hf). cbn [filter]. rewrite Hf, IH. reflexivity.
  - destruct (g op); cbn [filter]; rewrite ?Hf; exact IH.
Qed.

(** All the adjustments of the frame size cancel out, modulo 2^64. *)
Lemma final_frame_size_is_first is_critical_native main_jni_conv end_jni_conv :
  0 <= jni_FrameSize main_jni_conv < 2 ^ 64 ->
  final_frame_size is_critical_native main_jni_conv end_jni_conv
  = frame_size_1 is_critical_native main_jni_conv.
Proof.
  change (2 ^ 64) with 18446744073709551616. intros H.
  unfold final_frame_size, frame_size_5, out_arg_size_5, out_arg_size_diff,
    end_needs_more, frame_size_2, frame_size_1.
  destruct is_critical_native; cbn [negb andb]; [reflexivity |].
  destruct (jni_OutFrameSize main_jni_conv <? jni_OutFrameSize end_jni_conv);
    machine_arithmetic.
Qed.

(** X3. The epilogue removes the frame the prologue built: whatever the
    out-args of the native call and of the end-of-method call added to the
    frame has been taken off again when [RemoveFrame] is emitted, and it is
    given the frame size (a [size_t]) and the callee saves that [BuildFrame]
    was given.  Only a critical native stub that ends in a tail call has no
    [RemoveFrame]. *)
Theorem frame_removed_as_built
        env kPointerSize options access_flags method_idx dex_file s r :
  let main := main_conv_of env options access_flags method_idx dex_file in
  let mr := mr_conv_of env options access_flags method_idx dex_file in
  let is_critical_native := critical_native_of env access_flags in
  let frame_size := frame_size_1 is_critical_native main in
  0 <= jni_FrameSize main < 2 ^ 64 ->
  ArtJniCompileMethodInternal env kPointerSize options access_flags method_idx
                              dex_file initial_state = (s, Ok r) ->
  filter is_BuildFrame_or_RemoveFrame (asm_trace s)
  = BuildFrame frame_size
               (if is_critical_native then NoRegister else mr_MethodRegister mr)
               (jni_CalleeSaveRegisters main)
      :: (if is_critical_native && jni_UseTailCall main then []
          else [RemoveFrame frame_size (jni_CalleeSaveRegisters main)
                            (negb is_critical_native)]).
Proof.
  intros main mr is_critical_native frame_size Hr H.
  apply compile_Ok, EmitStub_frame_calls in H.
  fold main mr is_critical_native in H. destruct H as [HF _].
  unfold frame_calls in HF.
  rewrite (final_frame_size_is_first _ _ _ Hr) in HF.
  rewrite <- filter_keep in HF.
  rewrite (filter_within is_BuildFrame_or_RemoveFrame is_frame_call), HF
    by (intros op; destruct op; simpl; congruence).
  unfold rewind_calls. subst frame_size.
  clearbody is_critical_native main mr.
  destruct is_critical_native, (synchronized_of env access_flags),
    (fast_native_of env access_flags), (jni_IsReturnAReference main),
    (jni_UseTailCall main),
    (end_needs_more _ main
                    (end_conv_of env options access_flags method_idx dex_file)),
    (jni_OutFrameSize main =? 0);
    cbn [negb andb orb app filter is_BuildFrame_or_RemoveFrame]; reflexivity.
Qed.

Lemma frame_removed_as_built_witness :
  filter is_BuildFrame_or_RemoveFrame
         (asm_trace (fst (Sample.compile true false 288 "LIIIIII")))
  = [BuildFrame 96 0 [30; 31]; RemoveFrame 96 [30; 31] true].
Proof.
  apply (frame_removed_as_built
           (Sample.environment true false) k64 Sample.options 288 0
           (Sample.dex "LIIIIII") _
           (returned no_method (Sample.compile true false 288 "LIIIIII"))).
  - vm_compute. split; [discriminate | reflexivity].
  - vm_compute. reflexivity.
Defined.

(** ** The compiled method *)

Lemma Step_9_run env instruction_set main_jni_conv s s' r :
  Step_9 env instruction_set main_jni_conv s = (s', Ok r) ->
  asm_trace s' = asm_trace s ++ [FinalizeCode; FinalizeInstructions]
  /\ r = {| cm_instruction_set := instruction_set;
            cm_code := AssembledCode env (asm_trace s');
            cm_frame_size := jni_FrameSize main_jni_conv mod 2 ^ 32;
            cm_core_spill_mask := jni_CoreSpillMask main_jni_conv;
            cm_fp_spill_mask := jni_FpSpillMask main_jni_conv;
            cm_cfi := CfiData env (asm_trace s') |}.
Proof.
  intros H. unfold Step_9 in H. steps_in H.
  pose proof (Ok_value _ _ _ _ H) as V. apply Ok_state in H. subst s' r.
  split; [| reflexivity].
  rewrite (asm_trace_app s [Asm FinalizeCode; Asm FinalizeInstructions]);
    [reflexivity |].
  rewrite !trace_record_event, <- app_assoc. reflexivity.
Qed.

(** [P : asm_trace t = pre ++ acc] for the state [t] at which [H] starts:
    over the next action of [H], whatever it emits. *)
Ltac extend_run H P :=
  let a := fresh "a" in
  let t := fresh "t" in
  let X := fresh "X" in
  let E := fresh "E" in
  peel H a t X;
  apply (emits_only_extends no_state) in X;
  [| solve [emits_walk ltac:(exact I)]];
  destruct X as [E X];
  rewrite P in X; rewrite <- app_assoc in X; clear P; rename X into P.

(** X4. A compile that succeeds returns the code and the CFI data the
    assembler made of all the calls of the stub, which begin with the two
    calls that configure it and with [BuildFrame] and end with
    [FinalizeCode] and [FinalizeInstructions], together with the
    instruction set of the compiler options and the spill masks of the
    native convention.  The frame size it reports is the managed frame size
    [FrameSize()] of the native convention, converted to 32 bits: this is
    the size that [BuildFrame] was given when the method is not critical
    native and the size fits, but not the size of the frame that a critical
    native stub builds, which is that of its out-args only. *)
Theorem compiled_method
        env kPointerSize options access_flags method_idx dex_file s r :
  ArtJniCompileMethodInternal env kPointerSize options access_flags method_idx
                              dex_file initial_state = (s, Ok r) ->
  let main := main_conv_of env options access_flags method_idx dex_file in
  let mr := mr_conv_of env options access_flags method_idx dex_file in
  let is_critical_native := critical_native_of env access_flags in
  (exists ops,
      asm_trace s
      = [CfiSetEnabled (GenerateAnyDebugInfo options);
         SetEmitRunTimeChecksInDebugMode (EmitRunTimeChecksInDebugMode options);
         BuildFrame (if is_critical_native then jni_OutFrameSize main
                     else jni_FrameSize main)
                    (if is_critical_native then NoRegister
                     else mr_MethodRegister mr)
                    (jni_CalleeSaveRegisters main)]
          ++ ops ++ [FinalizeCode; FinalizeInstructions])
  /\ cm_code r = AssembledCode env (asm_trace s)
  /\ cm_cfi r = CfiData env (asm_trace s)
  /\ cm_instruction_set r = GetInstructionSet options
  /\ cm_frame_size r = jni_FrameSize main mod 2 ^ 32
  /\ cm_core_spill_mask r = jni_CoreSpillMask main
  /\ cm_fp_spill_mask r = jni_FpSpillMask main.
Proof.
  intros H main mr is_critical_native. apply compile_Ok in H.
  fold main mr is_critical_native in H. unfold EmitStub in H.
  steps_in H.
  peel H x1 t1 X1. destruct x1. apply Step_1_1_run in X1. cbv zeta in X1.
  destruct X1 as (T1 & _). apply asm_trace_app in T1.
  assert (P : asm_trace t1
              = [CfiSetEnabled (GenerateAnyDebugInfo options);
                 SetEmitRunTimeChecksInDebugMode
                   (EmitRunTimeChecksInDebugMode options);
                 BuildFrame (if is_critical_native then jni_OutFrameSize main
                             else jni_FrameSize main)
                            (if is_critical_native then NoRegister
                             else mr_MethodRegister mr)
                            (jni_CalleeSaveRegisters main)] ++ [])
    by (rewrite T1; reflexivity).
  clear T1.
  do 22 extend_run H P.
  apply Step_9_run in H. destruct H as [T ->]. rewrite P in T. clear P.
  split; [| cbn; auto 10].
  eexists. rewrite T, <- app_assoc. reflexivity.
Qed.

Lemma compiled_method_witness :
  cm_frame_size (returned no_method (Sample.compile true false 2097416 "II"))
  = 96
  /\ cm_code (returned no_method (Sample.compile true false 2097416 "II"))
     = AssembledCode
         (Sample.environment true false)
         (asm_trace (fst (Sample.compile true false 2097416 "II"))).
Proof.
  destruct (compiled_method
              (Sample.environment true false) k64 Sample.options 2097416 0
              (Sample.dex "II") (fst (Sample.compile true false 2097416 "II"))
              (returned no_method (Sample.compile true false 2097416 "II")))
    as (_ & C & _ & _ & F & _).
  - vm_compute. reflexivity.
  - split; [rewrite F; reflexivity | exact C].
Defined.

(** ** The validation of a debug build *)

Lemma check_shorty_run env shorty s :
  check_shorty env shorty s
  = (s, if no_reference_in env shorty then Ok tt else Fatal (CheckFailed 172)).
Proof.
  unfold no_reference_in. induction shorty as [| c sh IH]; [reflexivity |].
  cbn [check_shorty list_ascii_of_string forallb].
  unfold bind, CHECK.
  destruct (negb (PrimitiveType_eqb kPrimNot (Primitive_GetType env c)));
    cbn [andb]; [exact IH | reflexivity].
Qed.

Lemma validate_attributes_run env is_static is_synchronized is_fast_native
      is_critical_native shorty s :
  kIsDebugBuild env = true ->
  exists r,
    validate_attributes env is_static is_synchronized is_fast_native
                        is_critical_native shorty s = (s, r)
    /\ (valid_attributes env is_static is_synchronized is_fast_native
                         is_critical_native shorty = true -> r = Ok tt)
    /\ (valid_attributes env is_static is_synchronized is_fast_native
                         is_critical_native shorty = false ->
        r = Fatal (LogFatal 154) \/ r = Fatal (CheckFailed 163)
        \/ r = Fatal (CheckFailed 167) \/ r = Fatal (CheckFailed 172)).
Proof.
  intros Hd. unfold validate_attributes, valid_attributes, when, bind, CHECK.
  rewrite Hd.
  destruct is_fast_native, is_critical_native, is_static, is_synchronized;
    cbn [negb andb orb ret fail]; rewrite ?check_shorty_run;
    try destruct (no_reference_in env shorty);
    eexists; (split; [reflexivity |]); split; intros; try discriminate; auto.
Qed.

(** X5. In a debug build, a compile that succeeds was given valid
    attributes: the method is not both fast native and critical native, and
    a critical native method is static, not synchronized, and has no
    reference type in its shorty (return type included). *)
Theorem debug_build_accepts_valid_attributes_only
        env kPointerSize options access_flags method_idx dex_file s r :
  kIsDebugBuild env = true ->
  ArtJniCompileMethodInternal env kPointerSize options access_flags method_idx
                              dex_file initial_state = (s, Ok r) ->
  fast_native_of env access_flags && critical_native_of env access_flags = false
  /\ (critical_native_of env access_flags = true ->
      static_of env access_flags = true
      /\ synchronized_of env access_flags = false
      /\ forall c, In c (list_ascii_of_string (GetMethodShorty dex_file method_idx)) ->
                   Primitive_GetType env c <> kPrimNot).
Proof.
  intros Hd H. unfold ArtJniCompileMethodInternal in H.
  peel H x0 t0 X0. peel H x1 t1 X1. clear H X0.
  destruct (validate_attributes_run
              env (has_flag access_flags (kAccStatic env))
              (has_flag access_flags (kAccSynchronized env))
              (has_flag access_flags (kAccFastNative env))
              (has_flag access_flags (kAccCriticalNative env))
              (GetMethodShorty dex_file method_idx) t0 Hd)
    as (v & Hv & _ & Hbad).
  rewrite X1 in Hv.
  assert (Hv' : v = Ok x1) by (inversion Hv; reflexivity). clear Hv.
  unfold fast_native_of, critical_native_of, static_of, synchronized_of.
  destruct (valid_attributes _ _ _ _ _ _) eqn:V.
  - unfold valid_attributes in V.
    apply andb_prop in V. destruct V as [V1 V2].
    apply negb_true_iff in V1. split; [exact V1 |].
    intros Hc. rewrite Hc in V2. cbn [negb orb] in V2.
    apply andb_prop in V2. destruct V2 as [V2 V3].
    apply andb_prop in V2. destruct V2 as [V2 V4].
    apply negb_true_iff in V4. repeat split; try assumption.
    intros c Hin Hn. unfold no_reference_in in V3.
    rewrite forallb_forall in V3. specialize (V3 c Hin).
    rewrite Hn in V3. discriminate V3.
  - subst v. destruct (Hbad eq_refl) as [B | [B | [B | B]]]; discriminate B.
Qed.

Lemma debug_build_accepts_valid_attributes_only_witness :
  fast_native_of (Sample.environment true false) 2097416
  && critical_native_of (Sample.environment true false) 2097416 = false
  /\ (critical_native_of (Sample.environment true false) 2097416 = true ->
      static_of (Sample.environment true false) 2097416 = true
      /\ synchronized_of (Sample.environment true false) 2097416 = false
      /\ forall c, In c (list_ascii_of_string "II") ->
                   Sample.GetType c <> kPrimNot).
Proof.
  apply (debug_build_accepts_valid_attributes_only
           (Sample.environment true false) k64 Sample.options 2097416 0
           (Sample.dex "II") (fst (Sample.compile true false 2097416 "II"))
           (returned no_method (Sample.compile true false 2097416 "II"))).
  - reflexivity.
  - vm_compute. reflexivity.
Defined.

(** X6. In a debug build, a native method with invalid attributes is
    rejected before anything is emitted: the compile stops in the
    [LOG(FATAL)] of line 154 or in one of the checks of lines 163, 167 and
    172, with no call made on the assembler. *)
Theorem debug_build_rejects_invalid_attributes
        env kPointerSize options access_flags method_idx dex_file :
  kIsDebugBuild env = true ->
  has_flag access_flags (kAccNative env) = true ->
  valid_attributes env (static_of env access_flags)
                   (synchronized_of env access_flags)
                   (fast_native_of env access_flags)
                   (critical_native_of env access_flags)
                   (GetMethodShorty dex_file method_idx) = false ->
  exists f,
    ArtJniCompileMethodInternal env kPointerSize options access_flags method_idx
                                dex_file initial_state
    = (initial_state, Fatal f)
    /\ In f [LogFatal 154; CheckFailed 163; CheckFailed 167; CheckFailed 172].
Proof.
  intros Hd Hn Hv. unfold ArtJniCompileMethodInternal. rewrite Hn.
  change (bind (CHECK 123 true) ?k initial_state) with (k tt initial_state).
  cbv beta. unfold bind at 1.
  destruct (validate_attributes_run
              env (has_flag access_flags (kAccStatic env))
              (has_flag access_flags (kAccSynchronized env))
              (has_flag access_flags (kAccFastNative env))
              (has_flag access_flags (kAccCriticalNative env))
              (GetMethodShorty dex_file method_idx) initial_state Hd)
    as (v & Hr & _ & Hbad).
  rewrite Hr.
  destruct (Hbad Hv) as [B | [B | [B | B]]]; subst v;
    eexists; (split; [reflexivity |]); cbn [In]; auto.
Qed.

Lemma debug_build_rejects_invalid_attributes_witness :
  exists f,
    Sample.compile true false 2097416 "IL" = (initial_state, Fatal f)
    /\ In f [LogFatal 154; CheckFailed 163; CheckFailed 167; CheckFailed 172].
Proof.
  apply (debug_build_rejects_invalid_attributes
           (Sample.environment true false) k64 Sample.options 2097416 0
           (Sample.dex "IL")).
  - reflexivity.
  - reflexivity.
  - vm_compute. reflexivity.
Defined.

(** ** The checks of the stub *)

Lemma Step_3_check env kPointerSize is_critical_native main_jni_conv s s' regs :
  Step_3 env kPointerSize is_critical_native main_jni_conv s = (s', Ok regs) ->
  enough_scratch_registers is_critical_native main_jni_conv = true.
Proof.
  intros H. unfold enough_scratch_registers. destruct s.
  run_in H; try reflexivity; assumption.
Qed.

Lemma Step_4_4_check env is_critical_native main_jni_conv s s' :
  Step_4_4 env is_critical_native main_jni_conv s = (s', Ok tt) ->
  extension_allowed is_critical_native main_jni_conv = true.
Proof.
  intros H. unfold extension_allowed. destruct s.
  run_in H;
    repeat match goal with
           | E : _ = _ |- _ => rewrite E
           end;
    cbn [negb andb orb]; rewrite ?orb_true_r; reflexivity.
Qed.

Lemma Step_5_1_check env is_fast_native is_critical_native main_jni_conv mr_conv
      s s' :
  Step_5_1 env is_fast_native is_critical_native main_jni_conv mr_conv s
  = (s', Ok tt) ->
  return_value_placed is_fast_native is_critical_native main_jni_conv mr_conv
                      (current_frame_size s) = true.
Proof.
  intros H. unfold return_value_placed. destruct s.
  run_in H;
    repeat match goal with
           | E : _ = _ |- _ => rewrite E
           end;
    cbn [negb andb orb]; rewrite ?orb_true_r; try reflexivity; try assumption.
Qed.

(** X7. A compile succeeds only if the conventions pass the [CHECK]s of the
    stub, in a debug build as in a release build: three callee-save scratch
    registers unless the method is critical native (line 389); a small
    result extended only outside a tail call and only for [byte], [short],
    [boolean] or [char] (lines 529, 535); a spilled return value saved below
    the frame size reached after the out-args were added (line 553); and,
    for fast and critical native, no move of the return value after a tail
    call and equal sizes for a return value that is in no register (lines
    568, 576). *)
Theorem success_implies_checks
        env kPointerSize options access_flags method_idx dex_file s r :
  ArtJniCompileMethodInternal env kPointerSize options access_flags method_idx
                              dex_file initial_state = (s, Ok r) ->
  has_flag access_flags (kAccNative env) = true
  /\ stub_checks (fast_native_of env access_flags)
                 (critical_native_of env access_flags)
                 (main_conv_of env options access_flags method_idx dex_file)
                 (mr_conv_of env options access_flags method_idx dex_file)
     = true.
Proof.
  intros H.
  destruct (compile_cases _ _ _ _ _ _ _ _ _ H) as [[_ [f Hf]] | [Hn He]];
    [discriminate Hf |].
  split; [exact Hn |]. clear H. unfold EmitStub in He.
  do 2 skip_next frame_state (fun _ : AsmOp => @nil AsmOp) He.
  peel He x1 t1 X1. destruct x1. apply Step_1_1_run in X1. cbv zeta in X1.
  destruct X1 as (_ & F1 & _ & O1).
  do 2 skip_next frame_state (fun _ : AsmOp => @nil AsmOp) He.
  peel He x2 t2 X2. destruct x2. apply Step_2_1_run in X2.
  destruct X2 as (_ & F2 & O2).
  do 2 skip_next frame_state (fun _ : AsmOp => @nil AsmOp) He.
  peel He regs t3 X3. pose proof X3 as C3. apply Step_3_check in C3.
  apply (emits_only_select frame_state (fun _ : AsmOp => @nil AsmOp)) in X3;
    [destruct X3 as [_ K3] | emits_walk solve_event].
  do 3 skip_next frame_state (fun _ : AsmOp => @nil AsmOp) He.
  peel He x44 t44 X44. destruct x44. pose proof X44 as C44.
  apply Step_4_4_check in C44.
  apply (emits_only_select frame_state (fun _ : AsmOp => @nil AsmOp)) in X44;
    [destruct X44 as [_ K44] | emits_walk solve_event].
  peel He x51 t51 X51. destruct x51. apply Step_5_1_check in X51.
  clear He. frame_facts. rewrite_frame_sizes.
  unfold stub_checks. rewrite C3, C44. cbn [andb].
  rewrite <- X51. reflexivity.
Qed.

Lemma success_implies_checks_witness :
  has_flag 288 (kAccNative (Sample.environment true false)) = true
  /\ stub_checks
       (fast_native_of (Sample.environment true false) 288)
       (critical_native_of (Sample.environment true false) 288)
       (main_conv_of (Sample.environment true false) Sample.options 288 0
                     (Sample.dex "IL"))
       (mr_conv_of (Sample.environment true false) Sample.options 288 0
                   (Sample.dex "IL"))
     = true.
Proof.
  apply (success_implies_checks
           (Sample.environment true false) k64 Sample.options 288 0
           (Sample.dex "IL") (fst (Sample.compile true false 288 "IL"))
           (returned no_method (Sample.compile true false 288 "IL"))).
  vm_compute. reflexivity.
Defined.

(** *** Programs that never abort *)

Lemma bind_Fatal {A B} (m : M A) (k : A -> M B) s s' f :
  bind m k s = (s', Fatal f) ->
  m s = (s', Fatal f)
  \/ exists a s1, m s = (s1, Ok a) /\ k a s1 = (s', Fatal f).
Proof.
  unfold bind. destruct (m s) as [s1 [a | f1]]; intros H.
  - right. exists a, s1. split; [reflexivity | exact H].
  - left. inversion H. reflexivity.
Qed.

Lemma Ok_not_Fatal {A} (s s' : State) (a : A) f : (s, Ok a) <> (s', Fatal f).
Proof. intros H. inversion H. Qed.

Lemma never_fatal_ret {A} (a : A) : never_fatal (ret a).
Proof. intros s s' f. apply Ok_not_Fatal. Qed.

Lemma never_fatal_gets {A} (g : State -> A) : never_fatal (gets g).
Proof. intros s s' f. apply Ok_not_Fatal. Qed.

Lemma never_fatal_update g : never_fatal (update g).
Proof. intros s s' f. apply Ok_not_Fatal. Qed.

Lemma never_fatal_emit op : never_fatal (emit op).
Proof. intros s s' f. apply Ok_not_Fatal. Qed.

Lemma never_fatal_CreateLabel : never_fatal CreateLabel.
Proof. intros s s' f. apply Ok_not_Fatal. Qed.

Lemma never_fatal_assign_method_register r :
  never_fatal (assign_method_register r).
Proof. intros s s' f. apply Ok_not_Fatal. Qed.

Lemma never_fatal_use_method_register : never_fatal use_method_register.
Proof. intros s s' f. apply Ok_not_Fatal. Qed.

Lemma never_fatal_bind {A B} (m : M A) (k : A -> M B) :
  never_fatal m -> (forall a, never_fatal (k a)) -> never_fatal (bind m k).
Proof.
  intros Hm Hk s s' f H. apply bind_Fatal in H.
  destruct H as [H | (a & s1 & _ & H)].
  - exact (Hm _ _ _ H).
  - exact (Hk _ _ _ _ H).
Qed.

(** A release build compiles the [DCHECK]s away. *)
Lemma never_fatal_DCHECK env line cond :
  kIsDebugBuild env = false -> never_fatal (DCHECK env line cond).
Proof. intros Hd. unfold DCHECK. rewrite Hd. apply never_fatal_ret. Qed.

Lemma never_fatal_CHECK line cond : cond = true -> never_fatal (CHECK line cond).
Proof. intros ->. apply never_fatal_ret. Qed.

Lemma never_fatal_for_each_remaining n body :
  never_fatal body -> never_fatal (for_each_remaining n body).
Proof.
  intros Hb. induction n as [| n IH]; cbn [for_each_remaining].
  - apply never_fatal_ret.
  - repeat (apply never_fatal_bind; [| intros _]);
      try exact Hb; try exact IH; apply never_fatal_update.
Qed.

(** Walking a program of the emitter in a release build; [solve_check]
    proves that the condition of a [CHECK] holds. *)
Ltac never_rule solve_check :=
  cbn [negb andb orb fst snd];
  lazymatch goal with
  | |- never_fatal (bind _ _) => apply never_fatal_bind; [ | intros ? ]
  | |- never_fatal (ret _) => apply never_fatal_ret
  | |- never_fatal (gets _) => apply never_fatal_gets
  | |- never_fatal (update _) => apply never_fatal_update
  | |- never_fatal (emit _) => apply never_fatal_emit
  | |- never_fatal CreateLabel => apply never_fatal_CreateLabel
  | |- never_fatal (assign_method_register _) =>
      apply never_fatal_assign_method_register
  | |- never_fatal use_method_register => apply never_fatal_use_method_register
  | |- never_fatal (CHECK _ _) => apply never_fatal_CHECK; solve_check
  | |- never_fatal (DCHECK _ _ _) => apply never_fatal_DCHECK; assumption
  | |- never_fatal (for_each_remaining _ _) =>
      apply never_fatal_for_each_remaining
  | |- never_fatal (when ?b _) => unfold when at 1
  | |- never_fatal (if ?b then _ else _) => split_on_condition b
  | |- never_fatal (let _ := _ in _) => cbv zeta
  | |- never_fatal ?m => let h := head_of m in unfold h
  end.

Ltac never_walk solve_check := repeat (never_rule solve_check).

Ltac check_holds :=
  cbn [negb andb orb] in *;
  first [ reflexivity | assumption
        | match goal with
          | H : _ && _ = true |- _ =>
              apply andb_prop in H; destruct H; check_holds
          end ].

Lemma Step_3_never_fatal env kPointerSize is_critical_native main_jni_conv :
  enough_scratch_registers is_critical_native main_jni_conv = true ->
  never_fatal (Step_3 env kPointerSize is_critical_native main_jni_conv).
Proof.
  unfold enough_scratch_registers. intros Hc. never_walk check_holds.
Qed.

Lemma Step_4_4_never_fatal env is_critical_native main_jni_conv :
  kIsDebugBuild env = false ->
  extension_allowed is_critical_native main_jni_conv = true ->
  never_fatal (Step_4_4 env is_critical_native main_jni_conv).
Proof.
  unfold extension_allowed. intros Hd Hc. never_walk check_holds.
Qed.

Lemma Step_5_1_not_fatal env is_fast_native is_critical_native main_jni_conv
      mr_conv s s' f :
  kIsDebugBuild env = false ->
  return_value_placed is_fast_native is_critical_native main_jni_conv mr_conv
                      (current_frame_size s) = true ->
  Step_5_1 env is_fast_native is_critical_native main_jni_conv mr_conv s
  <> (s', Fatal f).
Proof.
  intros Hd Hc H. destruct s. unfold return_value_placed in Hc. cbn in Hc.
  unfold_emitter H. rewrite Hd in H. eval_in H.
  repeat (break_if H; eval_in H);
    try exact (Ok_not_Fatal _ _ _ _ H);
    repeat match goal with
           | E : _ = _ |- _ =>
               tryif constr_eq E Hc then fail else (rewrite E in Hc; cbn in Hc)
           end;
    discriminate Hc.
Qed.

(** One step of a run that aborted: the step before did not abort, by the
    walk of its program, and kept the frame sizes. *)
Ltac never_next H :=
  let a := fresh "a" in
  let t := fresh "t" in
  let X := fresh "X" in
  let G := fresh "G" in
  apply bind_Fatal in H;
  destruct H as [H | (a & t & X & H)];
  [ exfalso; revert H;
    refine ((_ : never_fatal _) _ _ _);
    solve [never_walk check_holds]
  | apply (emits_only_select frame_state (fun _ : AsmOp => @nil AsmOp)) in X;
    [ destruct X as [_ G] | solve [emits_walk solve_event] ] ].

(** The same, when the frame sizes no longer matter. *)
Ltac never_then H :=
  let a := fresh "a" in
  let t := fresh "t" in
  let X := fresh "X" in
  apply bind_Fatal in H;
  destruct H as [H | (a & t & X & H)];
  [ exfalso; revert H;
    refine ((_ : never_fatal _) _ _ _);
    solve [never_walk check_holds]
  | clear X ].

Lemma EmitStub_succeeds env kPointerSize instruction_set is_static
      is_synchronized is_fast_native is_critical_native main_jni_conv
      end_jni_conv mr_conv options :
  kIsDebugBuild env = false ->
  stub_checks is_fast_native is_critical_native main_jni_conv mr_conv = true ->
  exists s r,
    EmitStub env kPointerSize instruction_set is_static is_synchronized
             is_fast_native is_critical_native main_jni_conv end_jni_conv
             mr_conv options initial_state = (s, Ok r).
Proof.
  intros Hd Hc. unfold stub_checks in Hc.
  apply andb_prop in Hc. destruct Hc as [Hc C51].
  apply andb_prop in Hc. destruct Hc as [C3 C44].
  destruct (EmitStub env kPointerSize instruction_set is_static is_synchronized
                     is_fast_native is_critical_native main_jni_conv
                     end_jni_conv mr_conv options initial_state)
    as [s [r | f]] eqn:H; [eauto |].
  exfalso. unfold EmitStub in H.
  do 2 never_next H.
  (* 1.1 *)
  apply bind_Fatal in H. destruct H as [H | (x1 & u1 & X1 & H)].
  { revert H. refine ((_ : never_fatal _) _ _ _). never_walk check_holds. }
  destruct x1. apply Step_1_1_run in X1. cbv zeta in X1.
  destruct X1 as (_ & F1 & _ & O1).
  do 2 never_next H.
  (* 2.1 *)
  apply bind_Fatal in H. destruct H as [H | (x2 & u2 & X2 & H)].
  { revert H. refine ((_ : never_fatal _) _ _ _). never_walk check_holds. }
  destruct x2. apply Step_2_1_run in X2. destruct X2 as (_ & F2 & O2).
  do 2 never_next H.
  (* 3 *)
  apply bind_Fatal in H. destruct H as [H | (regs & u3 & X3 & H)].
  { revert H. apply Step_3_never_fatal. exact C3. }
  apply (emits_only_select frame_state (fun _ : AsmOp => @nil AsmOp)) in X3;
    [destruct X3 as [_ K3] | emits_walk solve_event].
  do 3 never_next H.
  (* 4.4 *)
  apply bind_Fatal in H. destruct H as [H | (x44 & u44 & X44 & H)].
  { revert H. apply Step_4_4_never_fatal; assumption. }
  apply (emits_only_select frame_state (fun _ : AsmOp => @nil AsmOp)) in X44;
    [destruct X44 as [_ K44] | emits_walk solve_event].
  (* 5.1 *)
  apply bind_Fatal in H. destruct H as [H | (x51 & u51 & X51 & H)].
  { revert H. apply Step_5_1_not_fatal; [exact Hd |].
    frame_facts. rewrite_frame_sizes. exact C51. }
  clear X51.
  do 11 never_then H.
  revert H. refine ((_ : never_fatal _) _ _ _). never_walk check_holds.
Qed.

(** X8. In a release build nothing else can stop the compile: for a native
    method whose conventions pass the [CHECK]s of the stub, whatever its
    attributes, the compile runs to its end and returns a compiled method.
    (The attributes are validated, and the [DCHECK]s evaluated, in a debug
    build only.) *)
Theorem release_build_succeeds
        env kPointerSize options access_flags method_idx dex_file :
  kIsDebugBuild env = false ->
  has_flag access_flags (kAccNative env) = true ->
  stub_checks (fast_native_of env access_flags)
              (critical_native_of env access_flags)
              (main_conv_of env options access_flags method_idx dex_file)
              (mr_conv_of env options access_flags method_idx dex_file)
  = true ->
  exists s r,
    ArtJniCompileMethodInternal env kPointerSize options access_flags method_idx
                                dex_file initial_state = (s, Ok r).
Proof.
  intros Hd Hn Hc. unfold ArtJniCompileMethodInternal. rewrite Hn.
  unfold validate_attributes. rewrite Hd.
  change (bind (CHECK 123 true) ?k initial_state) with (k tt initial_state).
  cbv beta.
  change (bind (when false ?m) ?k initial_state) with (k tt initial_state).
  cbv beta.
  apply EmitStub_succeeds; assumption.
Qed.

Lemma release_build_succeeds_witness :
  exists s r, Sample.compile false false 2621704 "LI" = (s, Ok r).
Proof.
  apply (release_build_succeeds
           (Sample.environment false false) k64 Sample.options 2621704 0
           (Sample.dex "LI")).
  - reflexivity.
  - reflexivity.
  - vm_compute. reflexivity.
Defined.

(** ** The JNI environment and its local reference table *)

Lemma Step_3_local_reference env kPointerSize is_critical_native main_jni_conv
      s s' regs :
  Step_3 env kPointerSize is_critical_native main_jni_conv s = (s', Ok regs) ->
  let scratch := jni_CalleeSaveScratchRegisters main_jni_conv in
  regs = (if is_critical_native then (NoRegister, NoRegister, NoRegister)
          else (nth 0 scratch NoRegister,
                CoreRegisterWithSize env (nth 1 scratch NoRegister)
                                     (kIRTCookieSize env),
                CoreRegisterWithSize env (nth 2 scratch NoRegister)
                                     (kIRTCookieSize env)))
  /\ flat_map (keep is_local_reference_access) (asm_trace s')
     = flat_map (keep is_local_reference_access) (asm_trace s)
         ++ (if is_critical_native then []
             else LoadRawPtrFromThread (fst (fst regs)) (JniEnvOffset kPointerSize)
                    :: PushLocalReferenceFrame_calls
                         env kPointerSize (fst (fst regs)) (snd (fst regs))
                         (snd regs)).
Proof.
  intros H. destruct s.
  run_in H; (split; [reflexivity | explicit_extension]).
Qed.

(** *** The exception path *)

Lemma Step_1_2_path env is_static is_critical_native s s' ls :
  Step_1_2 env is_static is_critical_native s = (s', Ok ls) ->
  let rb := kUseReadBarrier env && is_static && negb is_critical_native in
  ls = (if rb then (Some (next_label s), Some (S (next_label s)))
        else (None, None))
  /\ next_label s' = (if rb then S (S (next_label s)) else next_label s)
  /\ flat_map (keep is_path_op) (asm_trace s')
     = flat_map (keep is_path_op) (asm_trace s)
         ++ (if rb then [TestGcMarking (fst ls) kNotZero; Bind (snd ls)] else []).
Proof.
  intros H. destruct s.
  run_in H; (split; [reflexivity | split; [reflexivity | explicit_extension]]).
Qed.

Lemma Step_2_3_path env kPointerSize is_static is_synchronized is_fast_native
      is_critical_native main_jni_conv end_jni_conv mr_conv s s' l :
  Step_2_3 env kPointerSize is_static is_synchronized is_fast_native
           is_critical_native main_jni_conv end_jni_conv mr_conv s = (s', Ok l) ->
  l = (if is_synchronized then Some (next_label s) else None)
  /\ next_label s' = (if is_synchronized then S (next_label s) else next_label s)
  /\ flat_map (keep is_path_op) (asm_trace s')
     = flat_map (keep is_path_op) (asm_trace s)
         ++ (if negb is_critical_native && negb is_fast_native && is_synchronized
             then [ExceptionPoll l] else []).
Proof.
  intros H. destruct s.
  run_in H; (split; [reflexivity | split; [reflexivity | explicit_extension]]).
Qed.

Lemma Step_5_2_path is_fast_native is_critical_native main_jni_conv s s' l :
  Step_5_2 is_fast_native is_critical_native main_jni_conv s = (s', Ok l) ->
  l = (if negb is_critical_native then Some (next_label s) else None)
  /\ next_label s' = (if negb is_critical_native then S (next_label s)
                      else next_label s)
  /\ flat_map (keep is_path_op) (asm_trace s')
     = flat_map (keep is_path_op) (asm_trace s)
         ++ (if is_fast_native && jni_IsReturnAReference main_jni_conv
             then [ExceptionPoll l] else []).
Proof.
  intros H. destruct s.
  run_in H; (split; [reflexivity | split; [reflexivity | explicit_extension]]).
Qed.

Lemma Step_5_3_path is_fast_native main_jni_conv s s' ls :
  Step_5_3 is_fast_native main_jni_conv s = (s', Ok ls) ->
  ls = (if is_fast_native then (Some (next_label s), Some (S (next_label s)))
        else (None, None))
  /\ next_label s' = (if is_fast_native then S (S (next_label s))
                      else next_label s)
  /\ flat_map (keep is_path_op) (asm_trace s')
     = flat_map (keep is_path_op) (asm_trace s)
         ++ (if is_fast_native && jni_IsReturnAReference main_jni_conv
             then [SuspendCheck (fst ls); Bind (snd ls)] else []).
Proof.
  intros H. destruct s.
  run_in H; (split; [reflexivity | split; [reflexivity | explicit_extension]]).
Qed.

Lemma Step_7_2_path is_fast_native is_critical_native main_jni_conv l s s' :
  Step_7_2 is_fast_native is_critical_native main_jni_conv l s = (s', Ok tt) ->
  flat_map (keep is_path_op) (asm_trace s')
  = flat_map (keep is_path_op) (asm_trace s)
      ++ (if negb is_critical_native
             && (negb is_fast_native
                 || negb (jni_IsReturnAReference main_jni_conv))
          then [ExceptionPoll l] else []).
Proof.
  intros H. destruct s. run_in H; explicit_extension.
Qed.

Lemma Step_7_3_path is_fast_native main_jni_conv slow resume s s' :
  Step_7_3 is_fast_native main_jni_conv slow resume s = (s', Ok tt) ->
  flat_map (keep is_path_op) (asm_trace s')
  = flat_map (keep is_path_op) (asm_trace s)
      ++ (if is_fast_native && negb (jni_IsReturnAReference main_jni_conv)
          then [SuspendCheck slow; Bind resume] else []).
Proof.
  intros H. destruct s. run_in H; explicit_extension.
Qed.

Lemma Step_8_1_path env kPointerSize is_static is_critical_native main_jni_conv
      mr_conv slow back s s' :
  Step_8_1 env kPointerSize is_static is_critical_native main_jni_conv mr_conv
           slow back s = (s', Ok tt) ->
  flat_map (keep is_path_op) (asm_trace s')
  = flat_map (keep is_path_op) (asm_trace s)
      ++ (if kUseReadBarrier env && is_static && negb is_critical_native
          then [Bind slow]
                 ++ (if kUseBakerReadBarrier env
                     then [TestMarkBit
                             (CoreRegisterWithSize
                                env
                                (nth 0 (jni_CalleeSaveScratchRegisters main_jni_conv)
                                     NoRegister)
                                kObjectReferenceSize)
                             back kNotZero]
                     else [])
                 ++ [JumpLabel back]
          else []).
Proof.
  intros H. destruct s. run_in H; explicit_extension.
Qed.

Lemma Step_8_2_path kPointerSize is_fast_native main_jni_conv slow resume s s' :
  Step_8_2 kPointerSize is_fast_native main_jni_conv slow resume s = (s', Ok tt) ->
  flat_map (keep is_path_op) (asm_trace s')
  = flat_map (keep is_path_op) (asm_trace s)
      ++ (if is_fast_native then [Bind slow; JumpLabel resume] else []).
Proof.
  intros H. destruct s. run_in H; explicit_extension.
Qed.

Lemma Step_8_3_path env kPointerSize is_synchronized is_fast_native
      is_critical_native main_jni_conv monitor exception e c t s s' :
  Step_8_3 env kPointerSize is_synchronized is_fast_native is_critical_native
           main_jni_conv monitor exception e c t s = (s', Ok tt) ->
  flat_map (keep is_path_op) (asm_trace s')
  = flat_map (keep is_path_op) (asm_trace s)
      ++ (if negb is_critical_native
          then (if is_synchronized then [Bind monitor] else [])
                 ++ [Bind exception]
                 ++ (if is_fast_native && jni_IsReturnAReference main_jni_conv
                     then PopLocalReferenceFrame_calls env kPointerSize e c t
                     else [])
                 ++ [DeliverPendingException]
          else []).
Proof.
  intros H. destruct s. run_in H; explicit_extension.
Qed.

Lemma Step_3_path env kPointerSize is_critical_native main_jni_conv s s' regs :
  Step_3 env kPointerSize is_critical_native main_jni_conv s = (s', Ok regs) ->
  let scratch := jni_CalleeSaveScratchRegisters main_jni_conv in
  regs = (if is_critical_native then (NoRegister, NoRegister, NoRegister)
          else (nth 0 scratch NoRegister,
                CoreRegisterWithSize env (nth 1 scratch NoRegister)
                                     (kIRTCookieSize env),
                CoreRegisterWithSize env (nth 2 scratch NoRegister)
                                     (kIRTCookieSize env)))
  /\ next_label s' = next_label s
  /\ flat_map (keep is_path_op) (asm_trace s')
     = flat_map (keep is_path_op) (asm_trace s)
         ++ (if is_critical_native then []
             else LoadRawPtrFromThread (fst (fst regs)) (JniEnvOffset kPointerSize)
                    :: PushLocalReferenceFrame_calls
                         env kPointerSize (fst (fst regs)) (snd (fst regs))
                         (snd regs)).
Proof.
  intros H. destruct s.
  run_in H; (split; [reflexivity | split; [reflexivity | explicit_extension]]).
Qed.

Lemma Step_6_path env kPointerSize is_critical_native s s'
      jni_env_reg saved_cookie_reg callee_save_temp :
  Step_6 env kPointerSize is_critical_native jni_env_reg saved_cookie_reg
         callee_save_temp s = (s', Ok tt) ->
  next_label s' = next_label s
  /\ flat_map (keep is_path_op) (asm_trace s')
     = flat_map (keep is_path_op) (asm_trace s)
         ++ (if is_critical_native then []
             else PopLocalReferenceFrame_calls env kPointerSize jni_env_reg
                                               saved_cookie_reg callee_save_temp).
Proof.
  intros H. destruct s. run_in H; (split; [reflexivity | explicit_extension]).
Qed.

Lemma on_exception_path_is_path_op l op :
  on_exception_path l op = true -> is_path_op op = true.
Proof.
  destruct op; cbn; intros H; try reflexivity; try discriminate H;
    rewrite H; reflexivity.
Qed.

Lemma on_exception_path_push l env p e c t :
  filter (on_exception_path l) (PushLocalReferenceFrame_calls env p e c t)
  = PushLocalReferenceFrame_calls env p e c t.
Proof. reflexivity. Qed.

Lemma on_exception_path_pop l env p e c t :
  filter (on_exception_path l) (PopLocalReferenceFrame_calls env p e c t)
  = PopLocalReferenceFrame_calls env p e c t.
Proof. reflexivity. Qed.

(** X9. The stub of a method that is not critical native loads the JNI
    environment once, into the first callee-save scratch register of the
    native convention, and pushes the local reference frame right away; the
    pop that follows works on the same three registers as the push, so the
    cookie it restores is the one the push saved, and it stands in the main
    path, before the exception slow path is bound; a fast native stub that
    returns a reference, which has polled for an exception before that
    pop, pops the frame once more, on the same registers, in its exception
    slow path: after the label its poll branches to is bound and before the
    pending exception is delivered.  Nothing else touches the JNI
    environment pointer, the cookie or the segment state, and a critical
    native stub touches none of them. *)
Theorem local_reference_frame_accesses
        env kPointerSize options access_flags method_idx dex_file s r :
  ArtJniCompileMethodInternal env kPointerSize options access_flags method_idx
                              dex_file initial_state = (s, Ok r) ->
  let main := main_conv_of env options access_flags method_idx dex_file in
  let is_fast_native := fast_native_of env access_flags in
  let is_critical_native := critical_native_of env access_flags in
  let exception_slow_path :=
    exception_label env (static_of env access_flags)
                    (synchronized_of env access_flags) is_critical_native in
  let early_poll := is_fast_native && jni_IsReturnAReference main in
  let scratch := jni_CalleeSaveScratchRegisters main in
  let jni_env_reg := nth 0 scratch NoRegister in
  let saved_cookie_reg :=
    CoreRegisterWithSize env (nth 1 scratch NoRegister) (kIRTCookieSize env) in
  let callee_save_temp :=
    CoreRegisterWithSize env (nth 2 scratch NoRegister) (kIRTCookieSize env) in
  let pop :=
    PopLocalReferenceFrame_calls env kPointerSize jni_env_reg saved_cookie_reg
                                 callee_save_temp in
  filter (on_exception_path exception_slow_path) (asm_trace s)
  = if is_critical_native
    then (if early_poll then [ExceptionPoll exception_slow_path] else [])
    else [LoadRawPtrFromThread jni_env_reg (JniEnvOffset kPointerSize)]
           ++ PushLocalReferenceFrame_calls env kPointerSize jni_env_reg
                                            saved_cookie_reg callee_save_temp
           ++ (if early_poll then [ExceptionPoll exception_slow_path] else [])
           ++ pop
           ++ (if early_poll then [] else [ExceptionPoll exception_slow_path])
           ++ [Bind exception_slow_path]
           ++ (if early_poll then pop else [])
           ++ [DeliverPendingException].
Proof.
  intros H main is_fast_native is_critical_native exception_slow_path
         early_poll scratch jni_env_reg saved_cookie_reg callee_save_temp pop.
  apply compile_Ok in H. unfold EmitStub in H.
  fold main is_fast_native is_critical_native in H.
  do 3 skip_next next_label (keep is_path_op) H.
  peel H x12 t12 X12. apply Step_1_2_path in X12. cbv zeta in X12.
  destruct X12 as (L12 & N12 & T12).
  do 3 skip_next next_label (keep is_path_op) H.
  peel H x23 t23 X23. apply Step_2_3_path in X23.
  destruct X23 as (L23 & N23 & T23).
  peel H regs t3 X3. apply Step_3_path in X3. cbv zeta in X3.
  destruct X3 as (R3 & N3 & T3).
  do 5 skip_next next_label (keep is_path_op) H.
  peel H x52 t52 X52. apply Step_5_2_path in X52.
  destruct X52 as (L52 & N52 & T52).
  peel H x53 t53 X53. apply Step_5_3_path in X53.
  destruct X53 as (L53 & N53 & T53).
  skip_next next_label (keep is_path_op) H.
  peel H x6 t6 X6. destruct x6. apply Step_6_path in X6.
  destruct X6 as (N6 & T6).
  skip_next next_label (keep is_path_op) H.
  peel H x72 t72 X72. destruct x72. apply Step_7_2_path in X72.
  peel H x73 t73 X73. destruct x73. apply Step_7_3_path in X73.
  skip_next next_label (keep is_path_op) H.
  peel H x81 t81 X81. destruct x81. apply Step_8_1_path in X81.
  peel H x82 t82 X82. destruct x82. apply Step_8_2_path in X82.
  peel H x83 t83 X83. destruct x83. apply Step_8_3_path in X83.
  skip_last next_label (keep is_path_op) H.
  rewrite (filter_within (on_exception_path exception_slow_path) is_path_op)
    by apply on_exception_path_is_path_op.
  rewrite (filter_keep is_path_op (asm_trace s)). chain_back.
  change (asm_trace initial_state) with (@nil AsmOp).
  subst x12 x23 x52 x53 regs.
  repeat match goal with
         | E : next_label ?t = _ |- _ => rewrite E in *; clear E
         end.
  change (next_label initial_state) with 0%nat.
  subst exception_slow_path early_poll pop jni_env_reg saved_cookie_reg
        callee_save_temp scratch.
  unfold exception_label, labels_2, labels_1, has_read_barrier_path.
  fold main is_fast_native is_critical_native.
  clearbody main is_fast_native is_critical_native.
  cbn [flat_map app].
  destruct (kUseReadBarrier env), (kUseBakerReadBarrier env),
    (static_of env access_flags), is_critical_native,
    (synchronized_of env access_flags), is_fast_native,
    (jni_IsReturnAReference main);
    cbn [negb andb orb fst snd app];
    rewrite ?app_nil_r, <- ?app_assoc; cbn [app];
    repeat (progress
              (rewrite ?filter_app, ?on_exception_path_push,
                 ?on_exception_path_pop;
               cbn [filter app on_exception_path same_label Nat.eqb
                    is_local_reference_access]));
    reflexivity.
Qed.

Lemma local_reference_frame_accesses_witness :
  filter (on_exception_path (Some 2%nat))
         (asm_trace (fst (Sample.compile true false 524552 "LI")))
  = [LoadRawPtrFromThread 20 (JniEnvOffset k64);
     LoadMember 21 20 (LocalRefCookieOffset 8) 4;
     LoadMember 22 20 (SegmentStateOffset 8) 4;
     StoreMember 20 (LocalRefCookieOffset 8) 22 4;
     ExceptionPoll (Some 2%nat);
     LoadMember 22 20 (LocalRefCookieOffset 8) 4;
     StoreMember 20 (SegmentStateOffset 8) 22 4;
     StoreMember 20 (LocalRefCookieOffset 8) 21 4;
     Bind (Some 2%nat);
     LoadMember 22 20 (LocalRefCookieOffset 8) 4;
     StoreMember 20 (SegmentStateOffset 8) 22 4;
     StoreMember 20 (LocalRefCookieOffset 8) 21 4;
     DeliverPendingException].
Proof.
  apply (local_reference_frame_accesses
           (Sample.environment true false) k64 Sample.options 524552 0
           (Sample.dex "LI") _
           (returned no_method (Sample.compile true false 524552 "LI"))).
  vm_compute. reflexivity.
Defined.

(** ** What a critical native stub is made of *)

Lemma EmitStub_critical_native_calls env kPointerSize instruction_set
      is_static is_synchronized main_jni_conv end_jni_conv mr_conv options :
  jni_SpillsReturnValue main_jni_conv = false ->
  emits_only no_state (on_asm (fun op => critical_native_call op = true))
             (EmitStub env kPointerSize instruction_set is_static is_synchronized
                       false true main_jni_conv end_jni_conv mr_conv options).
Proof.
  intros Hs.
  emits_walk ltac:(first [ exact I | reflexivity
                         | exfalso; unfold spill_return_value in *; congruence ]).
Qed.

(** X10. The stub of a critical native method (not also marked fast native,
    and whose return value the native convention does not spill) is made of
    nothing but the configuration of the assembler, [BuildFrame],
    [MoveArguments], the call of or the jump to the native code, the
    extension of a small result, the move of the return value,
    [RemoveFrame] and the finalization: it makes no call into the runtime,
    does not store the stack pointer to the thread, never changes the frame
    size, reads or writes no stack slot of its own, and has no label. *)
Theorem critical_native_stub_calls
        env kPointerSize options access_flags method_idx dex_file s r :
  critical_native_of env access_flags = true ->
  fast_native_of env access_flags = false ->
  jni_SpillsReturnValue
    (main_conv_of env options access_flags method_idx dex_file) = false ->
  ArtJniCompileMethodInternal env kPointerSize options access_flags method_idx
                              dex_file initial_state = (s, r) ->
  Forall (fun op => critical_native_call op = true) (asm_trace s).
Proof.
  intros Hc Hf Hs H. apply Forall_asm_trace.
  destruct (compile_cases _ _ _ _ _ _ _ _ _ H) as [[-> _] | [_ He]].
  - constructor.
  - rewrite Hc, Hf in He.
    destruct (EmitStub_critical_native_calls _ _ _ _ _ _ _ _ _ Hs _ _ _ He)
      as [_ [E [HE HF]]].
    rewrite HE. exact HF.
Qed.

Lemma critical_native_stub_calls_witness :
  Forall (fun op => critical_native_call op = true)
         (asm_trace (fst (Sample.compile true true 2097416 "JIDI"))).
Proof.
  apply (critical_native_stub_calls
           (Sample.environment true true) k64 Sample.options 2097416 0
           (Sample.dex "JIDI") _
           (snd (Sample.compile true true 2097416 "JIDI"))).
  - reflexivity.
  - reflexivity.
  - reflexivity.
  - vm_compute. reflexivity.
Defined.

(** ** The pointer size of the offsets *)

Lemma EmitStub_offsets env kPointerSize instruction_set is_static
      is_synchronized is_fast_native is_critical_native main_jni_conv
      end_jni_conv mr_conv options :
  emits_only no_state (on_asm (fun op => offsets_for kPointerSize op = true))
             (EmitStub env kPointerSize instruction_set is_static is_synchronized
                       is_fast_native is_critical_native main_jni_conv
                       end_jni_conv mr_conv options).
Proof.
  destruct kPointerSize;
    emits_walk ltac:(first [ exact I | reflexivity
                           | cbv [on_asm]; unfold jni_end,
                               GetJniEntrypointThreadOffset; cbn;
                             repeat match goal with
                                    | |- context [if ?b then _ else _] =>
                                        destruct b; cbn
                                    end;
                             reflexivity ]).
Qed.

(** X11. [ArtQuickJniCompileMethod] compiles for the pointer size of the
    instruction set: 64 bits when [Is64BitInstructionSet] holds of it and 32
    bits otherwise.  In whatever it emits, every quick entrypoint, the top of
    the managed stack and the JNI environment are addressed at thread
    offsets for that pointer size, and the cookie and the segment state at
    the JNI environment offsets for it. *)
Theorem offsets_follow_instruction_set
        env options access_flags method_idx dex_file s r :
  ArtQuickJniCompileMethod env options access_flags method_idx dex_file
                           initial_state = (s, r) ->
  let p := if Is64BitInstructionSet env (GetInstructionSet options)
           then k64 else k32 in
  Forall (fun op => offsets_for p op = true) (asm_trace s).
Proof.
  intros H p. unfold ArtQuickJniCompileMethod in H. subst p.
  apply Forall_asm_trace.
  destruct (Is64BitInstructionSet env (GetInstructionSet options));
    (destruct (compile_cases _ _ _ _ _ _ _ _ _ H) as [[-> _] | [_ He]];
     [ constructor
     | destruct (EmitStub_offsets _ _ _ _ _ _ _ _ _ _ _ _ _ _ He)
         as [_ [E [HE HF]]];
       rewrite HE; exact HF ]).
Qed.

Lemma offsets_follow_instruction_set_witness :
  Forall (fun op => offsets_for k64 op = true)
         (asm_trace (fst (Sample.compile true false 296 "LI"))).
Proof.
  apply (offsets_follow_instruction_set
           (Sample.environment true false) Sample.options 296 0
           (Sample.dex "LI") _ (snd (Sample.compile true false 296 "LI"))).
  vm_compute. reflexivity.
Defined.

(** ** The vectors of [MoveArguments] *)

Section Keeps.

Context (I : State -> Prop) (P : Event -> Prop).













End Keeps.








(** ** The JNI entrypoints *)

(** X13. [GetJniEntrypointThreadOffset] gives two calls the same thread
    offset only when they agree on the pointer size, on start or end, on
    whether the method is synchronized and, for the end of the method, on
    whether it returns a reference; the start of the method does not
    depend on the return type.  So the six entrypoints are never confused,
    and none of them is the invalid offset [-1] the source starts from. *)
Theorem GetJniEntrypointThreadOffset_injective p p' which which' r r' sy sy' :
  GetJniEntrypointThreadOffset p which r sy
  = GetJniEntrypointThreadOffset p' which' r' sy'
  <-> p = p' /\ which = which' /\ sy = sy' /\ (which = kEnd -> r = r').
Proof.
  split.
  - destruct p, p', which, which', r, r', sy, sy'; simpl; intros H;
      try discriminate H; repeat split; try reflexivity;
      intros E; discriminate E.
  - intros (-> & -> & -> & Hr). destruct which'.
    + reflexivity.
    + rewrite (Hr eq_refl). reflexivity.
Qed.

(** ** The extension of a small result *)

Lemma Step_4_4_run env is_critical_native main_jni_conv s s' :
  Step_4_4 env is_critical_native main_jni_conv s = (s', Ok tt) ->
  let return_type := jni_GetReturnType main_jni_conv in
  flat_map (keep is_extension) (asm_trace s')
  = flat_map (keep is_extension) (asm_trace s)
      ++ (if jni_RequiresSmallResultTypeExtension main_jni_conv
          then [if PrimitiveType_eqb return_type kPrimByte
                   || PrimitiveType_eqb return_type kPrimShort
                then SignExtend (jni_ReturnRegister main_jni_conv)
                                (Primitive_ComponentSize env return_type)
                else ZeroExtend (jni_ReturnRegister main_jni_conv)
                                (Primitive_ComponentSize env return_type)]
          else [])
  /\ (jni_RequiresSmallResultTypeExtension main_jni_conv = true ->
      PrimitiveType_eqb return_type kPrimByte
      || PrimitiveType_eqb return_type kPrimShort
      || PrimitiveType_eqb return_type kPrimBoolean
      || PrimitiveType_eqb return_type kPrimChar = true).
Proof.
  intros H. destruct s.
  run_in H;
    (split;
     [ explicit_extension
     | intros Hreq; try discriminate Hreq;
       repeat match goal with
              | E : _ = _ |- _ => rewrite E
              end;
       cbn [orb]; try reflexivity; try discriminate; try assumption ]).
Qed.

(** X14. A stub extends the result of the native code exactly when the
    native convention requires it: once, on the return register of the
    native convention, by sign for [byte] and [short] and by zero for
    [boolean] and [char], to the component size of the type; a compile that
    succeeds had no other return type to extend. *)
Theorem small_result_extension
        env kPointerSize options access_flags method_idx dex_file s r :
  ArtJniCompileMethodInternal env kPointerSize options access_flags method_idx
                              dex_file initial_state = (s, Ok r) ->
  let main := main_conv_of env options access_flags method_idx dex_file in
  let return_type := jni_GetReturnType main in
  let size := Primitive_ComponentSize env return_type in
  filter is_extension (asm_trace s)
  = (if jni_RequiresSmallResultTypeExtension main
     then (match return_type with
           | kPrimByte | kPrimShort => [SignExtend (jni_ReturnRegister main) size]
           | _ => [ZeroExtend (jni_ReturnRegister main) size]
           end)
     else [])
  /\ (jni_RequiresSmallResultTypeExtension main = true ->
      In return_type [kPrimByte; kPrimShort; kPrimBoolean; kPrimChar]).
Proof.
  intros H main return_type size.
  apply compile_Ok in H. unfold EmitStub in H. fold main in H.
  do 12 skip_next no_state (keep is_extension) H.
  peel H x44 u44 X44. destruct x44. apply Step_4_4_run in X44. cbv zeta in X44.
  destruct X44 as (X44 & T44).
  skip_last no_state (keep is_extension) H.
  rewrite filter_keep. chain_back.
  change (asm_trace initial_state) with (@nil AsmOp). cbn [flat_map app].
  fold return_type in T44 |- *. fold size.
  destruct (jni_RequiresSmallResultTypeExtension main).
  - specialize (T44 eq_refl).
    destruct return_type; cbn in T44 |- *; try discriminate T44;
      (split; [reflexivity | intros _; cbn; tauto]).
  - split; [reflexivity | discriminate].
Qed.

Lemma small_result_extension_witness :
  filter is_extension
         (asm_trace
            (fst (ArtQuickJniCompileMethod (extending_environment true false)
                                           Sample.options 264 0 (Sample.dex "BI")
                                           initial_state)))
  = [SignExtend 10 1]
  /\ (true = true -> In kPrimByte [kPrimByte; kPrimShort; kPrimBoolean; kPrimChar]).
Proof.
  apply (small_result_extension
           (extending_environment true false) k64 Sample.options 264 0
           (Sample.dex "BI") _
           (returned no_method
                     (ArtQuickJniCompileMethod (extending_environment true false)
                                               Sample.options 264 0
                                               (Sample.dex "BI") initial_state))).
  vm_compute. reflexivity.
Defined.

(** ** The spilled return value *)

(** A program that emits no call selected by [f]: what it adds to the calls
    has nothing selected by [f]. *)
Lemma emits_only_between {A T} (g : State -> T) f (m : M A) s s' r :
  emits_only g (not_selected f) m ->
  m s = (s', r) ->
  g s' = g s
  /\ exists E, asm_trace s' = asm_trace s ++ E /\ filter f E = [].
Proof.
  intros Hm H. destruct (Hm _ _ _ H) as [Hg [E [HE HF]]].
  split; [exact Hg |]. exists (flat_map asm_of E).
  split; [apply asm_trace_app; exact HE | apply filter_not_selected; exact HF].
Qed.

Lemma asm_trace_extension s s' E :
  trace s' = trace s ++ map Asm E -> asm_trace s' = asm_trace s ++ E.
Proof.
  intros H. rewrite (asm_trace_app _ _ _ H). clear H.
  assert (HE : flat_map asm_of (map Asm E) = E).
  { induction E as [| op E IH]; [reflexivity |].
    cbn [map flat_map asm_of app]. rewrite IH. reflexivity. }
  rewrite HE. reflexivity.
Qed.

Lemma Step_5_1_spill env is_fast_native is_critical_native main_jni_conv mr_conv
      s s' :
  jni_SpillsReturnValue main_jni_conv = true ->
  Step_5_1 env is_fast_native is_critical_native main_jni_conv mr_conv s
  = (s', Ok tt) ->
  asm_trace s'
  = asm_trace s ++ [Store (jni_ReturnValueSaveLocation main_jni_conv)
                          (jni_ReturnRegister main_jni_conv)
                          (jni_SizeOfReturnValue main_jni_conv)]
  /\ frame_and_slot s'
     = (current_frame_size s, current_out_arg_size s,
        jni_ReturnValueSaveLocation main_jni_conv).
Proof.
  intros Hs H. destruct s. unfold Step_5_1, spill_return_value in H.
  rewrite Hs in H.
  run_in H; (split; [apply asm_trace_extension; trace_extension | reflexivity]).
Qed.

Lemma Step_5_4_slot env is_fast_native end_jni_conv s s' :
  Step_5_4 env is_fast_native end_jni_conv s = (s', Ok tt) ->
  let grows := current_out_arg_size s <? jni_OutFrameSize end_jni_conv in
  let diff :=
    size_t_wrap (jni_OutFrameSize end_jni_conv - current_out_arg_size s) in
  asm_trace s' = asm_trace s ++ (if grows then [IncreaseFrameSize diff] else [])
  /\ return_save_location s'
     = (if grows then size_t_wrap (return_save_location s + diff)
        else return_save_location s).
Proof.
  intros H. destruct s.
  run_in H; (split; [apply asm_trace_extension; trace_extension | reflexivity]).
Qed.

Lemma Step_5_6_reload main_jni_conv mr_conv s s' :
  jni_SpillsReturnValue main_jni_conv = true ->
  Step_5_6 main_jni_conv mr_conv s = (s', Ok tt) ->
  asm_trace s'
  = asm_trace s ++ [Load (mr_ReturnRegister mr_conv) (return_save_location s)
                         (mr_SizeOfReturnValue mr_conv)].
Proof.
  intros Hs H. destruct s. unfold Step_5_6, spill_return_value in H.
  rewrite Hs in H.
  run_in H; (apply asm_trace_extension; trace_extension).
Qed.

Lemma Step_5_4_to_5_6_reload env kPointerSize is_static is_synchronized
      is_fast_native main_jni_conv end_jni_conv mr_conv s s' :
  jni_SpillsReturnValue main_jni_conv = true ->
  Step_5_4_to_5_6 env kPointerSize is_static is_synchronized is_fast_native
                  false main_jni_conv end_jni_conv mr_conv s = (s', Ok tt) ->
  let grows := current_out_arg_size s <? jni_OutFrameSize end_jni_conv in
  let diff :=
    size_t_wrap (jni_OutFrameSize end_jni_conv - current_out_arg_size s) in
  exists between,
    asm_trace s'
    = asm_trace s ++ between
        ++ [Load (mr_ReturnRegister mr_conv)
                 (if grows then size_t_wrap (return_save_location s + diff)
                  else return_save_location s)
                 (mr_SizeOfReturnValue mr_conv)]
    /\ filter is_frame_call between
       = (if grows then [IncreaseFrameSize diff] else []).
Proof.
  intros Hs H grows diff. unfold Step_5_4_to_5_6, when in H. cbn [negb] in H.
  peel H x54 u54 X54. destruct x54. apply Step_5_4_slot in X54.
  cbv zeta in X54. fold grows diff in X54. destruct X54 as (T54 & L54).
  peel H x55 u55 X55. destruct x55.
  apply (emits_only_between return_save_location is_frame_call) in X55;
    [| emits_walk solve_event].
  destruct X55 as (L55 & E55 & T55 & F55).
  apply (Step_5_6_reload _ _ _ _ Hs) in H.
  exists ((if grows then [IncreaseFrameSize diff] else []) ++ E55).
  split.
  - rewrite H, T55, T54, L55, L54, <- !app_assoc. reflexivity.
  - rewrite filter_app, F55, app_nil_r. destruct grows; reflexivity.
Qed.

(** X15. The return value a stub spills is reloaded from the slot it was
    stored to.  When the native convention spills the return value (and the
    method is not critical native), the stub stores the return register of
    the native convention at the save location of the convention and, after
    the end-of-method call, loads the managed return register from the same
    location, moved by the number of bytes by which the frame grew in
    between: the only adjustment of the frame between the store and the load
    is the [IncreaseFrameSize] for the out-args of the end-of-method call,
    when they need more room than those of the native call. *)
Theorem spilled_return_value_reloaded
        env kPointerSize options access_flags method_idx dex_file s r :
  let main := main_conv_of env options access_flags method_idx dex_file in
  let end_conv := end_conv_of env options access_flags method_idx dex_file in
  let mr := mr_conv_of env options access_flags method_idx dex_file in
  critical_native_of env access_flags = false ->
  jni_SpillsReturnValue main = true ->
  ArtJniCompileMethodInternal env kPointerSize options access_flags method_idx
                              dex_file initial_state = (s, Ok r) ->
  let grows := jni_OutFrameSize main <? jni_OutFrameSize end_conv in
  let diff := size_t_wrap (jni_OutFrameSize end_conv - jni_OutFrameSize main) in
  let location := jni_ReturnValueSaveLocation main in
  exists before between after,
    asm_trace s
    = before
        ++ Store location (jni_ReturnRegister main) (jni_SizeOfReturnValue main)
        :: between
        ++ Load (mr_ReturnRegister mr)
                (if grows then size_t_wrap (location + diff) else location)
                (mr_SizeOfReturnValue mr)
        :: after
    /\ filter is_frame_call between
       = (if grows then [IncreaseFrameSize diff] else []).
Proof.
  intros main end_conv mr Hc Hs H grows diff location.
  apply compile_Ok in H. rewrite Hc in H. unfold EmitStub in H.
  fold main end_conv mr in H.
  do 5 (let a := fresh in let t := fresh in let X := fresh in
        peel H a t X; clear X).
  peel H x2 u2 X2. destruct x2. apply Step_2_1_run in X2.
  destruct X2 as (_ & _ & O2).
  do 7 skip_next frame_state (keep is_frame_call) H.
  peel H x51 u51 X51. destruct x51. apply (Step_5_1_spill _ _ _ _ _ _ _ Hs) in X51.
  destruct X51 as (T51 & G51).
  peel H x52 u52 X52.
  apply (emits_only_between frame_and_slot is_frame_call) in X52;
    [| emits_walk solve_event].
  destruct X52 as (G52 & E52 & T52 & F52).
  peel H x53 u53 X53.
  apply (emits_only_between frame_and_slot is_frame_call) in X53;
    [| emits_walk solve_event].
  destruct X53 as (G53 & E53 & T53 & F53).
  peel H x5 u5 X5. destruct x5.
  apply (Step_5_4_to_5_6_reload _ _ _ _ _ _ _ _ _ _ Hs) in X5. cbv zeta in X5.
  destruct X5 as (B5 & T5 & F5).
  extension_of H Y. destruct Y as [A Y].
  frame_facts.
  rewrite G52, G51 in G53. unfold frame_and_slot in G53.
  injection G53 as _ O L.
  assert (O' : current_out_arg_size u53 = jni_OutFrameSize main) by congruence.
  clear O. rename O' into O.
  rewrite O in T5, F5. rewrite L in T5. fold grows diff location in T5, F5.
  match type of T51 with
  | asm_trace _ = asm_trace ?st ++ _ =>
      exists (asm_trace st), (E52 ++ E53 ++ B5), A
  end.
  split.
  - rewrite Y, T5, T53, T52, T51, <- !app_assoc. cbn [app]. reflexivity.
  - rewrite !filter_app, F52, F53, F5. reflexivity.
Qed.

Lemma spilled_return_value_reloaded_witness :
  exists before between after,
    asm_trace (fst (Sample.compile true false 288 "IL"))
    = before ++ Store 0 10 4 :: between ++ Load 0 0 4 :: after
    /\ filter is_frame_call between = [].
Proof.
  apply (spilled_return_value_reloaded
           (Sample.environment true false) k64 Sample.options 288 0
           (Sample.dex "IL") (fst (Sample.compile true false 288 "IL"))
           (returned no_method (Sample.compile true false 288 "IL"))).
  - reflexivity.
  - reflexivity.
  - vm_compute. reflexivity.
Defined.

(** ** The references the stub converts itself *)

Lemma Step_2_3_conversion env kPointerSize is_static is_synchronized
      is_fast_native is_critical_native main_jni_conv end_jni_conv mr_conv
      s s' l :
  Step_2_3 env kPointerSize is_static is_synchronized is_fast_native
           is_critical_native main_jni_conv end_jni_conv mr_conv s = (s', Ok l) ->
  flat_map conversion_or_call (asm_trace s')
  = flat_map conversion_or_call (asm_trace s)
      ++ (if negb is_critical_native && negb is_fast_native
          then (if is_synchronized && negb is_static
                then [ConvertsReference
                        (mr_ParamStackOffset mr_conv (current_frame_size s) 0)
                        false]
                else [])
                 ++ [CallsRuntime
                       (GetJniEntrypointThreadOffset
                          kPointerSize kStart
                          (jni_IsReturnAReference main_jni_conv)
                          is_synchronized)]
          else [])
  /\ frame_state s' = frame_state s.
Proof.
  intros H. destruct s. unfold GetJniEntrypointThreadOffset in *.
  run_in H; (split; [explicit_extension | reflexivity]).
Qed.

Lemma Step_4_3_conversion env instruction_set is_critical_native main_jni_conv
      s s' :
  Step_4_3 env instruction_set is_critical_native main_jni_conv s
  = (s', Ok tt) ->
  flat_map conversion_or_call (asm_trace s')
  = flat_map conversion_or_call (asm_trace s) ++ [CallsNative]
  /\ frame_state s' = frame_state s.
Proof.
  intros H. destruct s.
  run_in H; (split; [explicit_extension | reflexivity]).
Qed.

Lemma Step_5_5_conversion env kPointerSize is_static is_synchronized
      is_fast_native main_jni_conv end_jni_conv mr_conv s s' :
  Step_5_5 env kPointerSize is_static is_synchronized is_fast_native
           main_jni_conv end_jni_conv mr_conv s = (s', Ok tt) ->
  flat_map conversion_or_call (asm_trace s')
  = flat_map conversion_or_call (asm_trace s)
      ++ (if negb is_fast_native || jni_IsReturnAReference main_jni_conv
          then (if is_synchronized && negb is_static
                then [ConvertsReference
                        (mr_ParamStackOffset mr_conv (current_frame_size s) 0)
                        false]
                else [])
                 ++ [CallsRuntime (jni_end kPointerSize is_synchronized
                                           is_fast_native main_jni_conv)]
          else [])
  /\ frame_state s' = frame_state s.
Proof.
  intros H. destruct s. unfold jni_end, GetJniEntrypointThreadOffset in *.
  run_in H; (split; [explicit_extension | reflexivity]).
Qed.

Lemma Step_5_4_to_5_6_conversion env kPointerSize is_static is_synchronized
      is_fast_native is_critical_native main_jni_conv end_jni_conv mr_conv s s' :
  Step_5_4_to_5_6 env kPointerSize is_static is_synchronized is_fast_native
                  is_critical_native main_jni_conv end_jni_conv mr_conv s
  = (s', Ok tt) ->
  let grows := current_out_arg_size s <? jni_OutFrameSize end_jni_conv in
  let diff :=
    size_t_wrap (jni_OutFrameSize end_jni_conv - current_out_arg_size s) in
  let frame_size := if grows then size_t_wrap (current_frame_size s + diff)
                    else current_frame_size s in
  flat_map conversion_or_call (asm_trace s')
  = flat_map conversion_or_call (asm_trace s)
      ++ (if negb is_critical_native
             && (negb is_fast_native || jni_IsReturnAReference main_jni_conv)
          then (if is_synchronized && negb is_static
                then [ConvertsReference
                        (mr_ParamStackOffset mr_conv frame_size 0) false]
                else [])
                 ++ [CallsRuntime (jni_end kPointerSize is_synchronized
                                           is_fast_native main_jni_conv)]
          else []).
Proof.
  intros H grows diff frame_size.
  unfold Step_5_4_to_5_6, when in H.
  destruct is_critical_native; cbn [negb andb] in *.
  - apply Ok_state in H. subst. symmetry. apply app_nil_r.
  - peel H x54 u54 X54. destruct x54. apply Step_5_4_run in X54.
    cbv zeta in X54. fold grows diff in X54. destruct X54 as (T54 & F54 & _).
    fold frame_size in F54.
    eapply (select_extension conversion_or_call) in T54;
      [| destruct grows; reflexivity].
    peel H x55 u55 X55. destruct x55. apply Step_5_5_conversion in X55.
    destruct X55 as (X55 & _).
    skip_last no_state conversion_or_call H.
    chain_back. rewrite F54, app_nil_r. reflexivity.
Qed.

(** X16. The only reference a stub converts itself is [this], for the
    monitor of a synchronized instance method: once right before the
    [JniMethodStart] call of a normal native stub, which is made before the
    native code is called, and once right before the end-of-method call,
    which is made after it, each time from the managed stack slot of the
    first argument in the frame as it is then, and never as a reference
    that may be null.  The stub of a static, of an unsynchronized or of a
    critical native method has no [CreateJObject]: all other references are
    left to [MoveArguments]. *)
Theorem references_converted_by_the_stub
        env kPointerSize options access_flags method_idx dex_file s r :
  ArtJniCompileMethodInternal env kPointerSize options access_flags method_idx
                              dex_file initial_state = (s, Ok r) ->
  let main := main_conv_of env options access_flags method_idx dex_file in
  let end_conv := end_conv_of env options access_flags method_idx dex_file in
  let mr := mr_conv_of env options access_flags method_idx dex_file in
  let is_static := static_of env access_flags in
  let is_synchronized := synchronized_of env access_flags in
  let is_fast_native := fast_native_of env access_flags in
  let is_critical_native := critical_native_of env access_flags in
  let this_converted frame_size :=
    if is_synchronized && negb is_static
    then [ConvertsReference (mr_ParamStackOffset mr frame_size 0) false]
    else [] in
  flat_map conversion_or_call (asm_trace s)
  = (if negb is_critical_native && negb is_fast_native
     then this_converted (frame_size_2 is_critical_native main)
            ++ [CallsRuntime
                  (GetJniEntrypointThreadOffset
                     kPointerSize kStart (jni_IsReturnAReference main)
                     is_synchronized)]
     else [])
      ++ [CallsNative]
      ++ (if negb is_critical_native
             && (negb is_fast_native || jni_IsReturnAReference main)
          then this_converted (frame_size_5 is_critical_native main end_conv)
                 ++ [CallsRuntime (jni_end kPointerSize is_synchronized
                                           is_fast_native main)]
          else []).
Proof.
  intros H main end_conv mr is_static is_synchronized is_fast_native
         is_critical_native this_converted.
  apply compile_Ok in H. unfold EmitStub in H.
  fold main end_conv mr is_static is_synchronized is_fast_native
       is_critical_native in H.
  do 2 skip_next frame_state conversion_or_call H.
  peel H x1 u1 X1. destruct x1. apply Step_1_1_run in X1. cbv zeta in X1.
  destruct X1 as (T1 & F1 & _ & O1).
  eapply (select_extension conversion_or_call) in T1; [| reflexivity].
  do 2 skip_next frame_state conversion_or_call H.
  peel H x2 u2 X2. destruct x2. apply Step_2_1_run in X2.
  destruct X2 as (T2 & F2 & O2).
  eapply (select_extension conversion_or_call) in T2;
    [| destruct is_critical_native; reflexivity].
  skip_next frame_state conversion_or_call H.
  peel H x23 u23 X23. apply Step_2_3_conversion in X23.
  destruct X23 as (X23 & G23).
  do 3 skip_next frame_state conversion_or_call H.
  peel H x43 u43 X43. destruct x43. apply Step_4_3_conversion in X43.
  destruct X43 as (X43 & G43).
  do 4 skip_next frame_state conversion_or_call H.
  peel H x5 u5 X5. destruct x5. apply Step_5_4_to_5_6_conversion in X5.
  cbv zeta in X5.
  skip_last no_state conversion_or_call H.
  frame_facts. chain_back. rewrite_frame_sizes.
  change (asm_trace initial_state) with (@nil AsmOp).
  unfold this_converted, frame_size_5, out_arg_size_diff, end_needs_more,
    frame_size_2, frame_size_1.
  cbn [flat_map app]. rewrite ?app_nil_r.
  clearbody is_critical_native is_static is_synchronized is_fast_native
            main end_conv mr.
  destruct is_critical_native; cbn [negb andb];
    [rewrite ?app_nil_r; reflexivity |].
  destruct (jni_OutFrameSize main <? jni_OutFrameSize end_conv);
    rewrite <- ?app_assoc; reflexivity.
Qed.

Lemma references_converted_by_the_stub_witness :
  flat_map conversion_or_call
           (asm_trace (fst (Sample.compile true false 288 "ILIIII")))
  = [ConvertsReference 128 false;
     CallsRuntime (QUICK_ENTRYPOINT_OFFSET k64 pJniMethodStartSynchronized);
     CallsNative;
     ConvertsReference 128 false;
     CallsRuntime (QUICK_ENTRYPOINT_OFFSET k64 pJniMethodEndSynchronized)].
Proof.
  apply (references_converted_by_the_stub
           (Sample.environment true false) k64 Sample.options 288 0
           (Sample.dex "ILIIII") _
           (returned no_method (Sample.compile true false 288 "ILIIII"))).
  vm_compute. reflexivity.
Defined.

(** ** The arguments of the native call (4.1) *)

Arguments Step_4_1_entry : simpl never.

(** One round of the loop of 4.1. *)
Lemma Step_4_1_body_run env kPointerSize is_fast_native is_critical_native
      main_jni_conv end_jni_conv mr_conv s s' :
  Step_4_1_body env kPointerSize is_fast_native is_critical_native main_jni_conv
                end_jni_conv mr_conv s = (s', Ok tt) ->
  let entry := Step_4_1_entry env kPointerSize is_fast_native is_critical_native
                              main_jni_conv mr_conv
                              (mr_displacement s) (main_displacement s)
                              (mr_itr s) (main_itr s) in
  s' = set_arg_vectors (src_args s ++ map entry_src entry)
                       (dest_args s ++ map entry_dest entry)
                       (refs s ++ map entry_ref entry) s.
Proof.
  intros H. destruct s. unfold Step_4_1_entry.
  run_in H; cbn in *;
    repeat match goal with
           | E : _ = _ |- _ => rewrite E
           end; cbn; rewrite ?app_nil_r; reflexivity.
Qed.

(** The loop of 4.1 over the [n] parameters that remain; nothing is
    emitted. *)
Lemma Step_4_1_loop env kPointerSize is_fast_native is_critical_native
      main_jni_conv end_jni_conv mr_conv n :
  forall s s',
    for_each_remaining n (Step_4_1_body env kPointerSize is_fast_native
                                        is_critical_native main_jni_conv
                                        end_jni_conv mr_conv) s
    = (s', Ok tt) ->
    let entries :=
      flat_map (fun k => Step_4_1_entry env kPointerSize is_fast_native
                                        is_critical_native main_jni_conv mr_conv
                                        (mr_displacement s) (main_displacement s)
                                        (mr_itr s + k) (main_itr s + k))
               (seq 0 n) in
    s' = set_main_iterator
           (main_itr s + n) (main_displacement s)
           (set_mr_iterator
              (mr_itr s + n) (mr_displacement s)
              (set_arg_vectors
                 (src_args s ++ map entry_src entries)
                 (dest_args s ++ map entry_dest entries)
                 (refs s ++ map entry_ref entries)
                 s)).
Proof.
  induction n as [| n IH]; intros s s' H entries.
  - inversion H; subst.
    apply State_eq; cbn; rewrite ?Nat.add_0_r, ?app_nil_r; reflexivity.
  - destruct s. cbn [for_each_remaining] in H.
    peel H x1 t1 X1. destruct x1. apply Step_4_1_body_run in X1.
    cbn in X1. subst t1.
    peel H x2 t2 X2. cbv [mr_Next update] in X2. cbn in X2.
    apply Ok_state in X2. subst t2.
    peel H x3 t3 X3. cbv [Next update] in X3. cbn in X3.
    apply Ok_state in X3. subst t3.
    apply IH in H. subst s' entries.
    apply State_eq; cbn; try reflexivity;
      rewrite <- ?plus_n_Sm; try reflexivity;
      rewrite <- !seq_shift, !flat_map_concat_map, !map_map,
        <- !flat_map_concat_map, !Nat.add_0_r, !map_app, <- !app_assoc;
      do 2 f_equal; f_equal; apply flat_map_ext; intros k;
      rewrite <- !plus_n_Sm; reflexivity.
Qed.

Lemma DCHECK_Ok env line cond s s' a :
  DCHECK env line cond s = (s', Ok a) -> s' = s.
Proof.
  unfold DCHECK. destruct (kIsDebugBuild env), cond; intros H;
    first [ exact (Ok_state _ _ _ _ H) | exfalso; exact (Fatal_not_Ok _ _ _ _ H) ].
Qed.

(** 4.1 ends in the one [MoveArguments] it emits, whose vectors are the
    entry of the method, of [jclass] or of [this], followed by the entries
    of the managed arguments after it. *)
Lemma Step_4_1_arguments env kPointerSize is_static is_fast_native
      is_critical_native main_jni_conv end_jni_conv mr_conv callee_save_temp
      s s' :
  Step_4_1 env kPointerSize is_static is_fast_native is_critical_native
           main_jni_conv end_jni_conv mr_conv callee_save_temp s = (s', Ok tt) ->
  let first := if is_critical_native || is_static then 0%nat else 1%nat in
  let skipped := if is_critical_native then 0%nat else 2%nat in
  let entries :=
    flat_map (fun k => Step_4_1_entry env kPointerSize is_fast_native
                                      is_critical_native main_jni_conv mr_conv
                                      (current_frame_size s)
                                      (jni_OutFrameSize main_jni_conv)
                                      (first + k) (skipped + k))
             (seq 0 (mr_NumArgs mr_conv - first)) in
  exists dests srcs refs,
    flat_map (keep is_MoveArguments) (asm_trace s')
    = flat_map (keep is_MoveArguments) (asm_trace s)
        ++ [MoveArguments dests srcs refs]
    /\ skipn 1 srcs = map entry_src entries
    /\ skipn 1 dests = map entry_dest entries
    /\ skipn 1 refs = map entry_ref entries
    /\ (is_critical_native = true ->
        firstn 1 srcs
        = [ArgInRegister (mr_MethodRegister mr_conv) (kRawPointerSize kPointerSize)]
        /\ firstn 1 dests
           = [ArgInRegister (jni_HiddenArgumentRegister main_jni_conv)
                            (kRawPointerSize kPointerSize)]
        /\ firstn 1 refs = [kInvalidReferenceOffset env]).
Proof.
  intros H first skipped entries. unfold Step_4_1 in H.
  steps_in H.
  peel H x5 t5 X5.
  assert (F : exists a0 d0 r0,
             src_args t5 = [a0] /\ dest_args t5 = [d0] /\ refs t5 = [r0]
             /\ mr_itr t5 = first /\ main_itr t5 = skipped
             /\ mr_displacement t5 = current_frame_size s
             /\ main_displacement t5 = jni_OutFrameSize main_jni_conv
             /\ flat_map (keep is_MoveArguments) (asm_trace t5)
                = flat_map (keep is_MoveArguments) (asm_trace s)
             /\ (is_critical_native = true ->
                 a0 = ArgInRegister (mr_MethodRegister mr_conv)
                                    (kRawPointerSize kPointerSize)
                 /\ d0 = ArgInRegister (jni_HiddenArgumentRegister main_jni_conv)
                                       (kRawPointerSize kPointerSize)
                 /\ r0 = kInvalidReferenceOffset env)).
  { subst first skipped. clear H entries.
    run_in X5;
      (do 3 eexists;
       repeat (split;
               [ first [ reflexivity
                       | rewrite <- (app_nil_r (flat_map _ (asm_trace s)));
                         explicit_extension ] |]);
       first [ reflexivity | intros Hc; discriminate Hc ]). }
  destruct F as (a0 & d0 & r0 & Fa & Fd & Fr & Fi & Fj & Fm & Fo & Ft & Fc).
  peel H n u X. apply gets_Ok in X. destruct X as [-> ->].
  peel H x7 t7 X7. destruct x7. apply Step_4_1_loop in X7. cbv zeta in X7.
  rewrite Fa, Fd, Fr, Fi, Fj, Fm, Fo in X7.
  peel H hn u8 X8. apply gets_Ok in X8. destruct X8 as [-> ->].
  peel H x9 u9 X9. apply DCHECK_Ok in X9. subst u9.
  unfold emit_MoveArguments in H.
  peel H dd ud Xd. apply gets_Ok in Xd. destruct Xd as [-> ->].
  peel H aa ua Xa. apply gets_Ok in Xa. destruct Xa as [-> ->].
  peel H rr ur Xr. apply gets_Ok in Xr. destruct Xr as [-> ->].
  apply emit_Ok in H. destruct H as [-> _].
  do 3 eexists. rewrite select_record_event.
  split; [| split; [| split; [| split]]].
  - f_equal; [subst t7; exact Ft | reflexivity].
  - subst t7. reflexivity.
  - subst t7. reflexivity.
  - subst t7. reflexivity.
  - intros Hc. destruct (Fc Hc) as (-> & -> & ->). subst t7.
    repeat split.
Qed.

(** 2.2 emits one [MoveArguments] for a normal native method and none
    otherwise, and leaves the frame alone. *)
Lemma Step_2_2_moves env kPointerSize is_static is_fast_native is_critical_native
      main_jni_conv end_jni_conv mr_conv s s' :
  Step_2_2 env kPointerSize is_static is_fast_native is_critical_native
           main_jni_conv end_jni_conv mr_conv s = (s', Ok tt) ->
  exists spill,
    flat_map (keep is_MoveArguments) (asm_trace s')
    = flat_map (keep is_MoveArguments) (asm_trace s) ++ spill
    /\ List.length spill
       = (if negb is_critical_native && negb is_fast_native then 1%nat else 0%nat)
    /\ frame_state s' = frame_state s.
Proof.
  intros H.
  assert (G : frame_state s' = frame_state s).
  { assert (Hm : emits_only frame_state any_event
                            (Step_2_2 env kPointerSize is_static is_fast_native
                                      is_critical_native main_jni_conv
                                      end_jni_conv mr_conv))
      by (emits_walk ltac:(exact I)).
    destruct (Hm _ _ _ H) as [Hg _]. exact Hg. }
  destruct is_critical_native, is_fast_native; cbn [negb andb];
    try (apply (emits_only_select no_state (keep is_MoveArguments)) in H;
         [ destruct H as [H _]; exists []; rewrite app_nil_r; auto
         | solve [emits_walk solve_event] ]).
  apply Step_2_2_run in H. cbv zeta in H.
  destruct H as (d & a & r & H & _). eauto.
Qed.

(** 4.1 ends in the one [MoveArguments] it emits, whose vectors are the
    entry of the method, of [jclass] or of [this], followed by the entries
    of the managed arguments after it. *)
Lemma Step_4_1_vectors env kPointerSize is_static is_fast_native
      is_critical_native main_jni_conv end_jni_conv mr_conv callee_save_temp
      s s' :
  Step_4_1 env kPointerSize is_static is_fast_native is_critical_native
           main_jni_conv end_jni_conv mr_conv callee_save_temp s = (s', Ok tt) ->
  let first := if is_critical_native || is_static then 0%nat else 1%nat in
  let skipped := if is_critical_native then 0%nat else 2%nat in
  let entries :=
    Step_4_1_first_entry env kPointerSize is_static is_fast_native
                         is_critical_native main_jni_conv mr_conv
                         callee_save_temp (method_register s)
                         (current_frame_size s) (current_out_arg_size s)
    :: flat_map (fun k => Step_4_1_entry env kPointerSize is_fast_native
                                         is_critical_native main_jni_conv
                                         mr_conv (current_frame_size s)
                                         (jni_OutFrameSize main_jni_conv)
                                         (first + k) (skipped + k))
                (seq 0 (mr_NumArgs mr_conv - first)) in
  flat_map (keep is_MoveArguments) (asm_trace s')
  = flat_map (keep is_MoveArguments) (asm_trace s)
      ++ [MoveArguments (map entry_dest entries) (map entry_src entries)
                        (map entry_ref entries)].
Proof.
  intros H first skipped entries. unfold Step_4_1 in H.
  steps_in H.
  peel H x5 t5 X5.
  set (fe := Step_4_1_first_entry env kPointerSize is_static is_fast_native
                                  is_critical_native main_jni_conv mr_conv
                                  callee_save_temp (method_register s)
                                  (current_frame_size s)
                                  (current_out_arg_size s)) in *.
  assert (F : src_args t5 = [entry_src fe] /\ dest_args t5 = [entry_dest fe]
              /\ refs t5 = [entry_ref fe]
              /\ mr_itr t5 = first /\ main_itr t5 = skipped
              /\ mr_displacement t5 = current_frame_size s
              /\ main_displacement t5 = jni_OutFrameSize main_jni_conv
              /\ flat_map (keep is_MoveArguments) (asm_trace t5)
                 = flat_map (keep is_MoveArguments) (asm_trace s)).
  { subst first skipped fe. clear H entries.
    unfold Step_4_1_first_entry, entry_src, entry_dest, entry_ref.
    run_in X5; try discriminate;
      repeat (split;
              [ first [ reflexivity
                      | rewrite <- (app_nil_r (flat_map _ (asm_trace s)));
                        explicit_extension ] |]);
      first [ reflexivity
            | rewrite <- (app_nil_r (flat_map _ (asm_trace s)));
              explicit_extension ]. }
  destruct F as (Fa & Fd & Fr & Fi & Fj & Fm & Fo & Ft).
  peel H n u X. apply gets_Ok in X. destruct X as [-> ->].
  peel H x7 t7 X7. destruct x7. apply Step_4_1_loop in X7. cbv zeta in X7.
  rewrite Fa, Fd, Fr, Fi, Fj, Fm, Fo in X7.
  peel H hn u8 X8. apply gets_Ok in X8. destruct X8 as [-> ->].
  peel H x9 u9 X9. apply DCHECK_Ok in X9. subst u9.
  unfold emit_MoveArguments in H.
  peel H dd ud Xd. apply gets_Ok in Xd. destruct Xd as [-> ->].
  peel H aa ua Xa. apply gets_Ok in Xa. destruct Xa as [-> ->].
  peel H rr ur Xr. apply gets_Ok in Xr. destruct Xr as [-> ->].
  apply emit_Ok in H. destruct H as [-> _].
  rewrite select_record_event. subst t7 entries.
  apply f_equal2; [exact Ft | reflexivity].
Qed.

(** 2.3 empties [method_register] for a normal native method and leaves
    it alone otherwise. *)
Lemma Step_2_3_method_register env kPointerSize is_static is_synchronized
      is_fast_native is_critical_native main_jni_conv end_jni_conv mr_conv
      s s' l :
  Step_2_3 env kPointerSize is_static is_synchronized is_fast_native
           is_critical_native main_jni_conv end_jni_conv mr_conv s = (s', Ok l) ->
  method_register s'
  = (if negb is_critical_native && negb is_fast_native then NoRegister
     else method_register s).
Proof.
  intros H. destruct s. unfold GetJniEntrypointThreadOffset in H.
  run_in H; reflexivity.
Qed.

(** [X : m s = (s', r)] where [m] leaves [method_register] alone. *)
Ltac method_register_kept X :=
  apply (emits_only_select method_register (fun _ : AsmOp => @nil AsmOp)) in X;
  [ destruct X as [_ X] | solve [emits_walk solve_event] ].

Ltac frame_and_method_facts :=
  repeat match goal with
         | G : frame_and_method _ = frame_and_method _ |- _ =>
             unfold frame_and_method in G; injection G as ? ? ?
         end.

Ltac rewrite_method_register :=
  repeat match goal with
         | E : method_register ?t = _ |- _ => rewrite E in *; clear E
         end.

(** X17. The arguments of the native call.  The last [MoveArguments] of a
    stub (the only one, unless the method is normal native and its
    arguments were spilled before) has first the entry of the method
    (critical native: from the managed method register to the hidden
    argument register), of [jclass] (another static method: the method, from
    the register that holds it or from its stack slot, to the second native
    parameter) or of [this] (an instance method: from its managed register
    or stack slot to the second native parameter, as a reference), and then
    the entries of the managed arguments after it, in order: a fast or
    critical native stub moves each of them from its managed register or
    stack slot, a normal native stub reloads from the managed stack slots
    those whose native parameter is a register and has no entry for the
    others, which are on the native stack already; a reference is given the
    size of a raw pointer and its managed stack slot as reference offset. *)
Theorem native_call_arguments
        env kPointerSize options access_flags method_idx dex_file s r :
  ArtJniCompileMethodInternal env kPointerSize options access_flags method_idx
                              dex_file initial_state = (s, Ok r) ->
  let main := main_conv_of env options access_flags method_idx dex_file in
  let mr := mr_conv_of env options access_flags method_idx dex_file in
  let is_static := static_of env access_flags in
  let is_fast_native := fast_native_of env access_flags in
  let is_critical_native := critical_native_of env access_flags in
  let first := if is_critical_native || is_static then 0%nat else 1%nat in
  let skipped := if is_critical_native then 0%nat else 2%nat in
  let callee_save_temp :=
    CoreRegisterWithSize
      env (nth 2 (jni_CalleeSaveScratchRegisters main) NoRegister)
      (kIRTCookieSize env) in
  let method_register :=
    if is_fast_native then mr_MethodRegister mr else NoRegister in
  let entries :=
    Step_4_1_first_entry env kPointerSize is_static is_fast_native
                         is_critical_native main mr callee_save_temp
                         method_register
                         (frame_size_2 is_critical_native main)
                         (jni_OutFrameSize main)
    :: flat_map (fun k => Step_4_1_entry env kPointerSize is_fast_native
                                         is_critical_native main mr
                                         (frame_size_2 is_critical_native main)
                                         (jni_OutFrameSize main)
                                         (first + k) (skipped + k))
                (seq 0 (mr_NumArgs mr - first)) in
  exists spill,
    filter is_MoveArguments (asm_trace s)
    = spill ++ [MoveArguments (map entry_dest entries) (map entry_src entries)
                              (map entry_ref entries)]
    /\ List.length spill
       = (if negb is_critical_native && negb is_fast_native then 1%nat
          else 0%nat).
Proof.
  intros H main mr is_static is_fast_native is_critical_native first skipped
         callee_save_temp method_reg entries.
  apply compile_Ok in H. unfold EmitStub in H.
  fold main mr is_static is_fast_native is_critical_native in H.
  do 2 skip_next frame_and_method (keep is_MoveArguments) H.
  peel H x1 u1 X1. destruct x1. apply Step_1_1_run in X1. cbv zeta in X1.
  destruct X1 as (T1 & F1 & M1 & O1).
  eapply (select_extension (keep is_MoveArguments)) in T1; [| reflexivity].
  do 2 skip_next frame_and_method (keep is_MoveArguments) H.
  peel H x2 u2 X2. destruct x2. pose proof X2 as M2.
  method_register_kept M2. apply Step_2_1_run in X2.
  destruct X2 as (T2 & F2 & O2).
  eapply (select_extension (keep is_MoveArguments)) in T2;
    [| destruct is_critical_native; reflexivity].
  peel H x22 u22 X22. destruct x22. pose proof X22 as M22.
  method_register_kept M22. apply Step_2_2_moves in X22.
  destruct X22 as (spill & T22 & L22 & G22).
  peel H x23 u23 X23. pose proof X23 as M23.
  apply Step_2_3_method_register in M23.
  apply (emits_only_select frame_state (keep is_MoveArguments)) in X23;
    [destruct X23 as [T23 G23] | solve [emits_walk solve_event]].
  peel H regs u3 X3. pose proof X3 as R3.
  apply Step_3_local_reference in R3. cbv zeta in R3. destruct R3 as [R3 _].
  apply (emits_only_select frame_and_method (keep is_MoveArguments)) in X3;
    [destruct X3 as [T3 G3] | solve [emits_walk solve_event]].
  peel H x41 u41 X41. destruct x41. apply Step_4_1_vectors in X41.
  cbv zeta in X41.
  skip_last no_state (keep is_MoveArguments) H.
  frame_facts. frame_and_method_facts.
  exists spill. split; [| exact L22].
  rewrite filter_keep. chain_back.
  change (asm_trace initial_state) with (@nil AsmOp). cbn [flat_map app].
  rewrite ?app_nil_r. do 2 f_equal.
  rewrite_frame_sizes. rewrite_method_register. subst regs.
  subst entries first skipped callee_save_temp method_reg.
  unfold frame_size_2, frame_size_1, Step_4_1_first_entry.
  clearbody is_critical_native is_fast_native is_static main mr.
  destruct is_critical_native, is_fast_native; reflexivity.
Qed.

Lemma native_call_arguments_witness :
  exists spill,
    filter is_MoveArguments
           (asm_trace (fst (Sample.compile true false 256 "VIJL")))
    = spill
        ++ [MoveArguments
              [ArgInRegister 11 8; ArgInRegister 12 4; ArgInRegister 13 8]
              [ArgOnStack 112 4; ArgOnStack 116 4; ArgOnStack 120 8]
              [112; 0; 0]]
    /\ List.length spill = 1%nat.
Proof.
  apply (native_call_arguments
           (Sample.environment true false) k64 Sample.options 256 0
           (Sample.dex "VIJL") (fst (Sample.compile true false 256 "VIJL"))
           (returned no_method (Sample.compile true false 256 "VIJL"))).
  vm_compute. reflexivity.
Defined.

(** For a normal native method, the argument that 4.1 reloads for a native
    register is read from the slot where 2.2 spilled it. *)
Lemma reload_reads_spill env kPointerSize main_jni_conv mr_conv frame_size first n
      default L :
  (forall k, In k L -> (k < n)%nat) ->
  map entry_src
      (flat_map (fun k => Step_4_1_entry env kPointerSize false false
                                         main_jni_conv mr_conv frame_size
                                         (jni_OutFrameSize main_jni_conv)
                                         (first + k) (2 + k)) L)
  = map (fun k =>
           nth k
               (map (fun k => snd (fst (Step_2_2_entry
                                          env kPointerSize main_jni_conv mr_conv
                                          frame_size
                                          (jni_OutFrameSize main_jni_conv)
                                          (first + k) (2 + k))))
                    (seq 0 n))
               default)
        (filter (fun k => jni_IsParamInRegister main_jni_conv (2 + k)) L).
Proof.
  induction L as [| k L IH]; intros HL; [reflexivity |].
  cbn [flat_map filter]. rewrite map_app, IH by (intros; apply HL; right; assumption).
  assert (Hk : (k < n)%nat) by (apply HL; left; reflexivity).
  unfold Step_4_1_entry at 1. cbn [negb andb orb].
  destruct (jni_IsParamInRegister main_jni_conv (2 + k)) eqn:Hreg;
    cbn [negb map app]; [| reflexivity].
  f_equal.
  set (f := fun k => snd (fst (Step_2_2_entry env kPointerSize main_jni_conv
                                              mr_conv frame_size
                                              (jni_OutFrameSize main_jni_conv)
                                              (first + k) (2 + k)))).
  rewrite (nth_indep _ default (f 0%nat))
    by (rewrite length_map, length_seq; exact Hk).
  rewrite map_nth, seq_nth by exact Hk. subst f. cbv beta.
  change (0 + k)%nat with k.
  unfold Step_2_2_entry, entry_src. cbn [fst snd]. rewrite Hreg.
  cbn [negb andb]. rewrite andb_false_r. reflexivity.
Qed.

(** X18. A normal native stub spills its arguments before the
    [JniMethodStart] call and moves them for the native call afterwards, with
    two [MoveArguments].  After the entry of [jclass] or [this], the second
    one has one entry for each managed argument whose native parameter is a
    register, in order, and the source of that entry is exactly the
    destination the first [MoveArguments] was given for the same argument:
    the argument is reloaded from the slot it was spilled to. *)
Theorem arguments_reloaded_from_their_spill_slots
        env kPointerSize options access_flags method_idx dex_file s r :
  critical_native_of env access_flags = false ->
  fast_native_of env access_flags = false ->
  ArtJniCompileMethodInternal env kPointerSize options access_flags method_idx
                              dex_file initial_state = (s, Ok r) ->
  let main := main_conv_of env options access_flags method_idx dex_file in
  let mr := mr_conv_of env options access_flags method_idx dex_file in
  let first := if static_of env access_flags then 0%nat else 1%nat in
  let reloaded :=
    filter (fun k => jni_IsParamInRegister main (2 + k))
           (seq 0 (mr_NumArgs mr - first)) in
  exists spill_dests spill_srcs spill_refs dests srcs refs,
    filter is_MoveArguments (asm_trace s)
    = [MoveArguments spill_dests spill_srcs spill_refs;
       MoveArguments dests srcs refs]
    /\ forall default,
        skipn 1 srcs
        = map (fun k => nth k (skipn 1 spill_dests) default) reloaded.
Proof.
  intros Hc Hf H main mr first reloaded.
  apply compile_Ok in H. rewrite Hc, Hf in H. unfold EmitStub in H.
  fold main mr in H.
  do 2 skip_next frame_state (keep is_MoveArguments) H.
  peel H x1 u1 X1. destruct x1. apply Step_1_1_run in X1. cbv zeta in X1.
  destruct X1 as (T1 & F1 & _ & O1).
  eapply (select_extension (keep is_MoveArguments)) in T1; [| reflexivity].
  do 2 skip_next frame_state (keep is_MoveArguments) H.
  peel H x2 u2 X2. destruct x2. apply Step_2_1_run in X2.
  destruct X2 as (T2 & F2 & O2).
  eapply (select_extension (keep is_MoveArguments)) in T2; [| reflexivity].
  peel H x22 u22 X22. destruct x22. pose proof X22 as Y22.
  apply Step_2_2_moves in Y22. destruct Y22 as (_ & _ & _ & G22).
  apply Step_2_2_run in X22. cbv zeta in X22.
  destruct X22 as (sd & ss & sr & T22 & _ & Hd1 & _).
  do 2 skip_next frame_state (keep is_MoveArguments) H.
  peel H x41 u41 X41. destruct x41. apply Step_4_1_arguments in X41.
  cbv zeta in X41. cbn [orb] in X41.
  destruct X41 as (md & ms & mf & T41 & Hs2 & _).
  skip_last no_state (keep is_MoveArguments) H.
  frame_facts.
  exists sd, ss, sr, md, ms, mf. split.
  - rewrite filter_keep. chain_back.
    change (asm_trace initial_state) with (@nil AsmOp). reflexivity.
  - intros default. rewrite Hs2, Hd1.
    match goal with
    | |- context [Step_4_1_entry _ _ _ _ _ _ (current_frame_size ?a)] =>
        match goal with
        | |- context [Step_2_2_entry _ _ _ _ (current_frame_size ?b)] =>
            replace (current_frame_size a) with (current_frame_size b)
              by congruence
        end
    end.
    apply reload_reads_spill.
    intros k Hk. apply in_seq in Hk. apply Hk.
Qed.

Lemma arguments_reloaded_from_their_spill_slots_witness :
  exists spill_dests spill_srcs spill_refs dests srcs refs,
    filter is_MoveArguments
           (asm_trace (fst (Sample.compile true false 256 "VILII")))
    = [MoveArguments spill_dests spill_srcs spill_refs;
       MoveArguments dests srcs refs]
    /\ forall default,
        skipn 1 srcs
        = map (fun k => nth k (skipn 1 spill_dests) default) [0%nat; 1%nat].
Proof.
  apply (arguments_reloaded_from_their_spill_slots
           (Sample.environment true false) k64 Sample.options 256 0
           (Sample.dex "VILII") (fst (Sample.compile true false 256 "VILII"))
           (returned no_method (Sample.compile true false 256 "VILII"))).
  - reflexivity.
  - reflexivity.
  - vm_compute. reflexivity.
Defined.

(** ** Around the native call *)

Lemma Step_4_1_last env kPointerSize is_static is_fast_native is_critical_native
      main_jni_conv end_jni_conv mr_conv callee_save_temp s s' :
  Step_4_1 env kPointerSize is_static is_fast_native is_critical_native
           main_jni_conv end_jni_conv mr_conv callee_save_temp s = (s', Ok tt) ->
  exists before dests srcs refs,
    asm_trace s' = before ++ [MoveArguments dests srcs refs].
Proof.
  intros H. unfold Step_4_1 in H.
  do 9 (let a := fresh in let t := fresh in let X := fresh in
        peel H a t X; clear X).
  unfold emit_MoveArguments in H. steps_in H. last_in H.
  do 4 eexists. apply asm_trace_extension. apply trace_record_event.
Qed.

Lemma Step_4_2_run kPointerSize is_critical_native main_jni_conv end_jni_conv
      jni_env_reg s s' :
  Step_4_2 kPointerSize is_critical_native main_jni_conv end_jni_conv
           jni_env_reg s = (s', Ok tt) ->
  asm_trace s'
  = asm_trace s
      ++ (if is_critical_native then []
          else [if jni_IsParamInRegister main_jni_conv 0
                then Move (jni_ParamRegister main_jni_conv 0) jni_env_reg
                          (kRawPointerSize kPointerSize)
                else Store (jni_ParamStackOffset
                              main_jni_conv (jni_OutFrameSize main_jni_conv) 0)
                           jni_env_reg (kRawPointerSize kPointerSize)]).
Proof.
  intros H. destruct s.
  run_in H; (apply asm_trace_extension; trace_extension).
Qed.

Lemma Step_4_3_entry env instruction_set is_critical_native main_jni_conv s s' :
  Step_4_3 env instruction_set is_critical_native main_jni_conv s = (s', Ok tt) ->
  exists op, asm_trace s' = asm_trace s ++ [op] /\ is_native_entry op = true.
Proof.
  intros H. destruct s. unfold jni_entrypoint_offset in H.
  run_in H;
    (eexists; split;
     [ unfold asm_trace, trace; cbn; rewrite !flat_map_app; cbn;
       rewrite <- ?app_assoc; reflexivity
     | reflexivity ]).
Qed.

Lemma Step_4_4_trace env is_critical_native main_jni_conv s s' :
  Step_4_4 env is_critical_native main_jni_conv s = (s', Ok tt) ->
  asm_trace s' = asm_trace s ++ result_extension env main_jni_conv.
Proof.
  intros H. destruct s. unfold result_extension.
  run_in H;
    repeat match goal with
           | E : _ = _ |- _ => rewrite E
           end;
    cbn [orb]; rewrite ?orb_true_r;
    (apply asm_trace_extension; trace_extension).
Qed.

Lemma Step_5_1_trace env is_fast_native is_critical_native main_jni_conv mr_conv
      s s' :
  Step_5_1 env is_fast_native is_critical_native main_jni_conv mr_conv s
  = (s', Ok tt) ->
  asm_trace s'
  = asm_trace s
      ++ return_value_move is_fast_native is_critical_native main_jni_conv
                           mr_conv.
Proof.
  intros H. destruct s. unfold return_value_move.
  run_in H;
    repeat match goal with
           | E : _ = _ |- _ => rewrite E
           end;
    cbn [negb andb orb]; rewrite ?andb_false_r;
    (apply asm_trace_extension; trace_extension).
Qed.

(** X19. Around the native call.  In every stub the move of the arguments,
    the passing of the JNI environment (from the first callee-save scratch
    register to the first native parameter; not for a critical native
    method), the call of or the jump to the native code, the extension of a
    small result and the spill or the move of the return value follow one
    another with nothing in between: no call on the assembler can disturb
    the argument registers before the native code is entered, or the return
    register before the result is put away. *)
Theorem native_call_sequence
        env kPointerSize options access_flags method_idx dex_file s r :
  ArtJniCompileMethodInternal env kPointerSize options access_flags method_idx
                              dex_file initial_state = (s, Ok r) ->
  let main := main_conv_of env options access_flags method_idx dex_file in
  let mr := mr_conv_of env options access_flags method_idx dex_file in
  let is_fast_native := fast_native_of env access_flags in
  let is_critical_native := critical_native_of env access_flags in
  exists before dests srcs refs entry after,
    asm_trace s
    = before
        ++ [MoveArguments dests srcs refs]
        ++ jni_env_argument kPointerSize is_critical_native main
        ++ [entry]
        ++ result_extension env main
        ++ return_value_move is_fast_native is_critical_native main mr
        ++ after
    /\ is_native_entry entry = true.
Proof.
  intros H main mr is_fast_native is_critical_native.
  apply compile_Ok in H. unfold EmitStub in H.
  fold main mr is_fast_native is_critical_native in H.
  do 8 (let a := fresh in let t := fresh in let X := fresh in
        peel H a t X; clear X).
  peel H regs u3 X3. apply Step_3_local_reference in X3. cbv zeta in X3.
  destruct X3 as (R3 & _).
  peel H x41 u41 X41. destruct x41. apply Step_4_1_last in X41.
  destruct X41 as (before & dests & srcs & refs & T41).
  peel H x42 u42 X42. destruct x42. apply Step_4_2_run in X42.
  peel H x43 u43 X43. destruct x43. apply Step_4_3_entry in X43.
  destruct X43 as (entry & T43 & E43).
  peel H x44 u44 X44. destruct x44. apply Step_4_4_trace in X44.
  peel H x51 u51 X51. destruct x51. apply Step_5_1_trace in X51.
  extension_of H Y. destruct Y as [after Y].
  exists before, dests, srcs, refs, entry, after.
  split; [| exact E43].
  rewrite Y, X51, X44, T43, X42, T41. unfold jni_env_argument.
  subst regs. clearbody is_critical_native.
  destruct is_critical_native; cbn [fst snd]; rewrite <- !app_assoc;
    reflexivity.
Qed.

Lemma native_call_sequence_witness :
  exists before dests srcs refs entry after,
    asm_trace (fst (Sample.compile true false 524552 "II"))
    = before
        ++ [MoveArguments dests srcs refs]
        ++ [Move 10 20 8]
        ++ [entry]
        ++ []
        ++ [Move 0 10 4]
        ++ after
    /\ is_native_entry entry = true.
Proof.
  apply (native_call_sequence
           (Sample.environment true false) k64 Sample.options 524552 0
           (Sample.dex "II") (fst (Sample.compile true false 524552 "II"))
           (returned no_method (Sample.compile true false 524552 "II"))).
  vm_compute. reflexivity.
Defined.

(** ** The assertions on [method_register] never fire *)

Section FailsOnly.

Context (P : Failure -> Prop).

Lemma fails_only_never {A} (m : M A) : never_fatal m -> fails_only P m.
Proof. intros Hm s s' f H. destruct (Hm _ _ _ H). Qed.

Lemma fails_only_fail {A} f : P f -> fails_only P (@fail A f).
Proof. intros Hf s s' f' H. inversion H; subst. exact Hf. Qed.

Lemma fails_only_bind {A B} (m : M A) (k : A -> M B) :
  fails_only P m -> (forall a, fails_only P (k a)) -> fails_only P (bind m k).
Proof.
  intros Hm Hk s s' f H. apply bind_Fatal in H.
  destruct H as [H | (a & s1 & _ & H)].
  - exact (Hm _ _ _ H).
  - exact (Hk _ _ _ _ H).
Qed.

Lemma fails_only_CHECK line cond :
  P (CheckFailed line) -> fails_only P (CHECK line cond).
Proof.
  intros Hf. destruct cond; [apply fails_only_never, never_fatal_ret |].
  apply fails_only_fail. exact Hf.
Qed.

Lemma fails_only_DCHECK env line cond :
  P (DCheckFailed line) -> fails_only P (DCHECK env line cond).
Proof.
  intros Hf. unfold DCHECK.
  destruct (kIsDebugBuild env); [| apply fails_only_never, never_fatal_ret].
  destruct cond; [apply fails_only_never, never_fatal_ret |].
  apply fails_only_fail. exact Hf.
Qed.

Lemma fails_only_for_each_remaining n body :
  fails_only P body -> fails_only P (for_each_remaining n body).
Proof.
  intros Hb. induction n as [| n IH]; cbn [for_each_remaining].
  - apply fails_only_never, never_fatal_ret.
  - repeat (apply fails_only_bind; [| intros _]);
      try exact Hb; try exact IH; apply fails_only_never, never_fatal_update.
Qed.

End FailsOnly.

(** Walking a program of the emitter; [solve_failure] proves that each
    failure the program can stop with satisfies [P]. *)
Ltac fails_rule solve_failure :=
  cbn [negb andb orb fst snd];
  lazymatch goal with
  | |- fails_only _ (bind _ _) => apply fails_only_bind; [ | intros ? ]
  | |- fails_only _ (ret _) => apply fails_only_never, never_fatal_ret
  | |- fails_only _ (fail _) => apply fails_only_fail; solve_failure
  | |- fails_only _ (gets _) => apply fails_only_never, never_fatal_gets
  | |- fails_only _ (update _) => apply fails_only_never, never_fatal_update
  | |- fails_only _ (emit _) => apply fails_only_never, never_fatal_emit
  | |- fails_only _ CreateLabel =>
      apply fails_only_never, never_fatal_CreateLabel
  | |- fails_only _ (assign_method_register _) =>
      apply fails_only_never, never_fatal_assign_method_register
  | |- fails_only _ use_method_register =>
      apply fails_only_never, never_fatal_use_method_register
  | |- fails_only _ (CHECK _ _) => apply fails_only_CHECK; solve_failure
  | |- fails_only _ (DCHECK _ _ _) => apply fails_only_DCHECK; solve_failure
  | |- fails_only _ (for_each_remaining _ _) =>
      apply fails_only_for_each_remaining
  | |- fails_only _ (when ?b _) => unfold when at 1
  | |- fails_only _ (if ?b then _ else _) => split_on_condition b
  | |- fails_only _ (let _ := _ in _) => cbv zeta
  | |- fails_only _ ?m => let h := head_of m in unfold h
  end.

Ltac fails_walk solve_failure := repeat (fails_rule solve_failure).

(** 4.3: the method register is a register when the native code is
    called. *)
Lemma Step_4_3_checks env instruction_set is_critical_native main_jni_conv
      s s' f :
  (is_critical_native = false -> IsRegister (method_register s) = true) ->
  Step_4_3 env instruction_set is_critical_native main_jni_conv s
  = (s', Fatal f) ->
  other_failure f.
Proof.
  intros W H. destruct is_critical_native.
  - revert H. refine ((_ : fails_only other_failure _) _ _ _).
    fails_walk ltac:(reflexivity).
  - specialize (W eq_refl). exfalso. unfold Step_4_3 in H.
    apply bind_Fatal in H. destruct H as [H | (m & t & X & H)];
      [exact (never_fatal_gets _ _ _ _ H) |].
    apply gets_Ok in X. destruct X as [-> ->].
    apply bind_Fatal in H. destruct H as [H | (x & t & X & H)].
    + unfold DCHECK in H. rewrite W in H.
      destruct (kIsDebugBuild env); exact (Ok_not_Fatal _ _ _ _ H).
    + revert H. refine ((_ : never_fatal _) _ _ _).
      never_walk check_holds.
Qed.

Lemma Fatal_value {A} (s s' : State) (f f' : Failure) :
  (s, @Fatal A f) = (s', Fatal f') -> f' = f.
Proof. intros H. inversion H. reflexivity. Qed.

(** Running a short program that aborted: every test met on the way is
    decided both ways, and the failure is read off. *)
Ltac run_aborted H f :=
  unfold_emitter H; eval_in H; repeat (break_if H; eval_in H);
  first [ exfalso; exact (Ok_not_Fatal _ _ _ _ H)
        | apply Fatal_value in H; subst f ].

(** 4.1: the assertions on [method_register] hold. *)
Lemma Step_4_1_checks env kPointerSize is_static (is_fast_native : bool)
      is_critical_native main_jni_conv end_jni_conv mr_conv callee_save_temp
      s s' f :
  well_formed_registers env main_jni_conv mr_conv ->
  (is_critical_native = false ->
   IsRegister callee_save_temp = true
   /\ method_register s = (if is_fast_native then mr_MethodRegister mr_conv
                           else NoRegister)) ->
  Step_4_1 env kPointerSize is_static is_fast_native is_critical_native
           main_jni_conv end_jni_conv mr_conv callee_save_temp s
  = (s', Fatal f) ->
  other_failure f.
Proof.
  intros (Wm & Wp & Wo & Wc & _) W H. destruct is_critical_native.
  { revert H. refine ((_ : fails_only other_failure _) _ _ _).
    fails_walk ltac:(reflexivity). }
  destruct (W eq_refl) as [Wt M]. clear W.
  assert (Wn : IsRegister (CoreRegisterWithSize env callee_save_temp
                                                (kRawPointerSize kPointerSize))
               = true) by (apply Wc; exact Wt).
  unfold Step_4_1 in H.
  apply bind_Fatal in H.
  destruct H as [H | (? & ? & X & H)];
    [ exfalso; revert H; refine ((_ : never_fatal _) _ _ _);
      solve [never_walk check_holds] |].
  unfold_emitter X. apply update_Ok in X. destruct X as [-> ->]. cbn in H.
  apply bind_Fatal in H. destruct H as [H | (x5 & t5 & _ & H)].
  - destruct s. cbn in M.
    match type of M with ?m = _ => subst m end.
    unfold IsRegister in Wm, Wn.
    run_aborted H f; try reflexivity; exfalso;
      repeat match goal with
             | E : jni_IsParamOnStack _ _ = _ |- _ => rewrite Wo in E
             | E : negb ?b = _ |- _ =>
                 destruct b eqn:?; try discriminate E; clear E
             end;
      try match goal with
          | E : IsNoRegister NoRegister = false |- _ =>
              vm_compute in E; discriminate E
          end;
      cbn in *; congruence.
  - revert H. refine ((_ : fails_only other_failure _) _ _ _).
    fails_walk ltac:(reflexivity).
Qed.

(** A step that has none of the assertions on [method_register]. *)
Ltac step_failed H :=
  revert H; refine ((_ : fails_only other_failure _) _ _ _);
  solve [fails_walk ltac:(reflexivity)].

(** The first action of [H] either failed, which [tac] settles, or ran to
    the state [t] with the value [x], as [X] records. *)
Ltac ran_or H x t X tac :=
  apply bind_Fatal in H; destruct H as [H | (x & t & X & H)]; [ tac | ].

(** Over a step that leaves [method_register] alone;
    [M : method_register t = _] for the state at which [H] starts. *)
Ltac harmless_or_failed H M :=
  let x := fresh "x" in
  let t := fresh "t" in
  let X := fresh "X" in
  ran_or H x t X ltac:(step_failed H);
  apply emits_only_mr_run in X; [| solve [emits_walk solve_event]];
  destruct X as [_ X]; rewrite M in X; clear M; rename X into M.

Lemma EmitStub_checks env kPointerSize instruction_set is_static
      is_synchronized (is_fast_native : bool) is_critical_native
      main_jni_conv end_jni_conv mr_conv options s f :
  well_formed_registers env main_jni_conv mr_conv ->
  EmitStub env kPointerSize instruction_set is_static is_synchronized
           is_fast_native is_critical_native main_jni_conv end_jni_conv
           mr_conv options initial_state = (s, Fatal f) ->
  other_failure f.
Proof.
  intros W H. pose proof W as (Wm & _). destruct is_critical_native.
  { step_failed H. }
  unfold EmitStub in H.
  assert (M : method_register initial_state = NoRegister) by reflexivity.
  do 2 harmless_or_failed H M. clear M.
  ran_or H y1 v1 Y1 ltac:(step_failed H). destruct y1.
  apply (Step_1_1_mr _ _ _ _ _ Wm) in Y1. destruct Y1 as [_ M].
  do 3 harmless_or_failed H M.
  ran_or H y2 v2 Y2 ltac:(step_failed H). destruct y2.
  apply Step_2_2_mr in Y2; [| rewrite M; exact Wm].
  destruct Y2 as [_ M2]. rewrite M in M2. clear M. rename M2 into M.
  ran_or H y3 v3 Y3 ltac:(step_failed H).
  apply Step_2_3_mr in Y3; [| rewrite M; exact Wm].
  destruct Y3 as [_ M3]. rewrite M in M3. clear M. rename M3 into M.
  ran_or H regs v4 Y4 ltac:(step_failed H).
  pose proof (Step_3_regs _ _ _ _ _ _ _ W Y4) as Wt.
  apply emits_only_mr_run in Y4; [| solve [emits_walk solve_event]].
  destruct Y4 as [_ M4]. rewrite M in M4. clear M. rename M4 into M.
  ran_or H y5 v5 Y5
    ltac:(exact (Step_4_1_checks _ _ _ _ _ _ _ _ _ _ _ _ W
                   (fun _ => conj Wt M) H)).
  destruct y5. apply (Step_4_1_mr _ _ _ _ _ _ _ _ _ _ W Wt M) in Y5. clear M.
  destruct Y5 as [_ M].
  ran_or H y6 v6 Y6 ltac:(step_failed H).
  apply emits_only_mr_run in Y6; [| solve [emits_walk solve_event]].
  destruct Y6 as [_ M6]. rewrite <- M6 in M. clear M6.
  ran_or H y7 v7 Y7
    ltac:(exact (Step_4_3_checks _ _ _ _ _ _ _ (fun _ => M) H)).
  clear - H. step_failed H.
Qed.

Lemma check_shorty_fails env shorty :
  fails_only other_failure (check_shorty env shorty).
Proof.
  induction shorty as [| c sh IH]; cbn [check_shorty].
  - apply fails_only_never, never_fatal_ret.
  - apply fails_only_bind; [| intros _; exact IH].
    apply fails_only_CHECK. reflexivity.
Qed.

Lemma validate_attributes_fails env is_static is_synchronized is_fast_native
      is_critical_native shorty :
  fails_only other_failure
             (validate_attributes env is_static is_synchronized is_fast_native
                                  is_critical_native shorty).
Proof.
  unfold validate_attributes, when.
  destruct (kIsDebugBuild env); [| apply fails_only_never, never_fatal_ret].
  apply fails_only_bind.
  - destruct (is_fast_native && is_critical_native);
      [apply fails_only_fail; reflexivity
      | apply fails_only_never, never_fatal_ret].
  - intros _. destruct is_critical_native;
      [| apply fails_only_never, never_fatal_ret].
    repeat (apply fails_only_bind;
            [apply fails_only_CHECK; reflexivity | intros _]).
    apply check_shorty_fails.
Qed.

(** X20. Whatever a compile stops with, it is none of the assertions on
    the place of the method: with registers as the conventions promise them
    (the method register and the register parameters are registers, a
    parameter is on the stack exactly when it is in no register, resizing a
    register gives a register, the callee-save scratch registers are
    registers), the [DCHECK]s of lines 427, 430, 439 and 519 hold in every
    run, for every access flags and shorty, in a debug build too. *)
Theorem method_register_assertions_hold
        env kPointerSize options access_flags method_idx dex_file s f :
  well_formed_registers
    env (main_conv_of env options access_flags method_idx dex_file)
    (mr_conv_of env options access_flags method_idx dex_file) ->
  ArtJniCompileMethodInternal env kPointerSize options access_flags method_idx
                              dex_file initial_state = (s, Fatal f) ->
  is_method_register_check f = false.
Proof.
  intros W H. unfold ArtJniCompileMethodInternal in H. cbv zeta in H.
  ran_or H y1 v1 Y1 ltac:(step_failed H).
  assert (v1 = initial_state) as ->.
  { unfold CHECK in Y1. destruct (has_flag access_flags (kAccNative env));
      inversion Y1; reflexivity. }
  ran_or H y2 v2 Y2 ltac:(exact (validate_attributes_fails _ _ _ _ _ _ _ _ _ H)).
  apply validate_attributes_state in Y2. subst v2.
  exact (EmitStub_checks _ _ _ _ _ _ _ _ _ _ _ _ _ W H).
Qed.

Lemma method_register_assertions_hold_witness :
  snd (Sample.compile true false 524576 "IL") = Fatal (DCheckFailed 772)
  /\ is_method_register_check (DCheckFailed 772) = false.
Proof.
  split; [vm_compute; reflexivity |].
  apply (method_register_assertions_hold
           (Sample.environment true false) k64 Sample.options 524576 0
           (Sample.dex "IL")
           (fst (Sample.compile true false 524576 "IL"))
           (DCheckFailed 772)
           (Sample_well_formed_registers true false 524576 "IL")).
  vm_compute. reflexivity.
Defined.

(** ** Synchronized fast native methods *)

(** Over a step of a successful run, keeping nothing of it. *)
Ltac drop_step H :=
  let a := fresh "a" in
  let u := fresh "u" in
  let U := fresh "U" in
  peel H a u U; clear U.

(** 8.3 does not return for a synchronized fast native method in a debug
    build. *)
Lemma Step_8_3_synchronized_fast_native env kPointerSize main_jni_conv
      monitor_enter_exception_slow_path exception_slow_path jni_env_reg
      saved_cookie_reg callee_save_temp s s' :
  kIsDebugBuild env = true ->
  Step_8_3 env kPointerSize true true false main_jni_conv
           monitor_enter_exception_slow_path exception_slow_path jni_env_reg
           saved_cookie_reg callee_save_temp s <> (s', Ok tt).
Proof.
  intros Hd H. unfold Step_8_3, when in H. cbn [negb] in H.
  peel H a u U. peel U b v V. unfold DCHECK in V. rewrite Hd in V.
  exact (Fatal_not_Ok _ _ _ _ V).
Qed.

(** X21. A debug build compiles no method that is both synchronized and
    fast native: whatever the other access flags, the shorty and the
    conventions are, the compile aborts. When nothing stops it earlier, the
    stub is emitted up to the exception slow paths, where the assertion of
    line 772 ([!is_fast_native] for a synchronized method) fails. *)
Theorem debug_build_rejects_synchronized_fast_native
        env kPointerSize options access_flags method_idx dex_file s r :
  kIsDebugBuild env = true ->
  synchronized_of env access_flags = true ->
  fast_native_of env access_flags = true ->
  ArtJniCompileMethodInternal env kPointerSize options access_flags method_idx
                              dex_file initial_state = (s, r) ->
  exists f, r = Fatal f.
Proof.
  intros Hd Hs Hf H. destruct r as [r | f]; [exfalso | eauto].
  destruct (critical_native_of env access_flags) eqn:Hc.
  - unfold ArtJniCompileMethodInternal in H. cbv zeta in H.
    peel H a u U. peel H b v V.
    unfold synchronized_of, fast_native_of, critical_native_of in *.
    unfold validate_attributes, when in V. rewrite Hd, Hf, Hc in V.
    cbn [andb] in V. peel V c w W. exact (Fatal_not_Ok _ _ _ _ W).
  - apply compile_Ok in H. rewrite Hs, Hf, Hc in H. unfold EmitStub in H.
    do 24 drop_step H. peel H x t X. destruct x.
    exact (Step_8_3_synchronized_fast_native _ _ _ _ _ _ _ _ _ _ Hd X).
Qed.

Lemma debug_build_rejects_synchronized_fast_native_witness :
  exists f, snd (Sample.compile true false 524576 "IL") = Fatal f.
Proof.
  apply (debug_build_rejects_synchronized_fast_native
           (Sample.environment true false) k64 Sample.options 524576 0
           (Sample.dex "IL")
           (fst (Sample.compile true false 524576 "IL"))
           (snd (Sample.compile true false 524576 "IL"))).
  - reflexivity.
  - vm_compute. reflexivity.
  - vm_compute. reflexivity.
  - vm_compute. reflexivity.
Defined.
